(** * AskStashServer: a shallow embedding of the request handlers and their helpers

    The development follows the two Python modules of the server:
    [dependencies.py] (password hashing, token issue, text extraction, response
    generation) and [routes.py] (token verification and the HTTP handlers over
    the three stored collections).

    Conventions.
    - A Python [str] is the list of its code points ([pystr]); [bytes] is a list
      of [Byte.byte].  A string may hold lone surrogates, as a Python [str]
      may; a number above 0x10FFFF is no code point and occurs in no string.
    - Python exceptions are values of [exn]; every class that occurs is a
      subclass of [Exception].  A computation that may raise returns
      [result A]; a handler that also reads or writes the store or the clock
      lives in the monad [M].
    - The configuration and the third-party collaborators (file sniffing, the
      PDF and Word parsers, the generative model, the HS256 signature) are
      fields of the record [Env]; the definitions are stated for an arbitrary
      [Env]. *)

From Stdlib Require Import String Ascii Numbers.DecimalString Strings.Byte.
From Stdlib Require Import NArith ZArith Bool Lia.
From Stdlib Require Import List Sorting.Sorted Sorting.Permutation.
Import ListNotations.

Local Open Scope list_scope.

(* ================================================================== *)
(** ** Text and bytes *)

Definition pystr := list N.
Definition bytes := list byte.

(** A literal of the source, written as a Rocq string of ASCII characters. *)
Definition lit (s : string) : pystr :=
  map N_of_ascii (list_ascii_of_string s).

(** The line feed, Python's ["\n"]. *)
Definition nl : pystr := [10%N].

Definition byte_of_N (n : N) : byte :=
  match Byte.of_N (n mod 256) with
  | Some b => b
  | None => x00
  end.

Definition pystr_eqb (a b : pystr) : bool :=
  if list_eq_dec N.eq_dec a b then true else false.

Fixpoint startswith (prefix s : pystr) : bool :=
  match prefix, s with
  | [], _ => true
  | p :: prefix', c :: s' => N.eqb p c && startswith prefix' s'
  | _ :: _, [] => false
  end.

(** [sep.join(parts)] *)
Fixpoint join (sep : pystr) (parts : list pystr) : pystr :=
  match parts with
  | [] => []
  | [p] => p
  | p :: rest => p ++ sep ++ join sep rest
  end.

(** The characters [str.strip()] removes: CPython's [_PyUnicode_IsWhitespace]. *)
Definition isspace (c : N) : bool :=
  ((9 <=? c) && (c <=? 13) || (28 <=? c) && (c <=? 32)
   || (c =? 133) || (c =? 160) || (c =? 5760)
   || (8192 <=? c) && (c <=? 8202)
   || (c =? 8232) || (c =? 8233) || (c =? 8239) || (c =? 8287)
   || (c =? 12288))%N.

Fixpoint lstrip (s : pystr) : pystr :=
  match s with
  | c :: s' => if isspace c then lstrip s' else s
  | [] => []
  end.

Definition rstrip (s : pystr) : pystr := rev (lstrip (rev s)).

Definition strip (s : pystr) : pystr := rstrip (lstrip s).

(** Truth value of a string: non-empty. *)
Definition truthy (s : pystr) : bool :=
  match s with [] => false | _ :: _ => true end.

(** [str(n)] for a non-negative integer. *)
Definition str_of_nat (n : nat) : pystr :=
  lit (NilEmpty.string_of_uint (Nat.to_uint n)).

(** The UTF-8 bytes of a code point and of a string. *)
Definition utf8_encode_cp (c : N) : bytes :=
  (if c <? 0x80 then [byte_of_N c]
   else if c <? 0x800 then
     [byte_of_N (0xC0 + c / 64); byte_of_N (0x80 + c mod 64)]
   else if c <? 0x10000 then
     [byte_of_N (0xE0 + c / 4096); byte_of_N (0x80 + (c / 64) mod 64);
      byte_of_N (0x80 + c mod 64)]
   else
     [byte_of_N (0xF0 + c / 262144); byte_of_N (0x80 + (c / 4096) mod 64);
      byte_of_N (0x80 + (c / 64) mod 64); byte_of_N (0x80 + c mod 64)])%N.

Definition utf8_encode (s : pystr) : bytes := flat_map utf8_encode_cp s.

(** Unicode scalar values: the code points of well-formed text, that is every
    code point but the surrogates. *)
Definition scalar_value (c : N) : bool :=
  ((c <? 0xD800) || (0xE000 <=? c) && (c <=? 0x10FFFF))%N.

(* ================================================================== *)
(** ** SHA-256 ([hashlib.sha256], FIPS 180-4) *)

Module SHA256.
Local Open Scope N_scope.

Definition w32 (x : N) : N := x mod 0x100000000.
Definition add32 (x y : N) : N := w32 (x + y).
Definition rotr (n x : N) : N :=
  N.lor (N.shiftr x n) (w32 (N.shiftl x (32 - n))).
Definition not32 (x : N) : N := N.lxor x 0xFFFFFFFF.

Definition Ch (x y z : N) : N := N.lxor (N.land x y) (N.land (not32 x) z).
Definition Maj (x y z : N) : N :=
  N.lxor (N.lxor (N.land x y) (N.land x z)) (N.land y z).
Definition Sigma0 (x : N) : N := N.lxor (N.lxor (rotr 2 x) (rotr 13 x)) (rotr 22 x).
Definition Sigma1 (x : N) : N := N.lxor (N.lxor (rotr 6 x) (rotr 11 x)) (rotr 25 x).
Definition sigma0 (x : N) : N := N.lxor (N.lxor (rotr 7 x) (rotr 18 x)) (N.shiftr x 3).
Definition sigma1 (x : N) : N := N.lxor (N.lxor (rotr 17 x) (rotr 19 x)) (N.shiftr x 10).

(** Big-endian reading of words written in hexadecimal and separated by
    spaces, as the standard prints its tables. *)
Definition hex_value (c : ascii) : N :=
  let n := N_of_ascii c in
  if n <? 58 then n - 48 else n - 87.

Fixpoint hex_words_from (s : string) (acc : N) : list N :=
  match s with
  | EmptyString => [acc]
  | String c s' =>
      if Ascii.eqb c " "%char then acc :: hex_words_from s' 0
      else hex_words_from s' (16 * acc + hex_value c)
  end.

Definition hex_words (s : string) : list N := hex_words_from s 0.

(** The round constants (FIPS 180-4, section 4.2.2). *)
Definition K : list N :=
  hex_words "428a2f98 71374491 b5c0fbcf e9b5dba5 3956c25b 59f111f1 923f82a4 ab1c5ed5"
  ++ hex_words "d807aa98 12835b01 243185be 550c7dc3 72be5d74 80deb1fe 9bdc06a7 c19bf174"
  ++ hex_words "e49b69c1 efbe4786 0fc19dc6 240ca1cc 2de92c6f 4a7484aa 5cb0a9dc 76f988da"
  ++ hex_words "983e5152 a831c66d b00327c8 bf597fc7 c6e00bf3 d5a79147 06ca6351 14292967"
  ++ hex_words "27b70a85 2e1b2138 4d2c6dfc 53380d13 650a7354 766a0abb 81c2c92e 92722c85"
  ++ hex_words "a2bfe8a1 a81a664b c24b8b70 c76c51a3 d192e819 d6990624 f40e3585 106aa070"
  ++ hex_words "19a4c116 1e376c08 2748774c 34b0bcb5 391c0cb3 4ed8aa4a 5b9cca4f 682e6ff3"
  ++ hex_words "748f82ee 78a5636f 84c87814 8cc70208 90befffa a4506ceb bef9a3f7 c67178f2".

(** The eight working words. *)
Record state := mkState
  { sa : N; sb : N; sc : N; sd : N; se : N; sf : N; sg : N; sh : N }.

(** The initial hash value (FIPS 180-4, section 5.3.3). *)
Definition H0 : state :=
  let h := hex_words "6a09e667 bb67ae85 3c6ef372 a54ff53a 510e527f 9b05688c 1f83d9ab 5be0cd19" in
  let at_ i := nth i h 0 in
  mkState (at_ 0%nat) (at_ 1%nat) (at_ 2%nat) (at_ 3%nat)
          (at_ 4%nat) (at_ 5%nat) (at_ 6%nat) (at_ 7%nat).

(** Padding: a one bit, zeros up to 56 modulo 64, the bit length on 8 bytes. *)
Definition be_bytes (k : nat) (x : N) : list N :=
  map (fun i => (x / 2 ^ (8 * N.of_nat i)) mod 256) (rev (seq 0 k)).

Definition pad (msg : list N) : list N :=
  let len := N.of_nat (length msg) in
  let zeros := N.to_nat ((119 - len mod 64) mod 64) in
  msg ++ [0x80] ++ repeat 0 zeros ++ be_bytes 8 ((8 * len) mod 2 ^ 64).

Definition be_word (b0 b1 b2 b3 : N) : N :=
  b0 * 0x1000000 + b1 * 0x10000 + b2 * 0x100 + b3.

(** The sixteen big-endian words of a 64-byte block. *)
Fixpoint words (k : nat) (l : list N) : list N :=
  match k, l with
  | S k', b0 :: b1 :: b2 :: b3 :: l' => be_word b0 b1 b2 b3 :: words k' l'
  | _, _ => []
  end.

(** The message schedule, extended from 16 to 64 words. *)
Fixpoint schedule (k : nat) (w : list N) : list N :=
  match k with
  | O => w
  | S k' =>
      let t := length w in
      let at_ i := nth (t - i) w 0 in
      schedule k' (w ++ [add32 (add32 (add32 (sigma1 (at_ 2%nat)) (at_ 7%nat))
                                      (sigma0 (at_ 15%nat))) (at_ 16%nat)])
  end.

Definition round (s : state) (kw : N * N) : state :=
  let '(k, w) := kw in
  let t1 := add32 (add32 (add32 (add32 (sh s) (Sigma1 (se s)))
                                (Ch (se s) (sf s) (sg s))) k) w in
  let t2 := add32 (Sigma0 (sa s)) (Maj (sa s) (sb s) (sc s)) in
  mkState (add32 t1 t2) (sa s) (sb s) (sc s) (add32 (sd s) t1) (se s) (sf s) (sg s).

Definition compress (h : state) (block : list N) : state :=
  let w := schedule 48 (words 16 block) in
  let s := fold_left round (combine K w) h in
  mkState (add32 (sa h) (sa s)) (add32 (sb h) (sb s)) (add32 (sc h) (sc s))
          (add32 (sd h) (sd s)) (add32 (se h) (se s)) (add32 (sf h) (sf s))
          (add32 (sg h) (sg s)) (add32 (sh h) (sh s)).

(** The blocks of the padded message, taken 64 bytes at a time. *)
Fixpoint blocks (fuel : nat) (l : list N) : list (list N) :=
  match fuel, l with
  | S fuel', _ :: _ => firstn 64 l :: blocks fuel' (skipn 64 l)
  | _, _ => []
  end.

Definition digest_state (msg : bytes) : state :=
  let p := pad (map Byte.to_N msg) in
  fold_left compress (blocks (length p) p) H0.

Definition state_words (s : state) : list N :=
  [sa s; sb s; sc s; sd s; se s; sf s; sg s; sh s].

(** [hashlib.sha256(msg).digest()]: 32 bytes. *)
Definition digest (msg : bytes) : list N :=
  flat_map (be_bytes 4) (state_words (digest_state msg)).

Definition hexdigits : pystr := lit "0123456789abcdef".

Definition hex_byte (b : N) : pystr :=
  [nth (N.to_nat ((b / 16) mod 16)) hexdigits 0; nth (N.to_nat (b mod 16)) hexdigits 0].

(** [hashlib.sha256(msg).hexdigest()]: 64 lower-case hexadecimal digits. *)
Definition hexdigest (msg : bytes) : pystr := flat_map hex_byte (digest msg).

End SHA256.

(* ================================================================== *)
(** ** Exceptions and results *)

(** The exception classes that occur; all of them derive from [Exception].
    [ExpiredSignatureError] derives from [PyJWTError]; [PyJWTError] below stands
    for the library's other errors (decode, signature, algorithm).
    [OtherError] is any other exception a collaborator raises. *)
Inductive exn : Type :=
| HTTPException (status_code : N) (detail : pystr)
| ExpiredSignatureError (msg : pystr)
| PyJWTError (msg : pystr)
| UnicodeDecodeError (msg : pystr)
| UnicodeEncodeError (msg : pystr)
| OtherError (msg : pystr).

Inductive result (A : Type) : Type :=
| Ok (a : A)
| Raise (e : exn).
Arguments Ok {A} a.
Arguments Raise {A} e.

Definition rbind {A B} (c : result A) (k : A -> result B) : result B :=
  match c with
  | Ok a => k a
  | Raise e => Raise e
  end.

(** [try: body  except ...: handler]; a handler re-raises what it does not catch. *)
Definition rtry {A} (body : result A) (handler : exn -> result A) : result A :=
  match body with
  | Ok a => Ok a
  | Raise e => handler e
  end.

Declare Scope result_scope.
Delimit Scope result_scope with result.
Notation "x <- c ;; k" := (rbind c (fun x => k))
  (at level 61, c at next level, right associativity) : result_scope.

(* ================================================================== *)
(** ** Credential codec ([dependencies.py], lines 41-45) *)

(** The length of the run of surrogates a string starts with. *)
Fixpoint surrogate_run (s : pystr) : nat :=
  match s with
  | [] => 0
  | c :: rest => if scalar_value c then 0 else S (surrogate_run rest)
  end.

(** The first code point UTF-8 cannot encode: its position, the code point and
    the length of the run of such code points it starts. *)
Fixpoint first_surrogate (s : pystr) (pos : nat) : option (nat * N * nat) :=
  match s with
  | [] => None
  | c :: rest =>
      if scalar_value c then first_surrogate rest (S pos)
      else Some (pos, c, S (surrogate_run rest))
  end.

(** [\uXXXX], as the message of the codec error writes a code point. *)
Definition escape_u (c : N) : pystr :=
  lit "\u"
  ++ map (fun k => nth (N.to_nat ((c / 16 ^ k) mod 16)) SHA256.hexdigits 0%N)
         [3; 2; 1; 0]%N.

(** [str(e)] of the [UnicodeEncodeError] the UTF-8 codec raises. *)
Definition surrogates_not_allowed (pos : nat) (c : N) (run : nat) : pystr :=
  match run with
  | 1 => lit "'utf-8' codec can't encode character '" ++ escape_u c
         ++ lit "' in position " ++ str_of_nat pos
         ++ lit ": surrogates not allowed"
  | _ => lit "'utf-8' codec can't encode characters in position "
         ++ str_of_nat pos ++ lit "-" ++ str_of_nat (pos + run - 1)
         ++ lit ": surrogates not allowed"
  end.

(** [s.encode()]: the UTF-8 bytes of the string; a surrogate cannot be encoded
    and raises [UnicodeEncodeError].  (A number above 0x10FFFF, which no string
    holds, is refused alike.) *)
Definition str_encode (s : pystr) : result bytes :=
  match first_surrogate s 0 with
  | None => Ok (utf8_encode s)
  | Some (pos, c, run) =>
      Raise (UnicodeEncodeError (surrogates_not_allowed pos c run))
  end.

(** [hashlib.sha256(data).hexdigest()] *)
Definition sha256_hexdigest (data : bytes) : pystr := SHA256.hexdigest data.

(** Lines 41-42. *)
Definition hash_password (password : pystr) : result pystr :=
  (data <- str_encode password ;;
   Ok (sha256_hexdigest data))%result.

(** Lines 44-45. *)
Definition verify_password (plain_password hashed_password : pystr) : result bool :=
  (hashed <- hash_password plain_password ;;
   Ok (pystr_eqb hashed hashed_password))%result.

(* ================================================================== *)
(** ** More string operations used by the handlers *)

(** ['c' in s] for a single character. *)
Definition contains_char (c : N) (s : pystr) : bool := existsb (N.eqb c) s.

(** [x in [a, b, ...]] for strings. *)
Definition mem_str (x : pystr) (l : list pystr) : bool := existsb (pystr_eqb x) l.

(** [s.split(c)] for a single-character separator: never empty. *)
Fixpoint split_on (c : N) (s : pystr) : list pystr :=
  match s with
  | [] => [[]]
  | x :: s' =>
      if N.eqb x c then [] :: split_on c s'
      else match split_on c s' with
           | seg :: rest => (x :: seg) :: rest
           | [] => [[x]]
           end
  end.

(** [s.lstrip(chars)] *)
Fixpoint lstrip_chars (chars : pystr) (s : pystr) : pystr :=
  match s with
  | c :: s' => if contains_char c chars then lstrip_chars chars s' else s
  | [] => []
  end.

(** [bytes.decode('utf-8')]: well-formed UTF-8 only (Unicode table 3-7);
    [None] stands for [UnicodeDecodeError]. *)
Definition is_cont (b : N) : bool := ((0x80 <=? b) && (b <=? 0xBF))%N.

Fixpoint utf8_decode_N (l : list N) : option pystr :=
  match l with
  | [] => Some []
  | b0 :: l1 =>
      if (b0 <? 0x80)%N then option_map (cons b0) (utf8_decode_N l1)
      else if ((0xC2 <=? b0) && (b0 <=? 0xDF))%N then
        match l1 with
        | b1 :: l2 =>
            if is_cont b1
            then option_map (cons ((b0 - 0xC0) * 64 + (b1 - 0x80))%N) (utf8_decode_N l2)
            else None
        | _ => None
        end
      else if ((0xE0 <=? b0) && (b0 <=? 0xEF))%N then
        match l1 with
        | b1 :: b2 :: l3 =>
            let lo := (if b0 =? 0xE0 then 0xA0 else 0x80)%N in
            let hi := (if b0 =? 0xED then 0x9F else 0xBF)%N in
            if ((lo <=? b1) && (b1 <=? hi))%N && is_cont b2
            then option_map
                   (cons ((b0 - 0xE0) * 4096 + (b1 - 0x80) * 64 + (b2 - 0x80))%N)
                   (utf8_decode_N l3)
            else None
        | _ => None
        end
      else if ((0xF0 <=? b0) && (b0 <=? 0xF4))%N then
        match l1 with
        | b1 :: b2 :: b3 :: l4 =>
            let lo := (if b0 =? 0xF0 then 0x90 else 0x80)%N in
            let hi := (if b0 =? 0xF4 then 0x8F else 0xBF)%N in
            if ((lo <=? b1) && (b1 <=? hi))%N && is_cont b2 && is_cont b3
            then option_map
                   (cons ((b0 - 0xF0) * 262144 + (b1 - 0x80) * 4096
                          + (b2 - 0x80) * 64 + (b3 - 0x80))%N)
                   (utf8_decode_N l4)
            else None
        | _ => None
        end
      else None
  end.

Definition utf8_decode (b : bytes) : option pystr := utf8_decode_N (map Byte.to_N b).

(** [bytes.decode('latin-1', errors='ignore')]: every byte is a code point. *)
Definition latin1_decode (b : bytes) : pystr := map Byte.to_N b.

(* ================================================================== *)
(** ** Configuration and third-party collaborators *)

(** What [docx.Document] exposes: paragraph texts, and tables as rows of cell
    texts. *)
Record Docx := mkDocx
  { paragraphs : list pystr;
    tables : list (list (list pystr)) }.

(** The payload of a session token: the claims the server writes and reads. *)
Record Claims := mkClaims
  { claim_user_id : option Z;
    claim_exp : option Z }.

Record Env := mkEnv
  { (** the [SECRET_KEY] environment variable *)
    SECRET_KEY : pystr;
    (** the HS256 signature of a header and payload under a key *)
    hs256 : pystr -> pystr -> Claims -> N;
    (** [str.lower] (the Unicode case mapping) *)
    str_lower : pystr -> pystr;
    (** [filetype.guess(content)]: the sniffed MIME type, if any *)
    filetype_guess : bytes -> result (option pystr);
    (** [PyPDF2.PdfReader(...).pages], each page with what [extract_text()] gives *)
    pdf_pages : bytes -> result (list (result pystr));
    (** [docx.Document(...)] *)
    docx_document : bytes -> result Docx;
    (** the vision model on a prompt and the opened image: [response.text] *)
    vision_generate : pystr -> bytes -> result pystr;
    (** the text model on a prompt: [response.text] *)
    model_generate : pystr -> result pystr;
    (** [str(e)] for an [HTTPException] (it depends on the Starlette release) *)
    http_exception_str : N -> pystr -> pystr }.

Definition ALGORITHM : pystr := lit "HS256".
Definition ACCESS_TOKEN_EXPIRE_MINUTES : Z := 30.

Section Dependencies.
Variable env : Env.

(** [str(e)] *)
Definition str_exn (e : exn) : pystr :=
  match e with
  | HTTPException status_code detail => http_exception_str env status_code detail
  | ExpiredSignatureError msg => msg
  | PyJWTError msg => msg
  | UnicodeDecodeError msg => msg
  | UnicodeEncodeError msg => msg
  | OtherError msg => msg
  end.

(* ------------------------------------------------------------------ *)
(** *** [extract_text_from_file] ([dependencies.py], lines 57-120) *)

Local Open Scope result_scope.

(** One [--- Page N ---] block (line 71). *)
Definition page_block (i : nat) (page_text : pystr) : pystr :=
  nl ++ lit "--- Page " ++ str_of_nat (i + 1) ++ lit " ---" ++ nl ++ page_text ++ nl.

(** The loop of lines 68-71 over [enumerate(pdf_reader.pages)], from index [i]
    with [text_parts] collected so far. *)
Fixpoint pdf_loop (pages : list (result pystr)) (i : nat) (text_parts : list pystr)
  : result (list pystr) :=
  match pages with
  | [] => Ok text_parts
  | page :: rest =>
      page_text <- page ;;
      if truthy page_text && truthy (strip page_text)
      then pdf_loop rest (S i) (text_parts ++ [page_block i page_text])
      else pdf_loop rest (S i) text_parts
  end.

(** Lines 65-74. *)
Definition extract_pdf (file_content : bytes) : result pystr :=
  rtry (pages <- pdf_pages env file_content ;;
        text_parts <- pdf_loop pages 0 [] ;;
        Ok (strip (concat text_parts)))
       (fun e => Ok (lit "[Error reading PDF: " ++ str_exn e ++ lit "]")).

(** Lines 81-83 and 84-88: non-blank paragraphs, then non-blank cells. *)
Definition docx_full_text (doc : Docx) : list pystr :=
  let full_text := filter (fun para => truthy (strip para)) (paragraphs doc) in
  fold_left
    (fun full_text table =>
       fold_left
         (fun full_text row =>
            fold_left
              (fun full_text cell =>
                 if truthy (strip cell) then full_text ++ [cell] else full_text)
              row full_text)
         table full_text)
    (tables doc) full_text.

(** Lines 78-91. *)
Definition extract_docx (file_content : bytes) : result pystr :=
  rtry (doc <- docx_document env file_content ;;
        Ok (strip (join nl (docx_full_text doc))))
       (fun e => Ok (lit "[Error reading Word document: " ++ str_exn e ++ lit "]")).

(** Lines 98-103. *)
Definition extract_text (file_content : bytes) : result pystr :=
  rtry (match utf8_decode file_content with
        | Some s => Ok s
        | None => Raise (UnicodeDecodeError (lit "'utf-8' codec can't decode bytes"))
        end)
       (fun e =>
          match e with
          | UnicodeDecodeError _ => Ok (latin1_decode file_content)
          | _ => Ok (lit "[Error reading text file: " ++ str_exn e ++ lit "]")
          end).

Definition vision_prompt : pystr :=
  lit "Extract all text from this image. If no text is present, briefly describe the image content.".

(** Lines 107-114. *)
Definition extract_image (file_content : bytes) (filename : pystr) : result pystr :=
  rtry (text <- vision_generate env vision_prompt file_content ;;
        Ok (lit "[Image content from " ++ filename ++ lit "]" ++ nl ++ text))
       (fun e => Ok (lit "[Image content from " ++ filename
                       ++ lit " - Vision processing error: " ++ str_exn e ++ lit "]")).

Definition text_extensions : list pystr :=
  map lit ["txt"; "md"; "csv"; "json"; "xml"; "html"; "htm"; "rtf"]%string.

Definition image_extensions : list pystr :=
  map lit ["jpg"; "jpeg"; "png"; "gif"; "bmp"; "webp"; "tiff"]%string.

Definition docx_mime : pystr :=
  lit "application/vnd.openxmlformats-officedocument.wordprocessingml.document".

(** Line 62: the part after the last dot, lower-cased; empty without a dot. *)
Definition file_extension_of (filename : pystr) : pystr :=
  if contains_char 46 filename
  then last (split_on 46 (str_lower env filename)) []
  else [].

Definition extract_text_from_file (file_content : bytes) (filename : pystr)
  : result pystr :=
  rtry
    (kind <- filetype_guess env file_content ;;
     let file_type :=
       match kind with
       | Some mime => mime
       | None => lit "application/octet-stream"
       end in
     let file_extension := file_extension_of filename in
     if pystr_eqb file_type (lit "application/pdf")
        || pystr_eqb file_extension (lit "pdf")
     then extract_pdf file_content
     else if pystr_eqb file_type docx_mime || pystr_eqb file_extension (lit "docx")
     then extract_docx file_content
     else if pystr_eqb file_extension (lit "doc")
     then Ok (lit "[Legacy Word document (.doc) detected. Please convert to .docx format for better text extraction. Filename: "
                ++ filename ++ lit "]")
     else if startswith (lit "text/") file_type || mem_str file_extension text_extensions
     then extract_text file_content
     else if startswith (lit "image/") file_type
             || mem_str file_extension image_extensions
     then extract_image file_content filename
     else Ok (lit "[Unsupported file type: " ++ file_type ++ lit " (extension: ."
                ++ file_extension ++ lit ").]"))
    (fun e => Ok (lit "[Error extracting text from " ++ filename ++ lit ": "
                    ++ str_exn e ++ lit "]")).

(* ------------------------------------------------------------------ *)
(** *** [generate_response] ([dependencies.py], lines 122-158) *)

Definition context_prompt (message context : pystr) : pystr :=
  lit "You are a helpful AI assistant with access to the user's uploaded documents."
  ++ nl ++ nl
  ++ lit "CONTEXT FROM USER'S DOCUMENTS:" ++ nl
  ++ context ++ nl ++ nl
  ++ lit "USER QUESTION: " ++ message ++ nl ++ nl
  ++ lit "INSTRUCTIONS:" ++ nl
  ++ lit "1. Answer the user's question primarily based on the provided document context." ++ nl
  ++ lit "2. If the documents contain relevant information, cite specific parts and be detailed." ++ nl
  ++ lit "3. If the documents don't contain relevant information, clearly state this and provide general knowledge."
  ++ nl ++ nl
  ++ lit "RESPONSE:".

Definition general_prompt (message : pystr) : pystr :=
  lit "You are a helpful AI assistant. The user has not selected any documents for context."
  ++ nl ++ nl
  ++ lit "USER QUESTION: " ++ message ++ nl ++ nl
  ++ lit "Please provide a helpful, informative response based on your general knowledge."
  ++ nl ++ nl
  ++ lit "RESPONSE:".

Definition generate_response (message context : pystr) : result pystr :=
  rtry
    (let prompt :=
       if truthy context && truthy (strip context)
       then context_prompt message context
       else general_prompt message in
     model_generate env prompt)
    (fun e => Ok (lit "I apologize, but I encountered an error while processing your request: "
                    ++ str_exn e)).

End Dependencies.
(* ================================================================== *)
(** ** The stored collections and the clock *)

Record User := mkUser
  { user_id : Z;
    user_email : pystr;
    user_password_hash : pystr;
    user_full_name : pystr;
    user_created_at : Z }.

Record Document := mkDocument
  { doc_id : Z;
    doc_user_id : Z;
    doc_filename : pystr;
    doc_content : pystr;
    doc_file_type : pystr;
    doc_created_at : Z }.

(** A provenance entry [{"id": ..., "filename": ...}]. *)
Record Source := mkSource
  { source_id : Z;
    source_filename : pystr }.

Record ChatTurn := mkChatTurn
  { turn_id : Z;
    turn_user_id : Z;
    turn_message : pystr;
    turn_response : pystr;
    turn_context_documents : list Source;
    turn_created_at : Z }.

(** The state a handler runs in: the three tables of the remote store in row
    order, the store's id sequences, whether the store answers, and the UTC
    clock in seconds. *)
Record World := mkWorld
  { users : list User;
    documents : list Document;
    chat_history : list ChatTurn;
    next_user_id : Z;
    next_doc_id : Z;
    next_turn_id : Z;
    store_up : bool;
    utcnow : Z }.

Definition set_users (f : list User -> list User) (next : Z) (w : World) : World :=
  mkWorld (f (users w)) (documents w) (chat_history w)
          next (next_doc_id w) (next_turn_id w) (store_up w) (utcnow w).

Definition set_documents (f : list Document -> list Document) (next : Z) (w : World)
  : World :=
  mkWorld (users w) (f (documents w)) (chat_history w)
          (next_user_id w) next (next_turn_id w) (store_up w) (utcnow w).

Definition set_chat_history (f : list ChatTurn -> list ChatTurn) (next : Z) (w : World)
  : World :=
  mkWorld (users w) (documents w) (f (chat_history w))
          (next_user_id w) (next_doc_id w) next (store_up w) (utcnow w).

(** Handlers: state passing over [World]; the state reached when an exception
    is raised is kept (the store does not roll back). *)
Definition M (A : Type) : Type := World -> result A * World.

Definition ret {A} (a : A) : M A := fun w => (Ok a, w).
Definition raise {A} (e : exn) : M A := fun w => (Raise e, w).
Definition bind {A B} (c : M A) (k : A -> M B) : M B :=
  fun w => match c w with
           | (Ok a, w') => k a w'
           | (Raise e, w') => (Raise e, w')
           end.
Definition lift {A} (r : result A) : M A := fun w => (r, w).

(** [try: body  except ...: handler] *)
Definition try_except {A} (body : M A) (handler : exn -> M A) : M A :=
  fun w => match body w with
           | (Ok a, w') => (Ok a, w')
           | (Raise e, w') => handler e w'
           end.

Declare Scope handler_scope.
Delimit Scope handler_scope with handler.
Notation "x <- c ;; k" := (bind c (fun x => k))
  (at level 61, c at next level, right associativity) : handler_scope.

(** [datetime.utcnow()] *)
Definition get_utcnow : M Z := fun w => (Ok (utcnow w), w).

(** [.execute()] of a query: it raises when the store does not answer. *)
Definition execute {A} (q : World -> A * World) : M A :=
  fun w =>
    if store_up w
    then let (a, w') := q w in (Ok a, w')
    else (Raise (OtherError (lit "store unavailable")), w).

(** [.order("created_at", desc=True)]: newest first, rows of equal time in
    table order. *)
Fixpoint insert_desc {A} (key : A -> Z) (x : A) (l : list A) : list A :=
  match l with
  | [] => [x]
  | y :: l' => if (key y <=? key x)%Z then x :: l else y :: insert_desc key x l'
  end.

Definition order_desc {A} (key : A -> Z) (l : list A) : list A :=
  fold_right (insert_desc key) [] l.

Module Store.

Definition users_by_email (email : pystr) : M (list User) :=
  execute (fun w => (filter (fun u => pystr_eqb (user_email u) email) (users w), w)).

Definition users_insert (email password_hash full_name : pystr) (created_at : Z)
  : M (list User) :=
  execute (fun w =>
    let row := mkUser (next_user_id w) email password_hash full_name created_at in
    ([row], set_users (fun l => l ++ [row]) (next_user_id w + 1) w)).

Definition owned_by (uid : Z) (d : Document) : bool := (doc_user_id d =? uid)%Z.
Definition has_id (id : Z) (d : Document) : bool := (doc_id d =? id)%Z.

Definition documents_insert (uid : Z) (filename content file_type : pystr)
  (created_at : Z) : M (list Document) :=
  execute (fun w =>
    let row := mkDocument (next_doc_id w) uid filename content file_type created_at in
    ([row], set_documents (fun l => l ++ [row]) (next_doc_id w + 1) w)).

(** [.eq("user_id", uid)] *)
Definition documents_of_user (uid : Z) : M (list Document) :=
  execute (fun w => (filter (owned_by uid) (documents w), w)).

(** [.eq("user_id", uid).order("created_at", desc=True)] *)
Definition documents_of_user_newest_first (uid : Z) : M (list Document) :=
  execute (fun w => (order_desc doc_created_at (filter (owned_by uid) (documents w)), w)).

(** [.eq("id", id).eq("user_id", uid)] *)
Definition documents_by_id_of_user (id uid : Z) : M (list Document) :=
  execute (fun w =>
    (filter (fun d => has_id id d && owned_by uid d) (documents w), w)).

(** [.eq("user_id", uid).in_("id", ids)] *)
Definition documents_of_user_in (uid : Z) (ids : list Z) : M (list Document) :=
  execute (fun w =>
    (filter (fun d => owned_by uid d && existsb (Z.eqb (doc_id d)) ids) (documents w), w)).

(** [.delete().eq("id", id).eq("user_id", uid)] *)
Definition documents_delete (id uid : Z) : M unit :=
  execute (fun w =>
    (tt, set_documents (filter (fun d => negb (has_id id d && owned_by uid d)))
                       (next_doc_id w) w)).

Definition chat_history_insert (uid : Z) (message response : pystr)
  (context_documents : list Source) (created_at : Z) : M (list ChatTurn) :=
  execute (fun w =>
    let row := mkChatTurn (next_turn_id w) uid message response context_documents
                          created_at in
    ([row], set_chat_history (fun l => l ++ [row]) (next_turn_id w + 1) w)).

(** [.eq("user_id", uid).order("created_at", desc=True).limit(n)] *)
Definition chat_history_recent (uid : Z) (n : nat) : M (list ChatTurn) :=
  execute (fun w =>
    (firstn n (order_desc turn_created_at
                 (filter (fun t => (turn_user_id t =? uid)%Z) (chat_history w))), w)).

End Store.

(* ================================================================== *)
(** ** Session tokens *)

(** A token string as the JWT library reads it: either it does not parse as a
    signed token, or it carries an algorithm name, a payload and a signature. *)
Inductive Token : Type :=
| Malformed (raw : pystr)
| Compact (alg : pystr) (payload : Claims) (signature : N).

(** A [timedelta] of a whole number of seconds (the durations of this program
    are written in minutes); its truth value is false at zero. *)
Definition timedelta_truthy (expires_delta : option Z) : bool :=
  match expires_delta with
  | Some d => negb (d =? 0)%Z
  | None => false
  end.

Section Routes.
Variable env : Env.

Local Open Scope handler_scope.

(** [jwt.encode(payload, key, algorithm=...)] *)
Definition jwt_encode (payload : Claims) (key algorithm : pystr) : Token :=
  Compact algorithm payload (hs256 env key algorithm payload).

(** [jwt.decode(token, key, algorithms=[...])] at time [now]: the algorithm must
    be an allowed one, the signature must match, and an expiry that is present
    must lie in the future. *)
Definition jwt_decode (now : Z) (token : Token) (key : pystr) (algorithms : list pystr)
  : result Claims :=
  match token with
  | Malformed _ => Raise (PyJWTError (lit "Not enough segments"))
  | Compact alg payload signature =>
      if negb (mem_str alg algorithms)
      then Raise (PyJWTError (lit "The specified alg value is not allowed"))
      else if negb (signature =? hs256 env key alg payload)%N
      then Raise (PyJWTError (lit "Signature verification failed"))
      else match claim_exp payload with
           | Some exp =>
               if (exp <=? now)%Z
               then Raise (ExpiredSignatureError (lit "Signature has expired"))
               else Ok payload
           | None => Ok payload
           end
  end.

(** [dependencies.py], lines 47-55.  [now] is the clock in whole seconds: the
    token library stores [exp] so, dropping the fraction of the time stamp. *)
Definition create_access_token (data : Claims) (expires_delta : option Z) : M Token :=
  now <- get_utcnow ;;
  let expire :=
    if timedelta_truthy expires_delta
    then (now + match expires_delta with Some d => d | None => 0 end)%Z
    else (now + 15 * 60)%Z in
  let to_encode := mkClaims (claim_user_id data) (Some expire) in
  ret (jwt_encode to_encode (SECRET_KEY env) ALGORITHM).

Definition HTTP_400_BAD_REQUEST : N := 400.
Definition HTTP_401_UNAUTHORIZED : N := 401.
Definition HTTP_404_NOT_FOUND : N := 404.
Definition HTTP_500_INTERNAL_SERVER_ERROR : N := 500.

(** [routes.py], lines 52-76. *)
Definition get_current_user_id (token : option Token) : M Z :=
  match token with
  | None => raise (HTTPException HTTP_401_UNAUTHORIZED (lit "Token is missing"))
  | Some token =>
      let credentials_exception :=
        HTTPException HTTP_401_UNAUTHORIZED (lit "Could not validate credentials") in
      try_except
        (now <- get_utcnow ;;
         payload <- lift (jwt_decode now token (SECRET_KEY env) [ALGORITHM]) ;;
         match claim_user_id payload with
         | None => raise credentials_exception
         | Some user_id => ret user_id
         end)
        (fun e =>
           match e with
           | ExpiredSignatureError _ =>
               raise (HTTPException HTTP_401_UNAUTHORIZED (lit "Token has expired"))
           | PyJWTError _ => raise credentials_exception
           | _ => raise e
           end)
  end.

(** [Depends(get_current_user_id)]: the dependency runs before the handler. *)
Definition with_current_user {A} (token : option Token) (route : Z -> M A) : M A :=
  current_user_id <- get_current_user_id token ;;
  route current_user_id.

(** The last clause of every handler:
    [except Exception as e: raise HTTPException(500, detail=str(e))]. *)
Definition internal_error {A} (e : exn) : M A :=
  raise (HTTPException HTTP_500_INTERNAL_SERVER_ERROR (str_exn env e)).

(* ------------------------------------------------------------------ *)
(** *** Authentication routes *)

Record UserCreate := mkUserCreate
  { create_email : pystr; create_password : pystr; create_full_name : pystr }.

Record UserLogin := mkUserLogin
  { login_email : pystr; login_password : pystr }.

Record TokenResponse := mkTokenResponse
  { access_token : Token; token_type : pystr; token_user : User }.

(** Lines 79-106. *)
Definition register (user : UserCreate) : M TokenResponse :=
  try_except
    (existing_user <- Store.users_by_email (create_email user) ;;
     match existing_user with
     | _ :: _ =>
         raise (HTTPException HTTP_400_BAD_REQUEST (lit "Email already registered"))
     | [] =>
         hashed_pwd <- lift (hash_password (create_password user)) ;;
         created_at <- get_utcnow ;;
         new_user_res <- Store.users_insert (create_email user) hashed_pwd
                           (create_full_name user) created_at ;;
         match new_user_res with
         | [] => raise (HTTPException HTTP_500_INTERNAL_SERVER_ERROR
                          (lit "Failed to create user"))
         | user_data :: _ =>
             access_token <- create_access_token
                               (mkClaims (Some (user_id user_data)) None) None ;;
             ret (mkTokenResponse access_token (lit "bearer") user_data)
         end
     end)
    internal_error.

(** Lines 109-128. *)
Definition login (form_data : UserLogin) : M TokenResponse :=
  try_except
    (user_res <- Store.users_by_email (login_email form_data) ;;
     match user_res with
     | [] => raise (HTTPException HTTP_401_UNAUTHORIZED (lit "Invalid credentials"))
     | user_data :: _ =>
         verified <- lift (verify_password (login_password form_data)
                             (user_password_hash user_data)) ;;
         if negb verified
         then raise (HTTPException HTTP_401_UNAUTHORIZED (lit "Invalid credentials"))
         else
           access_token <- create_access_token
                             (mkClaims (Some (user_id user_data)) None) None ;;
           ret (mkTokenResponse access_token (lit "bearer") user_data)
     end)
    internal_error.

(* ------------------------------------------------------------------ *)
(** *** Document routes *)

Record UploadFile := mkUploadFile
  { file_filename : option pystr;
    file_content_type : option pystr;
    file_read : bytes }.

Record UploadResponse := mkUploadResponse
  { up_message : pystr;
    up_document_id : Z;
    up_filename : pystr;
    up_extracted_text_length : nat;
    up_file_size : nat;
    up_text_preview : pystr;
    up_warning : option pystr }.

(** Line 138: [not file.filename or '/' in file.filename or '\\' in file.filename] *)
Definition bad_filename (name : option pystr) : bool :=
  match name with
  | None => true
  | Some n => negb (truthy n) || contains_char 47 n || contains_char 92 n
  end.

Definition MAX_FILE_SIZE : N := 10 * 1024 * 1024.

(** Lines 133-182. *)
Definition upload_file (file : UploadFile) (current_user_id : Z) : M UploadResponse :=
  try_except
    (if bad_filename (file_filename file)
     then raise (HTTPException 400 (lit "Invalid filename"))
     else
       let filename :=
         lstrip_chars (lit "./\") (match file_filename file with
                                   | Some n => n
                                   | None => []
                                   end) in
       let file_content := file_read file in
       let file_size := length file_content in
       if (MAX_FILE_SIZE <? N.of_nat file_size)%N
       then raise (HTTPException 400 (lit "File size exceeds 10MB limit."))
       else
       match file_content with
       | [] => raise (HTTPException 400 (lit "Empty file uploaded."))
       | _ :: _ =>
           extracted_text <- lift (extract_text_from_file env file_content filename) ;;
           let warning_message :=
             if startswith (lit "[Error") extracted_text
                || (length (strip extracted_text) <? 10)%nat
             then Some (lit "Text extraction may have had issues. Please verify.")
             else None in
           created_at <- get_utcnow ;;
           doc_res <- Store.documents_insert current_user_id filename extracted_text
                        (match file_content_type file with
                         | Some ((_ :: _) as t) => t
                         | _ => lit "unknown"
                         end)
                        created_at ;;
           match doc_res with
           | [] => raise (HTTPException 500 (lit "Failed to save document."))
           | doc :: _ =>
               ret (mkUploadResponse
                      (lit "File uploaded successfully")
                      (doc_id doc)
                      filename
                      (length extracted_text)
                      file_size
                      (if (200 <? length extracted_text)%nat
                       then firstn 200 extracted_text ++ lit "..."
                       else extracted_text)
                      warning_message)
           end
       end)
    internal_error.

Record DocumentSummary := mkDocumentSummary
  { sum_id : Z;
    sum_filename : pystr;
    sum_file_type : pystr;
    sum_created_at : Z;
    sum_content_length : nat }.

(** Lines 185-195. *)
Definition get_documents (current_user_id : Z) : M (list DocumentSummary) :=
  try_except
    (documents_res <- Store.documents_of_user_newest_first current_user_id ;;
     ret (map (fun doc =>
                 mkDocumentSummary (doc_id doc) (doc_filename doc) (doc_file_type doc)
                                   (doc_created_at doc) (length (doc_content doc)))
              documents_res))
    internal_error.

(** Lines 197-205. *)
Definition get_document_content (document_id : Z) (current_user_id : Z) : M Document :=
  try_except
    (doc_res <- Store.documents_by_id_of_user document_id current_user_id ;;
     match doc_res with
     | [] => raise (HTTPException 404 (lit "Document not found"))
     | doc :: _ => ret doc
     end)
    internal_error.

(** Lines 207-217. *)
Definition delete_document (document_id : Z) (current_user_id : Z) : M unit :=
  try_except
    (verify_res <- Store.documents_by_id_of_user document_id current_user_id ;;
     match verify_res with
     | [] => raise (HTTPException 404 (lit "Document not found"))
     | _ :: _ => Store.documents_delete document_id current_user_id
     end)
    internal_error.

(* ------------------------------------------------------------------ *)
(** *** Chat routes *)

Record ChatRequest := mkChatRequest
  { req_message : pystr;
    req_selected_documents : option (list Z);
    req_use_all_documents : option bool }.

Record ChatResponse := mkChatResponse
  { chat_response : pystr;
    chat_context_used : bool;
    chat_context_sources : list Source }.

(** Line 238: one rendered document. *)
Definition context_part (doc : Document) : pystr :=
  lit "--- Document: " ++ doc_filename doc ++ lit " ---" ++ nl ++ doc_content doc.

(** Lines 237-239: the loop, appending to both lists. *)
Fixpoint context_loop (data : list Document) (context_parts : list pystr)
  (context_sources : list Source) : list pystr * list Source :=
  match data with
  | [] => (context_parts, context_sources)
  | doc :: rest =>
      context_loop rest
        (context_parts ++ [context_part doc])
        (context_sources ++ [mkSource (doc_id doc) (doc_filename doc)])
  end.

(** Lines 224-225 and 235-240: the context and its sources for the rows the
    query returned ([None]: no query was made). *)
Definition assemble_context (documents_res : option (list Document))
  : pystr * list Source :=
  match documents_res with
  | Some ((_ :: _) as data) =>
      let '(context_parts, context_sources) := context_loop data [] [] in
      (join (nl ++ nl) context_parts, context_sources)
  | _ => ([], [])
  end.

(** Lines 222-258. *)
Definition chat (req : ChatRequest) (current_user_id : Z) : M ChatResponse :=
  try_except
    (documents_res <-
       (if match req_use_all_documents req with Some b => b | None => false end
        then data <- Store.documents_of_user current_user_id ;; ret (Some data)
        else match req_selected_documents req with
             | Some ((_ :: _) as selected) =>
                 data <- Store.documents_of_user_in current_user_id selected ;;
                 ret (Some data)
             | _ => ret None
             end) ;;
     let '(context, context_sources) := assemble_context documents_res in
     response_text <- lift (generate_response env (req_message req) context) ;;
     created_at <- get_utcnow ;;
     _ <- Store.chat_history_insert current_user_id (req_message req) response_text
            context_sources created_at ;;
     ret (mkChatResponse response_text
            (match context_sources with [] => false | _ :: _ => true end)
            context_sources))
    internal_error.

(** Lines 261-267. *)
Definition get_chat_history (current_user_id : Z) : M (list ChatTurn) :=
  try_except
    (history_res <- Store.chat_history_recent current_user_id 50 ;;
     ret (rev history_res))
    internal_error.

(* ------------------------------------------------------------------ *)
(** *** Guest routes *)

Record GuestExtractResponse := mkGuestExtractResponse
  { ge_extracted_text : pystr;
    ge_filename : pystr;
    ge_file_size : nat;
    ge_extracted_length : nat }.

(** Lines 270-289. *)
Definition guest_extract_text (file : UploadFile) : M GuestExtractResponse :=
  try_except
    (let filename :=
       match file_filename file with
       | Some ((_ :: _) as n) => n
       | _ => lit "uploaded_file"
       end in
     let file_content := file_read file in
     let file_size := length file_content in
     if (MAX_FILE_SIZE <? N.of_nat file_size)%N
     then raise (HTTPException 400 (lit "File size exceeds 10MB limit."))
     else
       extracted_text <- lift (extract_text_from_file env file_content filename) ;;
       ret (mkGuestExtractResponse extracted_text filename file_size
              (length extracted_text)))
    internal_error.

Record GuestChatRequest := mkGuestChatRequest
  { guest_message : pystr;
    guest_context : option pystr;
    guest_context_sources : option (list Source) }.

Record GuestChatResponse := mkGuestChatResponse
  { gc_response : pystr;
    gc_context_used : bool;
    gc_context_sources : option (list Source) }.

(** Lines 292-302. *)
Definition guest_chat (req : GuestChatRequest) : M GuestChatResponse :=
  try_except
    (let context := match guest_context req with Some c => c | None => [] end in
     response_text <- lift (generate_response env (guest_message req) context) ;;
     ret (mkGuestChatResponse response_text (truthy context)
            (guest_context_sources req)))
    internal_error.

(* ------------------------------------------------------------------ *)
(** *** The endpoints behind [Depends(get_current_user_id)] *)

Definition upload_endpoint (token : option Token) (file : UploadFile) :=
  with_current_user token (upload_file file).
Definition documents_endpoint (token : option Token) :=
  with_current_user token get_documents.
Definition document_endpoint (token : option Token) (document_id : Z) :=
  with_current_user token (get_document_content document_id).
Definition delete_endpoint (token : option Token) (document_id : Z) :=
  with_current_user token (delete_document document_id).
Definition chat_endpoint (token : option Token) (req : ChatRequest) :=
  with_current_user token (chat req).
Definition history_endpoint (token : option Token) :=
  with_current_user token get_chat_history.

End Routes.

(* ================================================================== *)
(** ** Health check ([routes.py], lines 305-315) *)

Record HealthResponse := mkHealthResponse
  { health_status : pystr;
    health_timestamp : Z;
    health_version : pystr;
    health_gemini_ai : pystr;
    health_supabase : pystr }.

Definition health_check : M HealthResponse :=
  bind get_utcnow (fun timestamp =>
    ret (mkHealthResponse (lit "healthy") timestamp (lit "1.0.0")
           (lit "connected") (lit "connected"))).
(* ================================================================== *)
(** ** A concrete environment and store for running the handlers *)

Module Fixture.

(** Lower-casing of the ASCII letters. *)
Definition ascii_lower (s : pystr) : pystr :=
  map (fun c => if ((65 <=? c) && (c <=? 90))%N then (c + 32)%N else c) s.

(** A keyed checksum standing for the HS256 signature. *)
Definition checksum (key alg : pystr) (payload : Claims) : N :=
  let z (o : option Z) := match o with Some v => [1%N; Z.to_N v] | None => [0%N] end in
  fold_left (fun acc c => ((acc * 31 + c) mod 4294967296)%N)
            (key ++ alg ++ z (claim_user_id payload) ++ z (claim_exp payload)) 7%N.

Definition pdf_magic : bytes := [x25; x50; x44; x46].

(** Sniffing knows the PDF signature only; the PDF parser reads a three-page
    document with text on pages 1 and 3 from the bytes [%PDF] and fails on
    anything else; the Word parser always fails; both models answer. *)
Definition env : Env :=
  mkEnv (lit "server-secret")
        checksum
        ascii_lower
        (fun content =>
           match content with
           | x25 :: x50 :: x44 :: x46 :: _ => Ok (Some (lit "application/pdf"))
           | _ => Ok None
           end)
        (fun content =>
           match content with
           | [x25; x50; x44; x46] => Ok [Ok (lit "Alpha"); Ok []; Ok (lit "Gamma")]
           | _ => Raise (OtherError (lit "EOF marker not found"))
           end)
        (fun _ => Raise (OtherError (lit "File is not a zip file")))
        (fun _ _ => Ok (lit "a picture"))
        (fun _ => Ok (lit "an answer"))
        (fun status_code detail =>
           lit (NilEmpty.string_of_uint (N.to_uint status_code)) ++ lit ": " ++ detail).

(** The stored hash of a password written in ASCII. *)
Definition hash_of (password : string) : pystr := sha256_hexdigest (utf8_encode (lit password)).

Definition alice : User :=
  mkUser 1 (lit "alice@example.com") (hash_of "wonderland") (lit "Alice") 100.
Definition bob : User :=
  mkUser 2 (lit "bob@example.com") (hash_of "builder") (lit "Bob") 110.

Definition doc_a : Document :=
  mkDocument 1 1 (lit "a.txt") (lit "X") (lit "text/plain") 120.
Definition doc_b : Document :=
  mkDocument 2 1 (lit "b.txt") (lit "Y") (lit "text/plain") 130.
Definition doc_c : Document :=
  mkDocument 3 2 (lit "c.txt") (lit "Z") (lit "text/plain") 140.

Definition turn_1 : ChatTurn := mkChatTurn 1 1 (lit "q1") (lit "r1") [] 150.
Definition turn_2 : ChatTurn := mkChatTurn 2 2 (lit "q2") (lit "r2") [] 160.
Definition turn_3 : ChatTurn := mkChatTurn 3 1 (lit "q3") (lit "r3") [] 170.

Definition world : World :=
  mkWorld [alice; bob] [doc_a; doc_b; doc_c] [turn_1; turn_2; turn_3]
          3 4 4 true 1000.

(** A state in which Alice has 52 chat turns, one a second, and Bob has one. *)
Definition busy_turns : list ChatTurn :=
  map (fun i => mkChatTurn (Z.of_nat i) 1 (lit "q") (lit "r") [] (200 + Z.of_nat i))
      (seq 1 52)
  ++ [mkChatTurn 53 2 (lit "q") (lit "r") [] 300].

Definition busy_world : World :=
  mkWorld [alice; bob] [] busy_turns 3 1 54 true 1000.

(** An environment whose text model repeats its prompt, and one whose text
    model fails. *)
Definition echo_env : Env :=
  mkEnv (SECRET_KEY env) (hs256 env) (str_lower env)
        (filetype_guess env) (pdf_pages env)
        (docx_document env) (vision_generate env)
        (fun prompt => Ok prompt) (http_exception_str env).

Definition failing_env : Env :=
  mkEnv (SECRET_KEY env) (hs256 env) (str_lower env)
        (filetype_guess env) (pdf_pages env)
        (docx_document env) (vision_generate env)
        (fun _ => Raise (OtherError (lit "quota exceeded")))
        (http_exception_str env).

(** An environment whose Word reader returns a document with a blank paragraph
    and one table cell, and whose PDF reader fails on the second page. *)
Definition office_env : Env :=
  mkEnv (SECRET_KEY env) (hs256 env) (str_lower env)
        (fun content =>
           match content with
           | x25 :: x50 :: x44 :: x46 :: _ => Ok (Some (lit "application/pdf"))
           | _ => Ok None
           end)
        (fun _ => Ok [Ok (lit "Alpha"); Raise (OtherError (lit "bad page")); Ok (lit "Gamma")])
        (fun _ => Ok (mkDocx [lit "Hello"; []; lit "World"] [[[lit "Cell1"]]]))
        (vision_generate env) (model_generate env) (http_exception_str env).

(** The bytes of [hello world], uploaded as a text file. *)
Definition hello_bytes : bytes :=
  [x68; x65; x6c; x6c; x6f; x20; x77; x6f; x72; x6c; x64].

Definition hello_file : UploadFile :=
  mkUploadFile (Some (lit "hello.txt")) (Some (lit "text/plain")) hello_bytes.

End Fixture.

(* ================================================================== *)
(** ** Vocabulary of the statements *)

(** *** Digests *)

(** Every list of length [n] over [alphabet]. *)
Fixpoint all_words {A} (alphabet : list A) (n : nat) : list (list A) :=
  match n with
  | O => [[]]
  | S n' => flat_map (fun c => map (cons c) (all_words alphabet n')) alphabet
  end.

(** *** Extraction *)

(** A page has extractable text when its text is non-empty and not blank
    (line 70). *)
Definition has_text (page_text : pystr) : bool :=
  truthy page_text && truthy (strip page_text).

(** The blocks of the pages that have text, each numbered by the position of
    its page, counted from [first]. *)
Definition page_blocks (first : nat) (texts : list pystr) : list pystr :=
  map (fun it => nl ++ lit "--- Page " ++ str_of_nat (fst it + 1) ++ lit " ---"
                  ++ nl ++ snd it ++ nl)
      (filter (fun it => has_text (snd it)) (combine (seq first (length texts)) texts)).

(** Occurrences of [pat] in [s]. *)
Fixpoint count_sub (pat s : pystr) : nat :=
  (if startswith pat s then 1 else 0)
  + match s with
    | [] => 0
    | _ :: s' => count_sub pat s'
    end.

(** The branch the extractor takes, read off the sniffed type and the
    extension in the order of its tests (lines 64, 76, 93, 96, 105, 116). *)
Inductive FileKind : Type :=
| PdfFile | WordFile | LegacyWordFile | TextFile | ImageFile | UnsupportedFile.

(** Line 61: the sniffed type, or the default when sniffing finds none. *)
Definition file_type_of (kind : option pystr) : pystr :=
  match kind with
  | Some mime => mime
  | None => lit "application/octet-stream"
  end.

Definition classify (file_type file_extension : pystr) : FileKind :=
  if pystr_eqb file_type (lit "application/pdf") || pystr_eqb file_extension (lit "pdf")
  then PdfFile
  else if pystr_eqb file_type docx_mime || pystr_eqb file_extension (lit "docx")
  then WordFile
  else if pystr_eqb file_extension (lit "doc")
  then LegacyWordFile
  else if startswith (lit "text/") file_type || mem_str file_extension text_extensions
  then TextFile
  else if startswith (lit "image/") file_type || mem_str file_extension image_extensions
  then ImageFile
  else UnsupportedFile.

(** The exception of the first page that cannot be read. *)
Fixpoint first_failure {A} (pages : list (result A)) : option exn :=
  match pages with
  | [] => None
  | Ok _ :: rest => first_failure rest
  | Raise e :: _ => Some e
  end.

(** The failure state of an extraction: the first exception that a
    collaborator raises on the way the extractor takes through the file
    (sniffing; then the PDF reader and its pages, the Word reader, or the
    vision model, by the branch).  Bytes of a text file that are not UTF-8 are
    no failure state: the text branch reads them as Latin-1. *)
Definition extraction_failure (env : Env) (file_content : bytes) (filename : pystr)
  : option exn :=
  match filetype_guess env file_content with
  | Raise e => Some e
  | Ok kind =>
      match classify (file_type_of kind) (file_extension_of env filename) with
      | PdfFile =>
          match pdf_pages env file_content with
          | Raise e => Some e
          | Ok pages => first_failure pages
          end
      | WordFile =>
          match docx_document env file_content with
          | Raise e => Some e
          | Ok _ => None
          end
      | ImageFile =>
          match vision_generate env vision_prompt file_content with
          | Raise e => Some e
          | Ok _ => None
          end
      | LegacyWordFile | TextFile | UnsupportedFile => None
      end
  end.

(** *** The three failures of token verification *)

Definition token_missing : exn := HTTPException 401 (lit "Token is missing").
Definition token_expired : exn := HTTPException 401 (lit "Token has expired").
Definition token_invalid : exn :=
  HTTPException 401 (lit "Could not validate credentials").

(** *** Chat *)

(** The state with the documents of every other user removed. *)
Definition only_documents_of (uid : Z) (w : World) : World :=
  mkWorld (users w) (filter (Store.owned_by uid) (documents w)) (chat_history w)
          (next_user_id w) (next_doc_id w) (next_turn_id w) (store_up w) (utcnow w).

(** The rows the chat query returns: the caller's documents, all of them or
    the selected ones, in table order. *)
Definition chat_rows (req : ChatRequest) (uid : Z) (docs : list Document)
  : option (list Document) :=
  if match req_use_all_documents req with Some b => b | None => false end
  then Some (filter (Store.owned_by uid) docs)
  else match req_selected_documents req with
       | Some ((_ :: _) as selected) =>
           Some (filter (fun d => Store.owned_by uid d
                                  && existsb (Z.eqb (doc_id d)) selected) docs)
       | _ => None
       end.

(** *** Orderings *)

(** Newest first, by a key. *)
Definition newest_first {A} (key : A -> Z) : list A -> Prop :=
  StronglySorted (fun a b => (key b <= key a)%Z).

(** Oldest first, by a key. *)
Definition oldest_first {A} (key : A -> Z) : list A -> Prop :=
  StronglySorted (fun a b => (key a <= key b)%Z).

(** *** Well-formed stores *)

(** The ids of a table are distinct and below the table's sequence. *)
Definition ids_below {A} (id : A -> Z) (next : Z) (rows : list A) : Prop :=
  NoDup (map id rows) /\ Forall (fun r => (id r < next)%Z) rows.

(** What the remote store guarantees of its tables: primary keys drawn from
    the sequences, and no two users with the same email. *)
Definition store_ok (w : World) : Prop :=
  ids_below user_id (next_user_id w) (users w)
  /\ ids_below doc_id (next_doc_id w) (documents w)
  /\ ids_below turn_id (next_turn_id w) (chat_history w)
  /\ NoDup (map user_email (users w)).

(** The users of a state with a given email, in table order. *)
Definition users_with_email (email : pystr) (w : World) : list User :=
  filter (fun u => pystr_eqb (user_email u) email) (users w).

(** The documents of a state that have a given id and owner. *)
Definition documents_matching (id uid : Z) (w : World) : list Document :=
  filter (fun d => Store.has_id id d && Store.owned_by uid d) (documents w).

(** The listing entry of a document (lines 190-191). *)
Definition summary_of (doc : Document) : DocumentSummary :=
  mkDocumentSummary (doc_id doc) (doc_filename doc) (doc_file_type doc)
                    (doc_created_at doc) (length (doc_content doc)).

(** The token the handlers issue for a user at a time: the default lifetime. *)
Definition session_token (env : Env) (uid now : Z) : Token :=
  jwt_encode env (mkClaims (Some uid) (Some (now + 900)%Z)) (SECRET_KEY env) ALGORITHM.

(** The exception a handler's catch-all clause makes of a raised status. *)
Definition as_500 (env : Env) (status : N) (detail : string) : exn :=
  HTTPException 500 (http_exception_str env status (lit detail)).

Definition store_unavailable : exn := HTTPException 500 (lit "store unavailable").

(** Non-blank: something is left after stripping. *)
Definition nonblank (s : pystr) : bool := truthy (strip s).

(** *** Uploads *)

(** The name an upload is stored under (line 143). *)
Definition stored_filename (file : UploadFile) : pystr :=
  lstrip_chars (lit "./\") (match file_filename file with
                            | Some n => n
                            | None => []
                            end).

(** The type an upload is stored with (line 164). *)
Definition stored_file_type (file : UploadFile) : pystr :=
  match file_content_type file with
  | Some ((_ :: _) as t) => t
  | _ => lit "unknown"
  end.

(** The row an accepted upload adds, for the text the extractor returned. *)
Definition uploaded_document (file : UploadFile) (uid : Z) (text : pystr) (w : World)
  : Document :=
  mkDocument (next_doc_id w) uid (stored_filename file) text (stored_file_type file)
             (utcnow w).

(** The answer to an accepted upload (lines 171-179). *)
Definition upload_response (file : UploadFile) (text : pystr) (w : World)
  : UploadResponse :=
  mkUploadResponse
    (lit "File uploaded successfully") (next_doc_id w) (stored_filename file)
    (length text) (length (file_read file))
    (if (200 <? length text)%nat then firstn 200 text ++ lit "..." else text)
    (if startswith (lit "[Error") text || (length (strip text) <? 10)%nat
     then Some (lit "Text extraction may have had issues. Please verify.")
     else None).

(** An upload that passes the three checks of lines 138-152. *)
Definition acceptable (file : UploadFile) : Prop :=
  bad_filename (file_filename file) = false
  /\ (N.of_nat (length (file_read file)) <= MAX_FILE_SIZE)%N
  /\ file_read file <> [].

(** *** Chat *)

(** The turn a chat request appends, for the text the model returned. *)
Definition chat_turn (req : ChatRequest) (uid : Z) (text : pystr) (w : World) : ChatTurn :=
  mkChatTurn (next_turn_id w) uid (req_message req) text
             (snd (assemble_context (chat_rows req uid (documents w)))) (utcnow w).

(** The text and the provenance of a chat answer. *)
Definition chat_response_of (r : result ChatResponse) : option (pystr * list Source) :=
  match r with
  | Ok response => Some (chat_response response, chat_context_sources response)
  | Raise _ => None
  end.

(* ================================================================== *)
(** ** Properties of the credential codec *)

Example sha256_abc :
  hash_password (lit "abc")
  = Ok (lit "ba7816bf8f01cfea414140de5dae2223b00361a396177a9cb410ff61f20015ad").
Proof. vm_compute. reflexivity. Qed.

Example sha256_empty :
  hash_password []
  = Ok (lit "e3b0c44298fc1c149afbf4c8996fb92427ae41e4649b934ca495991b7852b855").
Proof. vm_compute. reflexivity. Qed.

Example sha256_two_blocks :
  hash_password (lit "abcdbcdecdefdefgefghfghighijhijkijkljklmklmnlmnomnopnopq")
  = Ok (lit "248d6a61d20638b8e5c026930c3e6039a33ce45964ff2167f6ecedd419db06c1").
Proof. vm_compute. reflexivity. Qed.

(** A lone surrogate (U+D800) is refused by the codec. *)
Example encode_lone_surrogate :
  str_encode [0xD800%N]
  = Raise (UnicodeEncodeError
             (lit "'utf-8' codec can't encode character '\ud800' in position 0: surrogates not allowed")).
Proof. vm_compute. reflexivity. Qed.

(** A run of surrogates is reported by its first and last position. *)
Example encode_surrogate_run :
  str_encode [97%N; 0xDC80%N; 0xDFFF%N; 98%N]
  = Raise (UnicodeEncodeError
             (lit "'utf-8' codec can't encode characters in position 1-2: surrogates not allowed")).
Proof. vm_compute. reflexivity. Qed.


Lemma pystr_eqb_eq (a b : pystr) : pystr_eqb a b = true <-> a = b.
Proof.
  unfold pystr_eqb. destruct (list_eq_dec N.eq_dec a b); split; congruence.
Qed.

Lemma pystr_eqb_neq (a b : pystr) : pystr_eqb a b = false <-> a <> b.
Proof.
  unfold pystr_eqb. destruct (list_eq_dec N.eq_dec a b); split; congruence.
Qed.

(** *** Which strings can be encoded *)

Lemma first_surrogate_none (s : pystr) (pos : nat) :
  first_surrogate s pos = None <-> forallb scalar_value s = true.
Proof.
  revert pos. induction s as [|c s IH]; intros pos; simpl.
  - split; reflexivity.
  - destruct (scalar_value c); simpl; [apply IH|].
    split; discriminate.
Qed.

Lemma str_encode_ok (s : pystr) :
  forallb scalar_value s = true -> str_encode s = Ok (utf8_encode s).
Proof.
  intros H. unfold str_encode.
  rewrite (proj2 (first_surrogate_none s 0) H). reflexivity.
Qed.

Lemma str_encode_raises (s : pystr) :
  forallb scalar_value s = false ->
  exists msg, str_encode s = Raise (UnicodeEncodeError msg).
Proof.
  intros H. unfold str_encode.
  destruct (first_surrogate s 0) as [[[pos c] run]|] eqn:E.
  - eexists. reflexivity.
  - apply first_surrogate_none in E. congruence.
Qed.

Lemma hash_password_ok (p : pystr) :
  forallb scalar_value p = true ->
  hash_password p = Ok (sha256_hexdigest (utf8_encode p)).
Proof.
  intros H. unfold hash_password. rewrite (str_encode_ok p H). reflexivity.
Qed.

Lemma hash_password_raises (p : pystr) :
  forallb scalar_value p = false ->
  exists msg, hash_password p = Raise (UnicodeEncodeError msg).
Proof.
  intros H. destruct (str_encode_raises p H) as [msg E].
  exists msg. unfold hash_password. rewrite E. reflexivity.
Qed.

Lemma verify_password_ok (p h : pystr) :
  forallb scalar_value p = true ->
  verify_password p h = Ok (pystr_eqb (sha256_hexdigest (utf8_encode p)) h).
Proof.
  intros H. unfold verify_password. rewrite (hash_password_ok p H). reflexivity.
Qed.

Lemma verify_password_raises (p h : pystr) :
  forallb scalar_value p = false ->
  exists msg, hash_password p = Raise (UnicodeEncodeError msg)
              /\ verify_password p h = Raise (UnicodeEncodeError msg).
Proof.
  intros H. destruct (hash_password_raises p H) as [msg E].
  exists msg. split; [exact E|]. unfold verify_password. rewrite E. reflexivity.
Qed.

Lemma verify_password_hash (p : pystr) :
  forallb scalar_value p = true ->
  verify_password p (sha256_hexdigest (utf8_encode p)) = Ok true.
Proof.
  intros H. rewrite (verify_password_ok p _ H). f_equal.
  apply pystr_eqb_eq. reflexivity.
Qed.

(** *** Finitely many digests: two inputs out of sufficiently many collide *)

Section FixedLength.
Variable A : Type.
Hypothesis A_eq_dec : forall x y : A, {x = y} + {x <> y}.
Variable alphabet : list A.


Lemma in_all_words (w : list A) :
  Forall (fun c => In c alphabet) w -> In w (all_words alphabet (length w)).
Proof.
  induction 1 as [|c w Hc Hw IH]; simpl.
  - left; reflexivity.
  - apply in_flat_map. exists c. split; [assumption|].
    apply in_map. exact IH.
Qed.

(** A map on a duplicate-free list either repeats a value or keeps the list
    duplicate-free. *)
Lemma repeat_or_NoDup (f : nat -> list A) (l : list nat) :
  NoDup l ->
  (exists i j, i <> j /\ f i = f j) \/ NoDup (map f l).
Proof.
  induction 1 as [|a l Ha Hl IH]; simpl.
  - right. constructor.
  - destruct IH as [IH|IH]; [left; exact IH|].
    destruct (in_dec (list_eq_dec A_eq_dec) (f a) (map f l)) as [Hin|Hnin].
    + apply in_map_iff in Hin. destruct Hin as [x [Hx Hxl]].
      left. exists a, x. split; [|symmetry; exact Hx].
      intros ->. contradiction.
    + right. constructor; assumption.
Qed.

Lemma fixed_length_collision (n : nat) (f : nat -> list A) :
  (forall i, length (f i) = n /\ Forall (fun c => In c alphabet) (f i)) ->
  exists i j, i <> j /\ f i = f j.
Proof.
  intros Hf.
  set (U := all_words alphabet n).
  destruct (repeat_or_NoDup f (seq 0 (S (length U))) (seq_NoDup _ _))
    as [Hrep|Hnd]; [exact Hrep|exfalso].
  assert (Hincl : incl (map f (seq 0 (S (length U)))) U).
  { intros w Hw. apply in_map_iff in Hw. destruct Hw as [i [<- _]].
    destruct (Hf i) as [Hlen Hall]. subst U. rewrite <- Hlen.
    apply in_all_words. exact Hall. }
  pose proof (NoDup_incl_length Hnd Hincl) as Hle.
  rewrite length_map, length_seq in Hle.
  exact (Nat.nle_succ_diag_l _ Hle).
Qed.
End FixedLength.

Lemma length_flat_map_const {A B} (f : A -> list B) (k : nat) (l : list A) :
  (forall x, length (f x) = k) -> length (flat_map f l) = length l * k.
Proof.
  intros Hf. induction l as [|x l IH]; simpl; [reflexivity|].
  rewrite length_app, Hf, IH. reflexivity.
Qed.

Lemma Forall_flat_map_intro {A B} (P : B -> Prop) (f : A -> list B) (l : list A) :
  (forall x, Forall P (f x)) -> Forall P (flat_map f l).
Proof.
  intros Hf. induction l as [|x l IH]; simpl; [constructor|].
  apply Forall_app. split; [apply Hf|exact IH].
Qed.

Lemma digest_length (msg : bytes) : length (SHA256.digest msg) = 32.
Proof.
  unfold SHA256.digest. generalize (SHA256.digest_state msg). intros s.
  rewrite (length_flat_map_const _ 4); [reflexivity|].
  intros x. unfold SHA256.be_bytes. rewrite length_map. reflexivity.
Qed.

Lemma hexdigit_in (k : N) :
  In (nth (N.to_nat (k mod 16)) SHA256.hexdigits 0%N) SHA256.hexdigits.
Proof.
  apply nth_In.
  change (length SHA256.hexdigits) with 16.
  pose proof (N.mod_upper_bound k 16 ltac:(discriminate)). lia.
Qed.

Lemma hexdigest_shape (msg : bytes) :
  length (SHA256.hexdigest msg) = 64
  /\ Forall (fun c => In c SHA256.hexdigits) (SHA256.hexdigest msg).
Proof.
  unfold SHA256.hexdigest. split.
  - rewrite (length_flat_map_const _ 2); [rewrite digest_length; reflexivity|].
    reflexivity.
  - apply Forall_flat_map_intro. intros b. unfold SHA256.hex_byte.
    constructor; [apply hexdigit_in|].
    constructor; [apply hexdigit_in|constructor].
Qed.

Lemma forallb_repeat {A} (f : A -> bool) (a : A) (n : nat) :
  f a = true -> forallb f (repeat a n) = true.
Proof.
  intros H. induction n as [|n IH]; simpl; [reflexivity|].
  rewrite H. exact IH.
Qed.

(** Distinct passwords with the same stored hash exist (among the strings
    [a], [aa], [aaa], ...: there are more of them than digests). *)
Lemma hash_password_collision :
  exists (p1 p2 h : pystr),
    p1 <> p2
    /\ forallb scalar_value p1 = true /\ forallb scalar_value p2 = true
    /\ hash_password p1 = Ok h /\ hash_password p2 = Ok h.
Proof.
  destruct (fixed_length_collision N N.eq_dec SHA256.hexdigits 64
              (fun i => sha256_hexdigest (utf8_encode (repeat 97%N i))))
    as [i [j [Hij Heq]]].
  - intros i. apply hexdigest_shape.
  - assert (Henc : forall n, forallb scalar_value (repeat 97%N n) = true)
      by (intros n; apply forallb_repeat; reflexivity).
    exists (repeat 97%N i), (repeat 97%N j),
           (sha256_hexdigest (utf8_encode (repeat 97%N i))).
    split; [|split; [apply Henc|split; [apply Henc|split]]].
    + intros H. apply Hij.
      rewrite <- (repeat_length 97%N i), <- (repeat_length 97%N j), H.
      reflexivity.
    + apply hash_password_ok, Henc.
    + rewrite Heq. apply hash_password_ok, Henc.
Qed.

(** *** The hexadecimal rendering loses nothing of the digest *)









(* ================================================================== *)
(** ** Properties of the content extractor *)


Section ExtractorProofs.
Variable env : Env.

Lemma pdf_loop_all_ok (texts : list pystr) (i : nat) (text_parts : list pystr) :
  pdf_loop (map Ok texts) i text_parts = Ok (text_parts ++ page_blocks i texts).
Proof.
  revert i text_parts.
  induction texts as [|t texts IH]; intros i text_parts.
  - unfold page_blocks. simpl. rewrite app_nil_r. reflexivity.
  - cbn [map pdf_loop rbind].
    unfold page_blocks. cbn [length seq combine filter snd].
    fold (has_text t). destruct (has_text t).
    + rewrite IH. cbn [map fst snd]. unfold page_blocks, page_block.
      rewrite <- app_assoc. reflexivity.
    + rewrite IH. reflexivity.
Qed.

(** The loop either reads every page or raises what a page raised. *)
Lemma pdf_loop_cases (pages : list (result pystr)) (i : nat) (text_parts : list pystr) :
  (exists texts, pages = map Ok texts)
  \/ (exists e, pdf_loop pages i text_parts = Raise e).
Proof.
  revert i text_parts.
  induction pages as [|page pages IH]; intros i text_parts.
  - left. exists []. reflexivity.
  - destruct page as [t|e].
    + cbn [pdf_loop rbind].
      destruct (truthy t && truthy (strip t)).
      * destruct (IH (S i) (text_parts ++ [page_block i t])) as [[texts ->]|[e He]].
        -- left. exists (t :: texts). reflexivity.
        -- right. exists e. exact He.
      * destruct (IH (S i) text_parts) as [[texts ->]|[e He]].
        -- left. exists (t :: texts). reflexivity.
        -- right. exists e. exact He.
    + right. exists e. reflexivity.
Qed.

Lemma extract_pdf_all_pages (file_content : bytes) (texts : list pystr) :
  pdf_pages env file_content = Ok (map Ok texts) ->
  extract_pdf env file_content = Ok (strip (concat (page_blocks 0 texts))).
Proof.
  intros Hpages. unfold extract_pdf. rewrite Hpages.
  cbn [rbind]. rewrite pdf_loop_all_ok. reflexivity.
Qed.

Lemma extract_pdf_cases (file_content : bytes) :
  (exists e, extract_pdf env file_content
             = Ok (lit "[Error reading PDF: " ++ str_exn env e ++ lit "]"))
  \/ (exists texts, pdf_pages env file_content = Ok (map Ok texts)
                    /\ extract_pdf env file_content
                       = Ok (strip (concat (page_blocks 0 texts)))).
Proof.
  destruct (pdf_pages env file_content) as [pages|e] eqn:Hpages.
  - destruct (pdf_loop_cases pages 0 []) as [[texts ->]|[e He]].
    + right. exists texts. split; [reflexivity|].
      apply extract_pdf_all_pages. exact Hpages.
    + left. exists e. unfold extract_pdf. rewrite Hpages. cbn [rbind].
      rewrite He. reflexivity.
  - left. exists e. unfold extract_pdf. rewrite Hpages. reflexivity.
Qed.


(** The loop raises what the first unreadable page raised. *)
Lemma pdf_loop_first_failure (pages : list (result pystr)) (i : nat)
  (text_parts : list pystr) :
  match first_failure pages with
  | Some e => pdf_loop pages i text_parts = Raise e
  | None => exists texts, pages = map Ok texts
  end.
Proof.
  revert i text_parts.
  induction pages as [|[t|e] pages IH]; intros i text_parts.
  - exists []. reflexivity.
  - cbn [first_failure pdf_loop rbind].
    destruct (first_failure pages) as [e|].
    + destruct (truthy t && truthy (strip t)); apply IH.
    + destruct (IH i text_parts) as [texts ->]. exists (t :: texts). reflexivity.
  - reflexivity.
Qed.

(** The extractor, by the branch it takes. *)
Lemma extract_text_from_file_dispatch (file_content : bytes) (filename : pystr)
  (kind : option pystr) :
  filetype_guess env file_content = Ok kind ->
  extract_text_from_file env file_content filename
  = rtry
      match classify (file_type_of kind) (file_extension_of env filename) with
      | PdfFile => extract_pdf env file_content
      | WordFile => extract_docx env file_content
      | LegacyWordFile =>
          Ok (lit "[Legacy Word document (.doc) detected. Please convert to .docx format for better text extraction. Filename: "
                ++ filename ++ lit "]")
      | TextFile => extract_text env file_content
      | ImageFile => extract_image env file_content filename
      | UnsupportedFile =>
          Ok (lit "[Unsupported file type: " ++ file_type_of kind
                ++ lit " (extension: ." ++ file_extension_of env filename ++ lit ").]")
      end
      (fun e => Ok (lit "[Error extracting text from " ++ filename ++ lit ": "
                      ++ str_exn env e ++ lit "]")).
Proof.
  intros Hguess. unfold extract_text_from_file, classify. rewrite Hguess.
  cbn [rbind]. fold (file_type_of kind).
  destruct (_ || _); [reflexivity|].
  destruct (_ || _); [reflexivity|].
  destruct (pystr_eqb _ _); [reflexivity|].
  destruct (_ || _); [reflexivity|].
  destruct (_ || _); reflexivity.
Qed.

(** No branch raises. *)
Lemma extract_pdf_total (file_content : bytes) :
  exists text, extract_pdf env file_content = Ok text.
Proof.
  destruct (extract_pdf_cases file_content) as [[e ->]|[texts [_ ->]]];
    eexists; reflexivity.
Qed.

Lemma extract_docx_total (file_content : bytes) :
  exists text, extract_docx env file_content = Ok text.
Proof.
  unfold extract_docx.
  destruct (docx_document env file_content); eexists; reflexivity.
Qed.

Lemma extract_text_total (file_content : bytes) :
  exists text, extract_text env file_content = Ok text.
Proof.
  unfold extract_text. destruct (utf8_decode file_content); eexists; reflexivity.
Qed.

Lemma extract_image_total (file_content : bytes) (filename : pystr) :
  exists text, extract_image env file_content filename = Ok text.
Proof.
  unfold extract_image.
  destruct (vision_generate env vision_prompt file_content); eexists; reflexivity.
Qed.

(** The dispatch returns in every branch. *)
Lemma extract_text_from_file_total (file_content : bytes) (filename : pystr) :
  exists text, extract_text_from_file env file_content filename = Ok text.
Proof.
  destruct (filetype_guess env file_content) as [kind|e] eqn:Hguess.
  - rewrite (extract_text_from_file_dispatch _ _ _ Hguess).
    destruct (classify _ _).
    + destruct (extract_pdf_total file_content) as [text ->]. exists text. reflexivity.
    + destruct (extract_docx_total file_content) as [text ->]. exists text. reflexivity.
    + eexists. reflexivity.
    + destruct (extract_text_total file_content) as [text ->]. exists text. reflexivity.
    + destruct (extract_image_total file_content filename) as [text ->].
      exists text. reflexivity.
    + eexists. reflexivity.
  - unfold extract_text_from_file. rewrite Hguess. eexists. reflexivity.
Qed.

(** Each failure of a collaborator, by name. *)
Lemma extract_sniffing_failure (file_content : bytes) (filename : pystr) (e : exn) :
  filetype_guess env file_content = Raise e ->
  extract_text_from_file env file_content filename
  = Ok (lit "[Error extracting text from " ++ filename ++ lit ": "
          ++ str_exn env e ++ lit "]").
Proof. intros H. unfold extract_text_from_file. rewrite H. reflexivity. Qed.

Lemma extract_pdf_reader_failure (file_content : bytes) (e : exn) :
  pdf_pages env file_content = Raise e ->
  extract_pdf env file_content = Ok (lit "[Error reading PDF: " ++ str_exn env e ++ lit "]").
Proof. intros H. unfold extract_pdf. rewrite H. reflexivity. Qed.

Lemma extract_pdf_page_failure (file_content : bytes) (texts : list pystr) (e : exn)
  (rest : list (result pystr)) :
  pdf_pages env file_content = Ok (map Ok texts ++ Raise e :: rest) ->
  extract_pdf env file_content = Ok (lit "[Error reading PDF: " ++ str_exn env e ++ lit "]").
Proof.
  intros H. unfold extract_pdf. rewrite H. cbn [rbind].
  assert (Hloop : forall i parts,
            pdf_loop (map Ok texts ++ Raise e :: rest) i parts = Raise e).
  { clear H. induction texts as [|t texts IH]; intros i parts; [reflexivity|].
    cbn [map app pdf_loop rbind]. destruct (truthy t && truthy (strip t)); apply IH. }
  rewrite Hloop. reflexivity.
Qed.

Lemma extract_docx_failure (file_content : bytes) (e : exn) :
  docx_document env file_content = Raise e ->
  extract_docx env file_content
  = Ok (lit "[Error reading Word document: " ++ str_exn env e ++ lit "]").
Proof. intros H. unfold extract_docx. rewrite H. reflexivity. Qed.

Lemma extract_image_failure (file_content : bytes) (filename : pystr) (e : exn) :
  vision_generate env vision_prompt file_content = Raise e ->
  extract_image env file_content filename
  = Ok (lit "[Image content from " ++ filename ++ lit " - Vision processing error: "
          ++ str_exn env e ++ lit "]").
Proof. intros H. unfold extract_image. rewrite H. reflexivity. Qed.

(** C8: a file that is taken for a PDF (sniffed as [application/pdf], or named
    [*.pdf]) and whose pages the reader reads is extracted to exactly one
    [--- Page N ---] block for every page that has text, in page order, [N]
    being the position of the page in the document counted from 1; pages
    without text contribute nothing. *)
Theorem extract_pdf_blocks (file_content : bytes) (filename : pystr)
  (kind : option pystr) (texts : list pystr) :
  filetype_guess env file_content = Ok kind ->
  kind = Some (lit "application/pdf") \/ file_extension_of env filename = lit "pdf" ->
  pdf_pages env file_content = Ok (map Ok texts) ->
  extract_text_from_file env file_content filename
  = Ok (strip (concat
         (map (fun it => nl ++ lit "--- Page " ++ str_of_nat (fst it + 1) ++ lit " ---"
                          ++ nl ++ snd it ++ nl)
              (filter (fun it => has_text (snd it))
                      (combine (seq 0 (length texts)) texts))))).
Proof.
  intros Hguess Hpdf Hpages. unfold extract_text_from_file.
  rewrite Hguess. cbn [rbind].
  assert (Htest : pystr_eqb match kind with
                            | Some mime => mime
                            | None => lit "application/octet-stream"
                            end (lit "application/pdf")
                  || pystr_eqb (file_extension_of env filename) (lit "pdf") = true).
  { destruct Hpdf as [Hk | Hx]; [rewrite Hk | rewrite Hx].
    - reflexivity.
    - apply orb_true_iff. right. reflexivity. }
  rewrite Htest. unfold extract_pdf. rewrite Hpages. cbn [rbind].
  rewrite pdf_loop_all_ok. unfold page_blocks. reflexivity.
Qed.

(** C3: for every byte string and every filename the extractor returns a text
    and raises nothing.  When a collaborator fails on the way (sniffing, the
    PDF reader or one of its pages, the Word reader, the vision model), the
    text begins with [[] and ends with the message of the failure and []].
    When none fails, the text is what the branch taken extracts: the page
    blocks of a PDF, the paragraphs and cells of a Word document, the decoded
    bytes of a text file (as UTF-8, or as Latin-1 when they are not UTF-8), the
    answer of the vision model behind a marker that begins with [[]; an old
    Word document and an unsupported file give a notice that begins with
    [[]. *)
Theorem extract_text_from_file_never_raises (file_content : bytes) (filename : pystr) :
  exists text,
    extract_text_from_file env file_content filename = Ok text
    /\ match extraction_failure env file_content filename with
       | Some e =>
           startswith (lit "[") text = true
           /\ exists diagnostic,
                text = lit "[" ++ diagnostic ++ str_exn env e ++ lit "]"
       | None =>
           exists kind,
             filetype_guess env file_content = Ok kind
             /\ match classify (file_type_of kind) (file_extension_of env filename) with
                | PdfFile =>
                    exists texts,
                      pdf_pages env file_content = Ok (map Ok texts)
                      /\ text = strip (concat (page_blocks 0 texts))
                | WordFile =>
                    exists doc,
                      docx_document env file_content = Ok doc
                      /\ text = strip (join nl (docx_full_text doc))
                | TextFile =>
                    text = match utf8_decode file_content with
                           | Some s => s
                           | None => latin1_decode file_content
                           end
                | ImageFile =>
                    startswith (lit "[") text = true
                    /\ exists answer,
                         vision_generate env vision_prompt file_content = Ok answer
                         /\ text = lit "[Image content from " ++ filename ++ lit "]"
                                   ++ nl ++ answer
                | LegacyWordFile =>
                    startswith (lit "[") text = true
                    /\ exists notice, text = lit "[" ++ notice ++ filename ++ lit "]"
                | UnsupportedFile =>
                    startswith (lit "[") text = true
                    /\ text = lit "[Unsupported file type: " ++ file_type_of kind
                              ++ lit " (extension: ." ++ file_extension_of env filename
                              ++ lit ").]"
                end
       end.
Proof.
  unfold extraction_failure.
  destruct (filetype_guess env file_content) as [kind|e] eqn:Hguess.
  2:{ unfold extract_text_from_file. rewrite Hguess. cbn [rbind rtry].
      eexists. split; [reflexivity|]. split; [reflexivity|].
      exists (lit "Error extracting text from " ++ filename ++ lit ": ").
      cbn [lit app]. rewrite <- !app_assoc. reflexivity. }
  rewrite (extract_text_from_file_dispatch _ _ _ Hguess).
  destruct (classify (file_type_of kind) (file_extension_of env filename)) eqn:Hclass.
  - (* PDF *)
    unfold extract_pdf.
    destruct (pdf_pages env file_content) as [pages|e] eqn:Hpages; cbn [rbind rtry].
    + pose proof (pdf_loop_first_failure pages 0 []) as Hloop.
      destruct (first_failure pages) as [e|].
      * rewrite Hloop. cbn [rbind rtry].
        eexists. split; [reflexivity|]. split; [reflexivity|].
        exists (lit "Error reading PDF: "). reflexivity.
      * destruct Hloop as [texts ->]. rewrite pdf_loop_all_ok. cbn [rbind rtry app].
        eexists. split; [reflexivity|].
        exists kind. split; [reflexivity|]. rewrite Hclass. exists texts. split; reflexivity.
    + eexists. split; [reflexivity|]. split; [reflexivity|].
      exists (lit "Error reading PDF: "). reflexivity.
  - (* Word *)
    unfold extract_docx.
    destruct (docx_document env file_content) as [doc|e]; cbn [rbind rtry].
    + eexists. split; [reflexivity|].
      exists kind. split; [reflexivity|]. rewrite Hclass. exists doc. split; reflexivity.
    + eexists. split; [reflexivity|]. split; [reflexivity|].
      exists (lit "Error reading Word document: "). reflexivity.
  - (* old Word *)
    cbn [rtry]. eexists. split; [reflexivity|].
    exists kind. split; [reflexivity|]. rewrite Hclass. split; [reflexivity|].
    eexists (tl (lit "[Legacy Word document (.doc) detected. Please convert to .docx format for better text extraction. Filename: ")).
    reflexivity.
  - (* text *)
    unfold extract_text.
    destruct (utf8_decode file_content) as [s|]; cbn [rtry];
      eexists; (split; [reflexivity|]); exists kind; (split; [reflexivity|]); rewrite Hclass; reflexivity.
  - (* image *)
    unfold extract_image.
    destruct (vision_generate env vision_prompt file_content) as [answer|e];
      cbn [rbind rtry].
    + eexists. split; [reflexivity|].
      exists kind. split; [reflexivity|]. rewrite Hclass. split; [reflexivity|].
      exists answer. split; reflexivity.
    + eexists. split; [reflexivity|]. split; [reflexivity|].
      exists (lit "Image content from " ++ filename ++ lit " - Vision processing error: ").
      cbn [lit app]. rewrite <- !app_assoc. reflexivity.
  - (* unsupported *)
    cbn [rtry]. eexists. split; [reflexivity|].
    exists kind. split; [reflexivity|]. rewrite Hclass. split; reflexivity.
Qed.

End ExtractorProofs.

(** The three-page document of the fixture: text on pages 1 and 3 only. *)
Lemma extract_pdf_blocks_witness :
  extract_text_from_file Fixture.env Fixture.pdf_magic (lit "report.pdf")
  = Ok (strip (concat
         (map (fun it => nl ++ lit "--- Page " ++ str_of_nat (fst it + 1) ++ lit " ---"
                          ++ nl ++ snd it ++ nl)
              (filter (fun it => has_text (snd it))
                      (combine (seq 0 3) [lit "Alpha"; []; lit "Gamma"]))))).
Proof.
  apply (extract_pdf_blocks Fixture.env Fixture.pdf_magic (lit "report.pdf")
           (Some (lit "application/pdf")) [lit "Alpha"; []; lit "Gamma"]).
  - reflexivity.
  - left. reflexivity.
  - reflexivity.
Defined.

Example extract_three_page_pdf :
  let out := lit "--- Page 1 ---" ++ nl ++ lit "Alpha" ++ nl ++ nl
             ++ lit "--- Page 3 ---" ++ nl ++ lit "Gamma" in
  extract_text_from_file Fixture.env Fixture.pdf_magic (lit "report.pdf") = Ok out
  /\ count_sub (lit "--- Page ") out = 2
  /\ count_sub (lit "--- Page 1 ---") out = 1
  /\ count_sub (lit "--- Page 2 ---") out = 0
  /\ count_sub (lit "--- Page 3 ---") out = 1.
Proof. vm_compute. repeat split. Qed.

Example extract_truncated_pdf :
  extract_text_from_file Fixture.env [x25; x50] (lit "broken.PDF")
  = Ok (lit "[Error reading PDF: EOF marker not found]").
Proof. vm_compute. reflexivity. Qed.

Example extract_empty_text :
  extract_text_from_file Fixture.env [] (lit "notes.txt") = Ok [].
Proof. vm_compute. reflexivity. Qed.

Example extract_latin1_text :
  extract_text_from_file Fixture.env [x63; x61; x66; xe9] (lit "menu.txt")
  = Ok [99; 97; 102; 233]%N.
Proof. vm_compute. reflexivity. Qed.

Example extract_utf8_text :
  extract_text_from_file Fixture.env [x63; x61; x66; xc3; xa9] (lit "menu.txt")
  = Ok [99; 97; 102; 233]%N.
Proof. vm_compute. reflexivity. Qed.

Example extract_unsupported :
  extract_text_from_file Fixture.env [x00] (lit "archive.zip")
  = Ok (lit "[Unsupported file type: application/octet-stream (extension: .zip).]").
Proof. vm_compute. reflexivity. Qed.

(* ================================================================== *)
(** ** Properties of the context assembler *)

Lemma context_loop_app (data : list Document) (context_parts : list pystr)
  (context_sources : list Source) :
  context_loop data context_parts context_sources
  = (context_parts ++ map context_part data,
     context_sources ++ map (fun doc => mkSource (doc_id doc) (doc_filename doc)) data).
Proof.
  revert context_parts context_sources.
  induction data as [|doc data IH]; intros context_parts context_sources.
  - simpl. rewrite !app_nil_r. reflexivity.
  - cbn [context_loop map]. rewrite IH, <- !app_assoc. reflexivity.
Qed.

Lemma assemble_context_map (data : list Document) :
  assemble_context (Some data)
  = (join (nl ++ nl) (map context_part data),
     map (fun doc => mkSource (doc_id doc) (doc_filename doc)) data).
Proof.
  destruct data as [|doc data]; [reflexivity|].
  unfold assemble_context. rewrite context_loop_app. reflexivity.
Qed.

(** C7: for every list of document rows the context is the rendering of each
    row, a header line [--- Document: {filename} ---] followed by the whole
    content, the renderings joined by a blank line in row order; the provenance
    list has one [{id, filename}] entry per row, in the same order. *)
Theorem assemble_context_rows (data : list Document) :
  assemble_context (Some data)
  = (join (nl ++ nl)
          (map (fun doc => lit "--- Document: " ++ doc_filename doc ++ lit " ---"
                            ++ nl ++ doc_content doc) data),
     map (fun doc => mkSource (doc_id doc) (doc_filename doc)) data).
Proof.
  destruct data as [|doc data]; [reflexivity|].
  unfold assemble_context. rewrite context_loop_app. reflexivity.
Qed.

(** The provenance has as many entries as there are rows, and its n-th entry
    names the n-th row. *)
Corollary assemble_context_sources_nth (data : list Document) (n : nat) (doc : Document) :
  nth_error data n = Some doc ->
  nth_error (snd (assemble_context (Some data))) n
  = Some (mkSource (doc_id doc) (doc_filename doc)).
Proof.
  intros H. rewrite assemble_context_map. cbn [snd].
  rewrite nth_error_map, H. reflexivity.
Qed.

Example assemble_two_documents :
  assemble_context (Some [Fixture.doc_a; Fixture.doc_b])
  = (lit "--- Document: a.txt ---" ++ nl ++ lit "X" ++ nl ++ nl
     ++ lit "--- Document: b.txt ---" ++ nl ++ lit "Y",
     [mkSource 1 (lit "a.txt"); mkSource 2 (lit "b.txt")]).
Proof. vm_compute. reflexivity. Qed.

Example assemble_no_documents :
  assemble_context None = ([], []) /\ assemble_context (Some []) = ([], []).
Proof. split; reflexivity. Qed.

(* ================================================================== *)
(** ** Properties of the request handlers *)

Ltac run_handler :=
  unfold try_except, bind, ret, raise, lift, execute, get_utcnow, internal_error,
    with_current_user in *.

Section HandlerProofs.
Variable env : Env.

(** What leaves a handler body wrapped in the catch-all clause is a result or
    an [HTTPException] with status 500, whatever the body raised. *)
Lemma catch_all_500 {A} (body : M A) (w : World) :
  match fst (try_except body (internal_error env) w) with
  | Ok _ => True
  | Raise e => exists detail, e = HTTPException 500 detail
  end.
Proof.
  run_handler. destruct (body w) as [[a|e] w']; cbn [fst]; [exact I|].
  eexists. reflexivity.
Qed.

(** The status [400], [401] or [404] a handler body raises reaches the client
    as status 500. *)
Lemma catch_all_rewrites_status {A} (body : M A) (w : World) (status : N)
  (detail : pystr) :
  fst (body w) = Raise (HTTPException status detail) ->
  fst (try_except body (internal_error env) w)
  = Raise (HTTPException 500 (http_exception_str env status detail)).
Proof.
  run_handler. destruct (body w) as [[a|e] w']; cbn [fst]; intros H;
    [discriminate H|]. injection H as ->. reflexivity.
Qed.

Lemma register_raises_only_500 (user : UserCreate) (w : World) :
  match fst (register env user w) with
  | Ok _ => True
  | Raise e => exists detail, e = HTTPException 500 detail
  end.
Proof. apply catch_all_500. Qed.

Lemma login_raises_only_500 (form_data : UserLogin) (w : World) :
  match fst (login env form_data w) with
  | Ok _ => True
  | Raise e => exists detail, e = HTTPException 500 detail
  end.
Proof. apply catch_all_500. Qed.

Lemma upload_file_raises_only_500 (file : UploadFile) (uid : Z) (w : World) :
  match fst (upload_file env file uid w) with
  | Ok _ => True
  | Raise e => exists detail, e = HTTPException 500 detail
  end.
Proof. apply catch_all_500. Qed.

Lemma get_document_content_raises_only_500 (document_id uid : Z) (w : World) :
  match fst (get_document_content env document_id uid w) with
  | Ok _ => True
  | Raise e => exists detail, e = HTTPException 500 detail
  end.
Proof. apply catch_all_500. Qed.

Lemma delete_document_raises_only_500 (document_id uid : Z) (w : World) :
  match fst (delete_document env document_id uid w) with
  | Ok _ => True
  | Raise e => exists detail, e = HTTPException 500 detail
  end.
Proof. apply catch_all_500. Qed.

Lemma chat_raises_only_500 (req : ChatRequest) (uid : Z) (w : World) :
  match fst (chat env req uid w) with
  | Ok _ => True
  | Raise e => exists detail, e = HTTPException 500 detail
  end.
Proof. apply catch_all_500. Qed.

Lemma guest_extract_text_raises_only_500 (file : UploadFile) (w : World) :
  match fst (guest_extract_text env file w) with
  | Ok _ => True
  | Raise e => exists detail, e = HTTPException 500 detail
  end.
Proof. apply catch_all_500. Qed.

(** A registration with an email that is already stored. *)
Lemma register_duplicate_email (user : UserCreate) (w : World) (u : User) :
  store_up w = true ->
  In u (users w) -> user_email u = create_email user ->
  fst (register env user w)
  = Raise (HTTPException 500
             (http_exception_str env 400 (lit "Email already registered"))).
Proof.
  intros Hup Hin Hmail. unfold register.
  apply catch_all_rewrites_status.
  unfold Store.users_by_email. run_handler. rewrite Hup.
  destruct (filter _ (users w)) as [|u' l] eqn:Hf; [|reflexivity].
  exfalso.
  assert (Hu : In u (filter (fun u0 => pystr_eqb (user_email u0) (create_email user))
                            (users w))).
  { apply filter_In. split; [exact Hin|]. apply pystr_eqb_eq. exact Hmail. }
  rewrite Hf in Hu. exact Hu.
Qed.

(** A request for a document that the caller does not own or that does not
    exist. *)
Lemma get_document_content_missing (document_id uid : Z) (w : World) :
  store_up w = true ->
  (forall d, In d (documents w) -> doc_id d = document_id -> doc_user_id d <> uid) ->
  fst (get_document_content env document_id uid w)
  = Raise (HTTPException 500 (http_exception_str env 404 (lit "Document not found"))).
Proof.
  intros Hup Hnone. unfold get_document_content.
  apply catch_all_rewrites_status.
  unfold Store.documents_by_id_of_user. run_handler. rewrite Hup.
  destruct (filter _ (documents w)) as [|d l] eqn:Hf; [reflexivity|].
  exfalso.
  assert (Hd : In d (d :: l)) by (left; reflexivity).
  rewrite <- Hf in Hd. apply filter_In in Hd. destruct Hd as [Hin Hb].
  apply andb_prop in Hb. destruct Hb as [Hid Hown].
  unfold Store.has_id, Store.owned_by in *.
  apply Z.eqb_eq in Hid, Hown. exact (Hnone d Hin Hid Hown).
Qed.

End HandlerProofs.

(** C1, on the fixture: each validation failure raised inside a handler reaches
    the client with status 500, not with the status the handler raised. *)
Theorem validation_failures_reach_client_as_500 :
  fst (register Fixture.env
         (mkUserCreate (lit "alice@example.com") (lit "pw") (lit "A")) Fixture.world)
  = Raise (HTTPException 500 (lit "400: Email already registered"))
  /\ fst (login Fixture.env
            (mkUserLogin (lit "alice@example.com") (lit "wrong")) Fixture.world)
     = Raise (HTTPException 500 (lit "401: Invalid credentials"))
  /\ fst (login Fixture.env
            (mkUserLogin (lit "nobody@example.com") (lit "pw")) Fixture.world)
     = Raise (HTTPException 500 (lit "401: Invalid credentials"))
  /\ fst (get_document_content Fixture.env 99 1 Fixture.world)
     = Raise (HTTPException 500 (lit "404: Document not found"))
  /\ fst (delete_document Fixture.env 99 1 Fixture.world)
     = Raise (HTTPException 500 (lit "404: Document not found"))
  /\ fst (upload_file Fixture.env
            (mkUploadFile (Some (lit "a/b.txt")) None [x68; x69]) 1 Fixture.world)
     = Raise (HTTPException 500 (lit "400: Invalid filename"))
  /\ fst (upload_file Fixture.env
            (mkUploadFile (Some (lit "b.txt")) None []) 1 Fixture.world)
     = Raise (HTTPException 500 (lit "400: Empty file uploaded.")).
Proof. vm_compute. repeat split. Qed.

Example login_succeeds :
  exists token,
    fst (login Fixture.env
           (mkUserLogin (lit "alice@example.com") (lit "wonderland")) Fixture.world)
    = Ok (mkTokenResponse token (lit "bearer") Fixture.alice)
    /\ fst (get_current_user_id Fixture.env (Some token) Fixture.world) = Ok 1%Z.
Proof. eexists. vm_compute. split; reflexivity. Qed.

(* ================================================================== *)
(** ** Properties of the session tokens *)

Section TokenProofs.
Variable env : Env.


Lemma token_failures_distinct :
  token_missing <> token_expired /\ token_missing <> token_invalid
  /\ token_expired <> token_invalid.
Proof. repeat split; discriminate. Qed.

(** Verification never changes the state, and its outcome is read off the
    outcome of decoding. *)
Lemma get_current_user_id_cases (token : option Token) (w : World) :
  snd (get_current_user_id env token w) = w
  /\ fst (get_current_user_id env token w)
     = match token with
       | None => Raise token_missing
       | Some t =>
           match jwt_decode env (utcnow w) t (SECRET_KEY env) [ALGORITHM] with
           | Ok payload =>
               match claim_user_id payload with
               | Some uid => Ok uid
               | None => Raise token_invalid
               end
           | Raise (ExpiredSignatureError _) => Raise token_expired
           | Raise (PyJWTError _) => Raise token_invalid
           | Raise e => Raise e
           end
       end.
Proof.
  destruct token as [t|]; [|split; reflexivity].
  unfold get_current_user_id. run_handler.
  destruct (jwt_decode env (utcnow w) t (SECRET_KEY env) [ALGORITHM]) as [payload|e].
  - destruct (claim_user_id payload); split; reflexivity.
  - destruct e; split; reflexivity.
Qed.

(** Decoding raises the expiry error or another error of the library, nothing
    else. *)
Lemma jwt_decode_raises (now : Z) (t : Token) (key : pystr) (algs : list pystr) (e : exn) :
  jwt_decode env now t key algs = Raise e ->
  (exists msg, e = ExpiredSignatureError msg) \/ (exists msg, e = PyJWTError msg).
Proof.
  unfold jwt_decode. destruct t as [raw|alg payload signature].
  - intros H. injection H as <-. right. eexists. reflexivity.
  - destruct (negb (mem_str alg algs)).
    { intros H. injection H as <-. right. eexists. reflexivity. }
    destruct (negb (signature =? _)%N).
    { intros H. injection H as <-. right. eexists. reflexivity. }
    destruct (claim_exp payload) as [exp|]; [|discriminate].
    destruct (exp <=? now)%Z; [|discriminate].
    intros H. injection H as <-. left. eexists. reflexivity.
Qed.

(** Verification fails in one of the three ways only. *)
Lemma get_current_user_id_failures (token : option Token) (w : World) :
  match fst (get_current_user_id env token w) with
  | Ok _ => True
  | Raise e => e = token_missing \/ e = token_expired \/ e = token_invalid
  end.
Proof.
  rewrite (proj2 (get_current_user_id_cases token w)).
  destruct token as [t|]; [|left; reflexivity].
  destruct (jwt_decode env (utcnow w) t (SECRET_KEY env) [ALGORITHM])
    as [payload|e] eqn:Hdec.
  - destruct (claim_user_id payload); [exact I|right; right; reflexivity].
  - destruct (jwt_decode_raises _ _ _ _ _ Hdec) as [[msg ->]|[msg ->]].
    + right; left; reflexivity.
    + right; right; reflexivity.
Qed.

Lemma absent_token_is_missing (w : World) :
  fst (get_current_user_id env None w) = Raise token_missing.
Proof. reflexivity. Qed.

(** A token under the server's key whose stamped expiry has passed. *)
Lemma expired_token_is_expired (payload : Claims) (exp : Z) (w : World) :
  claim_exp payload = Some exp -> (exp <= utcnow w)%Z ->
  fst (get_current_user_id env
         (Some (jwt_encode env payload (SECRET_KEY env) ALGORITHM)) w)
  = Raise token_expired.
Proof.
  intros Hexp Hpast.
  rewrite (proj2 (get_current_user_id_cases _ w)).
  unfold jwt_encode, jwt_decode.
  change (mem_str ALGORITHM [ALGORITHM]) with true. cbn [negb].
  rewrite N.eqb_refl. cbn [negb]. rewrite Hexp.
  apply Z.leb_le in Hpast. rewrite Hpast. reflexivity.
Qed.

(** A string that is not a signed token. *)
Lemma malformed_token_is_invalid (raw : pystr) (w : World) :
  fst (get_current_user_id env (Some (Malformed raw)) w) = Raise token_invalid.
Proof. reflexivity. Qed.

(** A token whose signature is not the one the server's key gives, whatever
    its payload and expiry. *)
Lemma wrong_signature_is_invalid (payload : Claims) (signature : N) (w : World) :
  signature <> hs256 env (SECRET_KEY env) ALGORITHM payload ->
  fst (get_current_user_id env (Some (Compact ALGORITHM payload signature)) w)
  = Raise token_invalid.
Proof.
  intros Hsig.
  rewrite (proj2 (get_current_user_id_cases _ w)).
  unfold jwt_decode.
  change (mem_str ALGORITHM [ALGORITHM]) with true. cbn [negb].
  apply N.eqb_neq in Hsig. rewrite Hsig. reflexivity.
Qed.

(** A token signed with another key, when that key signs the payload
    differently. *)
Lemma wrong_key_is_invalid (payload : Claims) (key : pystr) (w : World) :
  hs256 env key ALGORITHM payload <> hs256 env (SECRET_KEY env) ALGORITHM payload ->
  fst (get_current_user_id env (Some (jwt_encode env payload key ALGORITHM)) w)
  = Raise token_invalid.
Proof. apply wrong_signature_is_invalid. Qed.

(** What [create_access_token] stamps: the given lifetime when it is truthy,
    fifteen minutes otherwise. *)
Lemma create_access_token_expiry (data : Claims) (expires_delta : option Z) (w : World) :
  create_access_token env data expires_delta w
  = (Ok (jwt_encode env
           (mkClaims (claim_user_id data)
              (Some (match expires_delta with
                     | Some 0%Z | None => utcnow w + 900
                     | Some d => utcnow w + d
                     end)%Z))
           (SECRET_KEY env) ALGORITHM), w).
Proof.
  unfold create_access_token. run_handler.
  destruct expires_delta as [[|d|d]|]; reflexivity.
Qed.

(** A token issued with a positive lifetime [d] verifies until [d] seconds
    have passed and is expired from then on. *)
Lemma issued_token_lifetime (uid d : Z) (w w' : World) :
  (0 < d)%Z ->
  exists token,
    create_access_token env (mkClaims (Some uid) None) (Some d) w = (Ok token, w)
    /\ fst (get_current_user_id env (Some token) w')
       = if (utcnow w + d <=? utcnow w')%Z then Raise token_expired else Ok uid.
Proof.
  intros Hd. eexists. split.
  - rewrite create_access_token_expiry. destruct d; [lia|reflexivity|lia].
  - rewrite (proj2 (get_current_user_id_cases _ w')).
    unfold jwt_encode, jwt_decode.
    change (mem_str ALGORITHM [ALGORITHM]) with true. cbn [negb].
    rewrite N.eqb_refl. cbn [negb claim_exp claim_user_id].
    destruct (utcnow w + d <=? utcnow w')%Z; reflexivity.
Qed.

(** C5, the zero lifetime: a token issued with [expires_delta] zero is stamped
    fifteen minutes ahead, and it verifies, at the time of issue and at any
    time less than 900 seconds later. *)
Theorem zero_ttl_token_verifies (uid : Z) (w w' : World) :
  exists token,
    create_access_token env (mkClaims (Some uid) None) (Some 0%Z) w = (Ok token, w)
    /\ token = jwt_encode env (mkClaims (Some uid) (Some (utcnow w + 900)%Z))
                 (SECRET_KEY env) ALGORITHM
    /\ fst (get_current_user_id env (Some token) w) = Ok uid
    /\ fst (get_current_user_id env (Some token) w')
       = if (utcnow w + 900 <=? utcnow w')%Z then Raise token_expired else Ok uid.
Proof.
  eexists. split; [apply create_access_token_expiry|].
  split; [reflexivity|].
  assert (H : forall w0,
     fst (get_current_user_id env
            (Some (jwt_encode env (mkClaims (Some uid) (Some (utcnow w + 900)%Z))
                     (SECRET_KEY env) ALGORITHM)) w0)
     = if (utcnow w + 900 <=? utcnow w0)%Z then Raise token_expired else Ok uid).
  { intros w0. rewrite (proj2 (get_current_user_id_cases _ w0)).
    unfold jwt_encode, jwt_decode.
    change (mem_str ALGORITHM [ALGORITHM]) with true. cbn [negb].
    rewrite N.eqb_refl. cbn [negb claim_exp claim_user_id].
    destruct (utcnow w + 900 <=? utcnow w0)%Z; reflexivity. }
  split; [|apply H].
  rewrite H. destruct (utcnow w + 900 <=? utcnow w)%Z eqn:E; [|reflexivity].
  apply Z.leb_le in E. lia.
Qed.

End TokenProofs.

Example wrong_key_token_on_fixture :
  fst (get_current_user_id Fixture.env
         (Some (jwt_encode Fixture.env (mkClaims (Some 1%Z) (Some 5000%Z))
                  (lit "another-secret") ALGORITHM)) Fixture.world)
  = Raise token_invalid.
Proof. vm_compute. reflexivity. Qed.

Example expired_token_on_fixture :
  fst (get_current_user_id Fixture.env
         (Some (jwt_encode Fixture.env (mkClaims (Some 1%Z) (Some 1000%Z))
                  (lit "server-secret") ALGORITHM)) Fixture.world)
  = Raise token_expired.
Proof. vm_compute. reflexivity. Qed.

Example zero_ttl_token_on_fixture :
  exists token,
    fst (create_access_token Fixture.env (mkClaims (Some 1%Z) None) (Some 0%Z)
           Fixture.world) = Ok token
    /\ fst (get_current_user_id Fixture.env (Some token) Fixture.world) = Ok 1%Z.
Proof. eexists. vm_compute. split; reflexivity. Qed.

(* ================================================================== *)
(** ** The callers of the extractor *)

Section UploadProofs.
Variable env : Env.

(** [upload_file] turns away a file above the limit before extracting, with
    the state untouched; the status the client sees is 500. *)
Lemma upload_file_oversized (file : UploadFile) (uid : Z) (w : World) :
  bad_filename (file_filename file) = false ->
  (MAX_FILE_SIZE < N.of_nat (length (file_read file)))%N ->
  upload_file env file uid w
  = (Raise (HTTPException 500
              (http_exception_str env 400 (lit "File size exceeds 10MB limit."))), w).
Proof.
  intros Hname Hsize. unfold upload_file. run_handler.
  rewrite Hname. apply N.ltb_lt in Hsize. rewrite Hsize. reflexivity.
Qed.

(** [upload_file] turns away an empty file before extracting; again the status
    is 500. *)
Lemma upload_file_empty (file : UploadFile) (uid : Z) (w : World) :
  bad_filename (file_filename file) = false ->
  file_read file = [] ->
  upload_file env file uid w
  = (Raise (HTTPException 500
              (http_exception_str env 400 (lit "Empty file uploaded."))), w).
Proof.
  intros Hname Hempty. unfold upload_file. run_handler.
  rewrite Hname, Hempty. reflexivity.
Qed.

Lemma guest_extract_text_oversized (file : UploadFile) (w : World) :
  (MAX_FILE_SIZE < N.of_nat (length (file_read file)))%N ->
  guest_extract_text env file w
  = (Raise (HTTPException 500
              (http_exception_str env 400 (lit "File size exceeds 10MB limit."))), w).
Proof.
  intros Hsize. unfold guest_extract_text. run_handler.
  apply N.ltb_lt in Hsize. rewrite Hsize. reflexivity.
Qed.

(** [guest_extract_text] has no emptiness check: an empty file goes to the
    extractor and the request succeeds with what the extractor returns. *)
Lemma guest_extract_text_empty (file : UploadFile) (w : World) :
  file_read file = [] ->
  exists filename text,
    extract_text_from_file env [] filename = Ok text
    /\ guest_extract_text env file w
       = (Ok (mkGuestExtractResponse text filename 0 (length text)), w).
Proof.
  intros Hempty. unfold guest_extract_text. run_handler. rewrite Hempty.
  cbn [length N.of_nat]. change (MAX_FILE_SIZE <? 0)%N with false. cbv iota.
  set (filename := match file_filename file with
                   | Some ((_ :: _) as n) => n
                   | _ => lit "uploaded_file"
                   end).
  destruct (extract_text_from_file_total env [] filename) as [text Htext].
  exists filename, text. split; [exact Htext|].
  rewrite Htext. reflexivity.
Qed.

End UploadProofs.

(** C4, on the fixture: an empty upload is turned away with status 500 (the
    handler raised 400), and the guest endpoint accepts the same empty file and
    runs the extractor on it. *)
Theorem empty_file_through_both_callers :
  upload_file Fixture.env (mkUploadFile (Some (lit "b.txt")) None []) 1 Fixture.world
  = (Raise (HTTPException 500 (lit "400: Empty file uploaded.")), Fixture.world)
  /\ guest_extract_text Fixture.env (mkUploadFile (Some (lit "b.txt")) None [])
       Fixture.world
     = (Ok (mkGuestExtractResponse [] (lit "b.txt") 0 0), Fixture.world)
  /\ extract_text_from_file Fixture.env [] (lit "b.txt") = Ok [].
Proof. vm_compute. repeat split. Qed.

Example upload_text_file :
  exists w',
    upload_file Fixture.env
      (mkUploadFile (Some (lit "hello.txt")) (Some (lit "text/plain"))
         [x68; x65; x6c; x6c; x6f; x20; x77; x6f; x72; x6c; x64]) 1 Fixture.world
    = (Ok (mkUploadResponse (lit "File uploaded successfully") 4 (lit "hello.txt")
             11 11 (lit "hello world") None), w')
    /\ documents w'
       = documents Fixture.world
         ++ [mkDocument 4 1 (lit "hello.txt") (lit "hello world") (lit "text/plain") 1000].
Proof. eexists. vm_compute. split; reflexivity. Qed.

(* ================================================================== *)
(** ** Chat and the documents of other users *)


Lemma filter_filter_implied {A} (p q : A -> bool) (l : list A) :
  (forall x, p x = true -> q x = true) ->
  filter p (filter q l) = filter p l.
Proof.
  intros Hpq. induction l as [|x l IH]; [reflexivity|].
  cbn [filter]. destruct (q x) eqn:Hq.
  - cbn [filter]. rewrite IH. reflexivity.
  - destruct (p x) eqn:Hp; [|exact IH].
    rewrite (Hpq x Hp) in Hq. discriminate Hq.
Qed.

Section ChatProofs.
Variable env : Env.

Lemma generate_response_total (message context : pystr) :
  exists text, generate_response env message context = Ok text.
Proof.
  unfold generate_response.
  destruct (model_generate env _) as [text|e]; eexists; reflexivity.
Qed.


Lemma chat_rows_owned (req : ChatRequest) (uid : Z) (docs rows : list Document) :
  chat_rows req uid docs = Some rows ->
  Forall (fun d => In d docs /\ doc_user_id d = uid) rows.
Proof.
  unfold chat_rows. intros H. apply Forall_forall. intros d Hd.
  destruct (match req_use_all_documents req with Some b => b | None => false end).
  - injection H as <-. apply filter_In in Hd. destruct Hd as [Hin Hown].
    split; [exact Hin|]. apply Z.eqb_eq. exact Hown.
  - destruct (req_selected_documents req) as [[|id ids]|]; try discriminate H.
    injection H as <-. apply filter_In in Hd. destruct Hd as [Hin Hb].
    apply andb_prop in Hb. destruct Hb as [Hown _].
    split; [exact Hin|]. apply Z.eqb_eq. exact Hown.
Qed.

Lemma chat_rows_only_own (req : ChatRequest) (uid : Z) (docs : list Document) :
  chat_rows req uid (filter (Store.owned_by uid) docs) = chat_rows req uid docs.
Proof.
  unfold chat_rows.
  destruct (match req_use_all_documents req with Some b => b | None => false end).
  - rewrite filter_filter_implied; [reflexivity|auto].
  - destruct (req_selected_documents req) as [[|id ids]|]; try reflexivity.
    rewrite filter_filter_implied; [reflexivity|].
    intros d Hd. apply andb_prop in Hd. exact (proj1 Hd).
Qed.

(** With the store up, [chat] answers: the model is asked with the context of
    the returned rows, the turn is appended, and the sources are those rows. *)
Lemma chat_answers (req : ChatRequest) (uid : Z) (w : World) :
  store_up w = true ->
  exists response_text,
    generate_response env (req_message req)
      (fst (assemble_context (chat_rows req uid (documents w)))) = Ok response_text
    /\ fst (chat env req uid w)
       = Ok (mkChatResponse response_text
               (match snd (assemble_context (chat_rows req uid (documents w))) with
                | [] => false
                | _ :: _ => true
                end)
               (snd (assemble_context (chat_rows req uid (documents w))))).
Proof.
  intros Hup.
  destruct (generate_response_total (req_message req)
              (fst (assemble_context (chat_rows req uid (documents w)))))
    as [text Htext].
  exists text. split; [exact Htext|].
  revert Htext. unfold chat, chat_rows.
  unfold Store.documents_of_user, Store.documents_of_user_in, Store.chat_history_insert.
  run_handler.
  destruct (match req_use_all_documents req with Some b => b | None => false end).
  - rewrite Hup.
    destruct (assemble_context _) as [context sources]. cbn [fst snd].
    intros ->. cbn [store_up]. rewrite Hup. reflexivity.
  - destruct (req_selected_documents req) as [[|id ids]|].
    + cbn [assemble_context fst snd]. intros ->. rewrite Hup. reflexivity.
    + rewrite Hup.
      destruct (assemble_context _) as [context sources]. cbn [fst snd].
      intros ->. cbn [store_up]. rewrite Hup. reflexivity.
    + cbn [assemble_context fst snd]. intros ->. rewrite Hup. reflexivity.
Qed.

(** C2, as the code has it: with the store up a chat request does not fail,
    whatever ids it selects; the documents of other users contribute nothing
    (the answer is the one given when those documents do not exist at all), and
    every source of the answer is a document of the caller. *)
Theorem chat_ignores_foreign_documents (req : ChatRequest) (uid : Z) (w : World) :
  store_up w = true ->
  exists resp,
    fst (chat env req uid w) = Ok resp
    /\ fst (chat env req uid (only_documents_of uid w)) = Ok resp
    /\ Forall (fun s => exists d, In d (documents w) /\ doc_user_id d = uid
                                  /\ s = mkSource (doc_id d) (doc_filename d))
              (chat_context_sources resp).
Proof.
  intros Hup.
  destruct (chat_answers req uid w Hup) as [text [Htext Hchat]].
  destruct (chat_answers req uid (only_documents_of uid w) Hup) as [text' [Htext' Hchat']].
  cbn [only_documents_of documents] in Htext', Hchat'.
  rewrite chat_rows_only_own in Htext', Hchat'.
  rewrite Htext in Htext'. injection Htext' as <-.
  eexists. split; [exact Hchat|]. split; [exact Hchat'|].
  cbn [chat_context_sources].
  destruct (chat_rows req uid (documents w)) as [rows|] eqn:Hrows;
    [|constructor].
  rewrite assemble_context_map. cbn [snd].
  apply Forall_forall. intros s Hs. apply in_map_iff in Hs.
  destruct Hs as [d [<- Hd]].
  pose proof (chat_rows_owned _ _ _ _ Hrows) as Hown.
  rewrite Forall_forall in Hown. destruct (Hown d Hd) as [Hin Hu].
  exists d. repeat split; assumption.
Qed.

End ChatProofs.

(** On the fixture, Bob selects Alice's document. *)
Lemma chat_ignores_foreign_documents_witness :
  exists resp,
    fst (chat Fixture.env (mkChatRequest (lit "what is X?") (Some [1%Z]) None) 2
           Fixture.world) = Ok resp
    /\ fst (chat Fixture.env (mkChatRequest (lit "what is X?") (Some [1%Z]) None) 2
              (only_documents_of 2 Fixture.world)) = Ok resp
    /\ Forall (fun s => exists d, In d (documents Fixture.world) /\ doc_user_id d = 2%Z
                                  /\ s = mkSource (doc_id d) (doc_filename d))
              (chat_context_sources resp).
Proof.
  apply (chat_ignores_foreign_documents Fixture.env
           (mkChatRequest (lit "what is X?") (Some [1%Z]) None) 2 Fixture.world).
  reflexivity.
Defined.

(** C2, against the claim as stated: Bob (user 2) selects document 1, which
    belongs to Alice (user 1); the chat does not fail but answers without
    context, exactly as it does for the id 99 that no document has. *)
Lemma chat_with_foreign_document_answers :
  In Fixture.doc_a (documents Fixture.world)
  /\ doc_id Fixture.doc_a = 1%Z /\ doc_user_id Fixture.doc_a = 1%Z
  /\ fst (chat Fixture.env (mkChatRequest (lit "what is X?") (Some [1%Z]) None) 2
            Fixture.world)
     = Ok (mkChatResponse (lit "an answer") false [])
  /\ fst (chat Fixture.env (mkChatRequest (lit "what is X?") (Some [99%Z]) None) 2
            Fixture.world)
     = Ok (mkChatResponse (lit "an answer") false []).
Proof.
  split; [left; reflexivity|]. vm_compute. repeat split.
Qed.

Example chat_with_own_documents :
  fst (chat Fixture.env (mkChatRequest (lit "what is X?") (Some [2; 1; 3]%Z) None) 1
         Fixture.world)
  = Ok (mkChatResponse (lit "an answer") true
          [mkSource 1 (lit "a.txt"); mkSource 2 (lit "b.txt")]).
Proof. vm_compute. reflexivity. Qed.

(* ================================================================== *)
(** ** Chat history *)


Section Ordering.
Context {A : Type} (key : A -> Z).

Lemma insert_desc_In (x y : A) (l : list A) :
  In y (insert_desc key x l) <-> y = x \/ In y l.
Proof.
  induction l as [|z l IH]; cbn [insert_desc].
  - simpl. intuition.
  - destruct (key z <=? key x)%Z.
    + simpl. intuition.
    + simpl. rewrite IH. intuition.
Qed.

Lemma insert_desc_sorted (x : A) (l : list A) :
  newest_first key l -> newest_first key (insert_desc key x l).
Proof.
  unfold newest_first.
  induction 1 as [|z l Hl IH Hz]; cbn [insert_desc].
  - constructor; constructor.
  - destruct (key z <=? key x)%Z eqn:E.
    + apply Z.leb_le in E. constructor.
      * constructor; assumption.
      * constructor; [exact E|].
        rewrite Forall_forall in Hz |- *. intros y Hy.
        specialize (Hz y Hy). lia.
    + apply Z.leb_gt in E. constructor; [exact IH|].
      rewrite Forall_forall in Hz |- *. intros y Hy.
      apply insert_desc_In in Hy. destruct Hy as [->|Hy]; [lia|auto].
Qed.

Lemma order_desc_In (y : A) (l : list A) : In y (order_desc key l) <-> In y l.
Proof.
  induction l as [|x l IH]; [reflexivity|].
  cbn [order_desc fold_right]. fold (order_desc key l).
  rewrite insert_desc_In, IH. simpl. intuition.
Qed.

Lemma order_desc_sorted (l : list A) : newest_first key (order_desc key l).
Proof.
  induction l as [|x l IH]; [constructor|].
  cbn [order_desc fold_right]. apply insert_desc_sorted. exact IH.
Qed.

Lemma insert_desc_length (x : A) (l : list A) :
  length (insert_desc key x l) = S (length l).
Proof.
  induction l as [|z l IH]; [reflexivity|].
  cbn [insert_desc]. destruct (key z <=? key x)%Z; [reflexivity|].
  cbn [length]. rewrite IH. reflexivity.
Qed.

Lemma order_desc_length (l : list A) : length (order_desc key l) = length l.
Proof.
  induction l as [|x l IH]; [reflexivity|].
  cbn [order_desc fold_right]. fold (order_desc key l).
  rewrite insert_desc_length, IH. reflexivity.
Qed.

Lemma sorted_app_inv (R : A -> A -> Prop) (a b : list A) :
  StronglySorted R (a ++ b) ->
  StronglySorted R a /\ forall x y, In x a -> In y b -> R x y.
Proof.
  induction a as [|z a IH]; cbn [app]; intros H.
  - split; [constructor|]. intros x y [].
  - inversion H as [|? ? Hs Hall]; subst.
    destruct (IH Hs) as [Ha Hab]. split.
    + constructor; [exact Ha|]. apply Forall_app in Hall. exact (proj1 Hall).
    + intros x y [<-|Hx] Hy.
      * rewrite Forall_forall in Hall. apply Hall, in_or_app. right; exact Hy.
      * exact (Hab x y Hx Hy).
Qed.

Lemma sorted_snoc (R : A -> A -> Prop) (l : list A) (x : A) :
  StronglySorted R l -> Forall (fun y => R y x) l -> StronglySorted R (l ++ [x]).
Proof.
  induction 1 as [|z l Hl IH Hz]; cbn [app]; intros Hx.
  - constructor; constructor.
  - inversion Hx; subst. constructor; [apply IH; assumption|].
    apply Forall_app. split; [exact Hz|]. constructor; [assumption|constructor].
Qed.

Lemma newest_first_rev (l : list A) : newest_first key l -> oldest_first key (rev l).
Proof.
  unfold newest_first, oldest_first.
  induction 1 as [|z l Hl IH Hz]; cbn [rev]; [constructor|].
  apply sorted_snoc; [exact IH|].
  rewrite Forall_forall in Hz |- *. intros y Hy. apply in_rev in Hy. auto.
Qed.

End Ordering.

(** Ordering keeps every row, with its multiplicity. *)
Lemma insert_desc_perm {A} (key : A -> Z) (x : A) (l : list A) :
  Permutation (insert_desc key x l) (x :: l).
Proof.
  induction l as [|y l IH]; cbn [insert_desc]; [reflexivity|].
  destruct (key y <=? key x)%Z; [reflexivity|].
  rewrite IH. apply perm_swap.
Qed.

Lemma order_desc_perm {A} (key : A -> Z) (l : list A) :
  Permutation (order_desc key l) l.
Proof.
  induction l as [|x l IH]; [reflexivity|].
  cbn [order_desc fold_right]. fold (order_desc key l).
  rewrite insert_desc_perm, IH. reflexivity.
Qed.


Section HistoryProofs.
Variable env : Env.

(** C9: with the store up the history request returns, and what it returns is
    the caller's 50 most recent turns, or all of them when fewer are stored,
    oldest first: as many turns as the smaller of 50 and the number of stored
    turns of the caller; each one a stored turn of the caller; together with
    the turns left out they are the stored turns of the caller, each as often
    as it is stored; and no turn left out is newer than a returned one.  The
    request fails only when the store does not answer, and it changes
    nothing. *)
Theorem get_chat_history_recent_oldest_first (uid : Z) (w : World) :
  snd (get_chat_history env uid w) = w
  /\ match fst (get_chat_history env uid w) with
     | Ok history =>
         length history
         = Nat.min 50 (length (filter (fun t => (turn_user_id t =? uid)%Z)
                                      (chat_history w)))
         /\ length history <= 50
         /\ Forall (fun t => In t (chat_history w) /\ turn_user_id t = uid) history
         /\ oldest_first turn_created_at history
         /\ (exists omitted,
               Permutation (history ++ omitted)
                           (filter (fun t => (turn_user_id t =? uid)%Z)
                                   (chat_history w))
               /\ Forall (fun o =>
                            Forall (fun h => (turn_created_at o <= turn_created_at h)%Z)
                                   history)
                         omitted)
         /\ (forall t, In t (chat_history w) -> turn_user_id t = uid ->
                       ~ In t history ->
                       Forall (fun h => (turn_created_at t <= turn_created_at h)%Z)
                              history)
     | Raise _ => store_up w = false
     end
  /\ (store_up w = true -> exists history, fst (get_chat_history env uid w) = Ok history).
Proof.
  unfold get_chat_history, Store.chat_history_recent. run_handler.
  destruct (store_up w); [|repeat split; discriminate].
  cbn [fst snd]. split; [reflexivity|]. split; [|intros _; eexists; reflexivity].
  set (mine := filter (fun t => (turn_user_id t =? uid)%Z) (chat_history w)).
  set (sorted := order_desc turn_created_at mine).
  assert (Hsorted : newest_first turn_created_at sorted)
    by apply order_desc_sorted.
  assert (Hsplit : sorted = firstn 50 sorted ++ skipn 50 sorted)
    by (symmetry; apply firstn_skipn).
  assert (Hperm : Permutation sorted mine) by apply order_desc_perm.
  unfold newest_first in Hsorted. rewrite Hsplit in Hsorted.
  apply sorted_app_inv in Hsorted. destruct Hsorted as [Hfirst Hcross].
  assert (Hmine : forall t, In t sorted <-> In t (chat_history w) /\ turn_user_id t = uid).
  { intros t. unfold sorted, mine. rewrite order_desc_In, filter_In, Z.eqb_eq.
    reflexivity. }
  split; [|split; [|split; [|split; [|split]]]].
  - rewrite length_rev, length_firstn. f_equal.
    apply Permutation_length. exact Hperm.
  - rewrite length_rev. apply firstn_le_length.
  - apply Forall_forall. intros t Ht. apply in_rev in Ht.
    apply Hmine. rewrite Hsplit. apply in_or_app. left. exact Ht.
  - apply newest_first_rev. exact Hfirst.
  - exists (skipn 50 sorted). split.
    + rewrite <- Hperm. rewrite Hsplit at 3.
      apply Permutation_app_tail. symmetry. apply Permutation_rev.
    + apply Forall_forall. intros o Ho. apply Forall_forall. intros h Hh.
      apply in_rev in Hh. exact (Hcross h o Hh Ho).
  - intros t Hin Huid Hout. apply Forall_forall. intros h Hh.
    apply in_rev in Hh.
    assert (Ht : In t sorted) by (apply Hmine; split; assumption).
    rewrite Hsplit in Ht. apply in_app_or in Ht. destruct Ht as [Ht|Ht].
    + exfalso. apply Hout. apply in_rev. rewrite rev_involutive. exact Ht.
    + exact (Hcross h t Hh Ht).
Qed.

End HistoryProofs.

Example history_of_alice :
  fst (get_chat_history Fixture.env 1 Fixture.world)
  = Ok [Fixture.turn_1; Fixture.turn_3].
Proof. vm_compute. reflexivity. Qed.

(* ================================================================== *)
(** ** Deleting a document *)

Lemma filter_nil_negb {A} (p : A -> bool) (l : list A) :
  filter p l = [] -> filter (fun x => negb (p x)) l = l.
Proof.
  induction l as [|x l IH]; [reflexivity|].
  cbn [filter]. destruct (p x); [discriminate|].
  intros H. cbn [negb]. rewrite (IH H). reflexivity.
Qed.

Lemma filter_negb_idem {A} (p : A -> bool) (l : list A) :
  filter (fun x => negb (p x)) (filter (fun x => negb (p x)) l)
  = filter (fun x => negb (p x)) l.
Proof. apply filter_filter_implied. auto. Qed.

Lemma filter_partition_length {A} (p : A -> bool) (l : list A) :
  length l = length (filter p l) + length (filter (fun x => negb (p x)) l).
Proof.
  induction l as [|x l IH]; [reflexivity|].
  cbn [filter]. destruct (p x); cbn [negb length]; lia.
Qed.

(** Among rows with distinct ids at most one has a given id. *)
Lemma at_most_one_with_id (id uid : Z) (docs : list Document) :
  NoDup (map doc_id docs) ->
  length (filter (fun d => Store.has_id id d && Store.owned_by uid d) docs) <= 1.
Proof.
  induction docs as [|d docs IH]; cbn [map filter]; intros Hnd; [auto|].
  inversion Hnd as [|? ? Hnotin Hnd']; subst.
  destruct (Store.has_id id d && Store.owned_by uid d) eqn:Hd; [|auto].
  cbn [length].
  destruct (filter _ docs) as [|d' l] eqn:Hf; [auto|exfalso].
  assert (Hd' : In d' (d' :: l)) by (left; reflexivity).
  rewrite <- Hf in Hd'. apply filter_In in Hd'. destruct Hd' as [Hin Hb].
  apply andb_prop in Hd, Hb. unfold Store.has_id in *.
  destruct Hd as [Hd _], Hb as [Hb _]. apply Z.eqb_eq in Hd, Hb.
  apply Hnotin. rewrite Hd, <- Hb. apply in_map. exact Hin.
Qed.

Section DeleteProofs.
Variable env : Env.

(** What the request leaves behind: the state as it was, or the state with the
    rows of this id and this owner removed. *)
Lemma delete_document_cases (document_id uid : Z) (w : World) :
  let target d := Store.has_id document_id d && Store.owned_by uid d in
  (snd (delete_document env document_id uid w) = w
   /\ (store_up w = true -> filter target (documents w) = []))
  \/ (fst (delete_document env document_id uid w) = Ok tt
      /\ snd (delete_document env document_id uid w)
         = set_documents (filter (fun d => negb (target d))) (next_doc_id w) w).
Proof.
  cbn zeta. unfold delete_document, Store.documents_by_id_of_user,
    Store.documents_delete.
  run_handler.
  destruct (store_up w) eqn:Hup; [|left; split; [reflexivity|discriminate]].
  destruct (filter _ (documents w)) as [|d l] eqn:Hf.
  - left. split; reflexivity.
  - right. rewrite Hup. split; reflexivity.
Qed.

(** C10: deleting document [document_id] for user [uid], in a store whose
    document ids are distinct, leaves the users and the chat history as they
    were and removes only rows that have this id and this owner, at most one
    of them: every other document stays, in its place. *)
Theorem delete_document_frame (document_id uid : Z) (w : World) :
  NoDup (map doc_id (documents w)) ->
  let w' := snd (delete_document env document_id uid w) in
  let other d := negb (Store.has_id document_id d && Store.owned_by uid d) in
  users w' = users w
  /\ chat_history w' = chat_history w
  /\ (documents w' = documents w \/ documents w' = filter other (documents w))
  /\ filter other (documents w') = filter other (documents w)
  /\ (forall d, In d (documents w) ->
                doc_id d <> document_id \/ doc_user_id d <> uid ->
                In d (documents w'))
  /\ length (documents w) <= S (length (documents w')).
Proof.
  intros Hnd. cbn zeta.
  pose proof (at_most_one_with_id document_id uid (documents w) Hnd) as Hone.
  pose proof (filter_partition_length
                (fun d => Store.has_id document_id d && Store.owned_by uid d)
                (documents w)) as Hlen.
  assert (Hother : forall d, In d (documents w) ->
            doc_id d <> document_id \/ doc_user_id d <> uid ->
            In d (filter (fun d => negb (Store.has_id document_id d
                                         && Store.owned_by uid d)) (documents w))).
  { intros d Hin Hd. apply filter_In. split; [exact Hin|].
    apply negb_true_iff, andb_false_iff.
    unfold Store.has_id, Store.owned_by.
    destruct Hd as [Hd|Hd]; [left|right]; apply Z.eqb_neq; exact Hd. }
  destruct (delete_document_cases document_id uid w) as [[-> _]|[_ ->]].
  - repeat split; auto. 
  - cbn [set_documents users chat_history documents].
    repeat split; auto.
    + apply filter_negb_idem.
    + lia.
Qed.

End DeleteProofs.

(** On the fixture: Alice deletes her document 1. *)
Lemma delete_document_frame_witness :
  let w' := snd (delete_document Fixture.env 1 1 Fixture.world) in
  let other d := negb (Store.has_id 1 d && Store.owned_by 1 d) in
  users w' = users Fixture.world
  /\ chat_history w' = chat_history Fixture.world
  /\ (documents w' = documents Fixture.world
      \/ documents w' = filter other (documents Fixture.world))
  /\ filter other (documents w') = filter other (documents Fixture.world)
  /\ (forall d, In d (documents Fixture.world) ->
                doc_id d <> 1%Z \/ doc_user_id d <> 1%Z ->
                In d (documents w'))
  /\ length (documents Fixture.world) <= S (length (documents w')).
Proof.
  apply (delete_document_frame Fixture.env 1 1 Fixture.world).
  repeat constructor; simpl; intuition discriminate.
Defined.

Example delete_own_document :
  delete_document Fixture.env 1 1 Fixture.world
  = (Ok tt, mkWorld [Fixture.alice; Fixture.bob] [Fixture.doc_b; Fixture.doc_c]
                    [Fixture.turn_1; Fixture.turn_2; Fixture.turn_3] 3 4 4 true 1000).
Proof. vm_compute. reflexivity. Qed.

Example delete_foreign_document :
  delete_document Fixture.env 3 1 Fixture.world
  = (Raise (HTTPException 500 (lit "404: Document not found")), Fixture.world).
Proof. vm_compute. reflexivity. Qed.

(* ================================================================== *)
(** ** Further runs of the model *)

Example extension_of_names :
  file_extension_of Fixture.env (lit "Report.PDF") = lit "pdf"
  /\ file_extension_of Fixture.env (lit "archive.tar.gz") = lit "gz"
  /\ file_extension_of Fixture.env (lit "README") = []
  /\ file_extension_of Fixture.env (lit "trailing.") = [].
Proof. vm_compute. repeat split. Qed.

Example split_on_dots :
  split_on 46 (lit "a.b.") = [lit "a"; lit "b"; []] /\ split_on 46 [] = [[]].
Proof. vm_compute. split; reflexivity. Qed.

Example strip_blank_and_padded :
  strip (lit "  ") = [] /\ strip (nl ++ lit " a b " ++ nl) = lit "a b".
Proof. vm_compute. split; reflexivity. Qed.

Example utf8_rejects_ill_formed :
  utf8_decode [xff] = None
  /\ utf8_decode [xc0; x80] = None
  /\ utf8_decode [xe2; x82] = None
  /\ utf8_decode [xed; xa0; x80] = None
  /\ utf8_decode [xe2; x82; xac] = Some [8364%N]
  /\ utf8_decode (utf8_encode [97; 233; 8364; 128512]%N) = Some [97; 233; 8364; 128512]%N.
Proof. vm_compute. repeat split. Qed.

Example word_document_text :
  strip (join nl (docx_full_text
                    (mkDocx [lit "Hello"; []; lit "World"] [[[lit "Cell1"]]])))
  = lit "Hello" ++ nl ++ lit "World" ++ nl ++ lit "Cell1".
Proof. vm_compute. reflexivity. Qed.

Example legacy_word_document :
  extract_text_from_file Fixture.env [x00] (lit "old.doc")
  = Ok (lit "[Legacy Word document (.doc) detected. Please convert to .docx format for better text extraction. Filename: old.doc]").
Proof. vm_compute. reflexivity. Qed.

Example image_by_extension :
  extract_text_from_file Fixture.env [x00] (lit "scan.PNG")
  = Ok (lit "[Image content from scan.PNG]" ++ nl ++ lit "a picture").
Proof. vm_compute. reflexivity. Qed.

Example word_by_extension_fails_in_band :
  extract_text_from_file Fixture.env [x00] (lit "letter.docx")
  = Ok (lit "[Error reading Word document: File is not a zip file]").
Proof. vm_compute. reflexivity. Qed.

Example generate_response_templates :
  generate_response Fixture.echo_env (lit "q") [] = Ok (general_prompt (lit "q"))
  /\ generate_response Fixture.echo_env (lit "q") (lit "   ") = Ok (general_prompt (lit "q"))
  /\ generate_response Fixture.echo_env (lit "q") (lit "ctx")
     = Ok (context_prompt (lit "q") (lit "ctx")).
Proof. vm_compute. repeat split. Qed.

Example generate_response_model_failure :
  generate_response Fixture.failing_env (lit "q") []
  = Ok (lit "I apologize, but I encountered an error while processing your request: quota exceeded").
Proof. vm_compute. reflexivity. Qed.

Example chat_sends_the_context :
  fst (chat Fixture.echo_env (mkChatRequest (lit "q") None (Some true)) 1 Fixture.world)
  = Ok (mkChatResponse
          (context_prompt (lit "q")
             (lit "--- Document: a.txt ---" ++ nl ++ lit "X" ++ nl ++ nl
              ++ lit "--- Document: b.txt ---" ++ nl ++ lit "Y"))
          true
          [mkSource 1 (lit "a.txt"); mkSource 2 (lit "b.txt")]).
Proof. vm_compute. reflexivity. Qed.

Example chat_appends_a_turn :
  chat_history (snd (chat Fixture.env (mkChatRequest (lit "q") None None) 2 Fixture.world))
  = chat_history Fixture.world
    ++ [mkChatTurn 4 2 (lit "q") (lit "an answer") [] 1000].
Proof. vm_compute. reflexivity. Qed.

Example store_down_is_500 :
  let down := mkWorld [] [] [] 1 1 1 false 0 in
  fst (get_chat_history Fixture.env 1 down)
  = Raise (HTTPException 500 (lit "store unavailable")).
Proof. vm_compute. reflexivity. Qed.

Example register_then_login :
  let carol := mkUserCreate (lit "carol@example.com") (lit "pw") (lit "Carol") in
  let w1 := snd (register Fixture.env carol Fixture.world) in
  users w1
  = users Fixture.world
    ++ [mkUser 3 (lit "carol@example.com") (Fixture.hash_of "pw") (lit "Carol") 1000]
  /\ match fst (login Fixture.env (mkUserLogin (lit "carol@example.com") (lit "pw")) w1)
     with
     | Ok response =>
         user_id (token_user response) = 3%Z
         /\ fst (get_current_user_id Fixture.env (Some (access_token response)) w1)
            = Ok 3%Z
     | Raise _ => False
     end.
Proof. vm_compute. repeat split. Qed.

Example documents_listing :
  fst (get_documents Fixture.env 1 Fixture.world)
  = Ok [mkDocumentSummary 2 (lit "b.txt") (lit "text/plain") 130 1;
        mkDocumentSummary 1 (lit "a.txt") (lit "text/plain") 120 1].
Proof. vm_compute. reflexivity. Qed.

(** Of 52 turns of Alice the history holds the 50 most recent, oldest first;
    Bob's turn is not among them. *)
Example history_of_52_turns :
  match fst (get_chat_history Fixture.env 1 Fixture.busy_world) with
  | Ok history => map turn_id history = map Z.of_nat (seq 3 50)
  | Raise _ => False
  end.
Proof. vm_compute. reflexivity. Qed.

(** A password that holds a lone surrogate: registration stores nothing and
    answers with the message of the codec under status 500. *)
Example register_with_a_lone_surrogate :
  register Fixture.env
    (mkUserCreate (lit "dave@example.com") [0xD800%N] (lit "Dave")) Fixture.world
  = (Raise (HTTPException 500
              (lit "'utf-8' codec can't encode character '\ud800' in position 0: surrogates not allowed")),
     Fixture.world).
Proof. vm_compute. reflexivity. Qed.

(** The same password at login: against a stored email the codec's message
    under status 500, against an unknown email the refusal of the
    credentials. *)
Example login_with_a_lone_surrogate :
  login Fixture.env (mkUserLogin (lit "alice@example.com") [0xD800%N]) Fixture.world
  = (Raise (HTTPException 500
              (lit "'utf-8' codec can't encode character '\ud800' in position 0: surrogates not allowed")),
     Fixture.world)
  /\ login Fixture.env (mkUserLogin (lit "nobody@example.com") [0xD800%N]) Fixture.world
     = (Raise (as_500 Fixture.env 401 "Invalid credentials"), Fixture.world).
Proof. vm_compute. split; reflexivity. Qed.

(* ================================================================== *)
(** ** Accounts: registration, login and the tokens they issue *)

Section AccountProofs.
Variable env : Env.

(** What [register] does, by cases. *)
Lemma register_outcome (user : UserCreate) (w : World) :
  register env user w
  = if store_up w then
      match users_with_email (create_email user) w with
      | _ :: _ => (Raise (as_500 env 400 "Email already registered"), w)
      | [] =>
          match hash_password (create_password user) with
          | Ok hashed_pwd =>
              let row := mkUser (next_user_id w) (create_email user) hashed_pwd
                                (create_full_name user) (utcnow w) in
              (Ok (mkTokenResponse (session_token env (next_user_id w) (utcnow w))
                     (lit "bearer") row),
               set_users (fun l => l ++ [row]) (next_user_id w + 1) w)
          | Raise e => (Raise (HTTPException 500 (str_exn env e)), w)
          end
      end
    else (Raise store_unavailable, w).
Proof.
  unfold register, Store.users_by_email, Store.users_insert, create_access_token,
    users_with_email.
  run_handler.
  destruct (store_up w) eqn:Hup; [|reflexivity].
  destruct (filter _ (users w)); [|reflexivity].
  destruct (hash_password (create_password user)); [|reflexivity].
  rewrite Hup. reflexivity.
Qed.

(** What [login] does, by cases. *)
Lemma login_outcome (form_data : UserLogin) (w : World) :
  login env form_data w
  = (if store_up w then
       match users_with_email (login_email form_data) w with
       | [] => Raise (as_500 env 401 "Invalid credentials")
       | user_data :: _ =>
           match verify_password (login_password form_data)
                   (user_password_hash user_data) with
           | Ok true =>
               Ok (mkTokenResponse (session_token env (user_id user_data) (utcnow w))
                     (lit "bearer") user_data)
           | Ok false => Raise (as_500 env 401 "Invalid credentials")
           | Raise e => Raise (HTTPException 500 (str_exn env e))
           end
       end
     else Raise store_unavailable, w).
Proof.
  unfold login, Store.users_by_email, create_access_token, users_with_email.
  run_handler.
  destruct (store_up w); [|reflexivity].
  destruct (filter _ (users w)) as [|u l]; [reflexivity|].
  destruct (verify_password _ _) as [[|]|e]; reflexivity.
Qed.

(** A session token verifies as its user until 900 seconds have passed. *)
Lemma session_token_verifies (uid now : Z) (w' : World) :
  fst (get_current_user_id env (Some (session_token env uid now)) w')
  = if (now + 900 <=? utcnow w')%Z then Raise token_expired else Ok uid.
Proof.
  rewrite (proj2 (get_current_user_id_cases env _ w')).
  unfold session_token, jwt_encode, jwt_decode.
  change (mem_str ALGORITHM [ALGORITHM]) with true. cbn [negb].
  rewrite N.eqb_refl. cbn [negb claim_exp claim_user_id].
  destruct (now + 900 <=? utcnow w')%Z; reflexivity.
Qed.

(** X1: [login] never changes the state.  It succeeds exactly when the store
    answers, the submitted password can be encoded in UTF-8, and the first
    stored user with the submitted email has, as password hash, the SHA-256 hex
    digest of the submitted password; it then returns that row with a bearer
    token for its id.  An unknown email and a wrong password fail with one and
    the same exception.  A submitted password that holds a surrogate, against a
    stored email, fails otherwise: with status 500 and the message of the
    codec. *)
Theorem login_accepts_the_matching_hash (form_data : UserLogin) (w : World) :
  snd (login env form_data w) = w
  /\ match fst (login env form_data w) with
     | Ok response =>
         store_up w = true
         /\ (exists rest,
               users_with_email (login_email form_data) w = token_user response :: rest)
         /\ hash_password (login_password form_data)
            = Ok (user_password_hash (token_user response))
         /\ token_type response = lit "bearer"
         /\ access_token response
            = session_token env (user_id (token_user response)) (utcnow w)
     | Raise e =>
         (store_up w = false /\ e = store_unavailable)
         \/ (store_up w = true
             /\ match users_with_email (login_email form_data) w with
                | [] => e = as_500 env 401 "Invalid credentials"
                | user_data :: _ =>
                    match hash_password (login_password form_data) with
                    | Ok hashed =>
                        hashed <> user_password_hash user_data
                        /\ e = as_500 env 401 "Invalid credentials"
                    | Raise e' =>
                        forallb scalar_value (login_password form_data) = false
                        /\ exists msg,
                             e' = UnicodeEncodeError msg
                             /\ e = HTTPException 500 msg
                    end
                end)
     end.
Proof.
  rewrite login_outcome. cbn [fst snd]. split; [reflexivity|].
  destruct (store_up w); [|left; split; reflexivity].
  destruct (users_with_email (login_email form_data) w) as [|u rest].
  - right. split; reflexivity.
  - destruct (forallb scalar_value (login_password form_data)) eqn:Henc.
    + rewrite (verify_password_ok _ _ Henc), (hash_password_ok _ Henc).
      destruct (pystr_eqb _ _) eqn:E.
      * apply pystr_eqb_eq in E. cbn [token_user token_type access_token].
        repeat split; [exists rest; reflexivity|f_equal; exact E].
      * apply pystr_eqb_neq in E. right. repeat split. exact E.
    + destruct (verify_password_raises _ (user_password_hash u) Henc)
        as [msg [Hhash Hverify]].
      rewrite Hverify, Hhash. right. repeat split.
      exists msg. split; reflexivity.
Qed.

(** X2: registering a new email with the store up and a password that can be
    encoded in UTF-8 appends one user whose stored password is the SHA-256 hex
    digest of the submitted one (never the password itself), under the next id
    of the sequence, and touches nothing else; a login with the same email and
    password then succeeds and returns that user.  With a password that holds a
    surrogate nothing is stored, and the answer is status 500 with the message
    of the codec. *)
Theorem register_then_login_round_trip (user : UserCreate) (w : World) :
  store_up w = true ->
  users_with_email (create_email user) w = [] ->
  match hash_password (create_password user) with
  | Ok hashed =>
      let row := mkUser (next_user_id w) (create_email user) hashed
                        (create_full_name user) (utcnow w) in
      let w1 := snd (register env user w) in
      forallb scalar_value (create_password user) = true
      /\ hashed = sha256_hexdigest (utf8_encode (create_password user))
      /\ fst (register env user w)
         = Ok (mkTokenResponse (session_token env (next_user_id w) (utcnow w))
                 (lit "bearer") row)
      /\ users w1 = users w ++ [row]
      /\ documents w1 = documents w
      /\ chat_history w1 = chat_history w
      /\ login env (mkUserLogin (create_email user) (create_password user)) w1
         = (Ok (mkTokenResponse (session_token env (next_user_id w) (utcnow w))
                  (lit "bearer") row), w1)
  | Raise e =>
      forallb scalar_value (create_password user) = false
      /\ exists msg,
           e = UnicodeEncodeError msg
           /\ register env user w = (Raise (HTTPException 500 msg), w)
  end.
Proof.
  intros Hup Hfresh.
  rewrite register_outcome, Hup, Hfresh.
  destruct (forallb scalar_value (create_password user)) eqn:Henc.
  - rewrite (hash_password_ok _ Henc). cbn zeta. cbn [fst snd].
    repeat split.
    rewrite login_outcome.
    cbn [store_up set_users login_email login_password utcnow].
    rewrite Hup. unfold users_with_email in *. cbn [users set_users].
    rewrite filter_app, Hfresh. cbn [filter app user_email].
    assert (Hself : pystr_eqb (create_email user) (create_email user) = true)
      by (apply pystr_eqb_eq; reflexivity).
    rewrite Hself. cbn [user_password_hash user_id].
    rewrite (verify_password_hash _ Henc). reflexivity.
  - destruct (hash_password_raises _ Henc) as [msg Hhash].
    rewrite Hhash. split; [reflexivity|].
    exists msg. split; reflexivity.
Qed.

(** A second registration of a stored email is turned away and changes
    nothing, whatever password and name it carries. *)
Theorem register_rejects_a_stored_email (user : UserCreate) (w : World) (u : User) :
  store_up w = true ->
  In u (users w) -> user_email u = create_email user ->
  register env user w = (Raise (as_500 env 400 "Email already registered"), w).
Proof.
  intros Hup Hin Hmail. rewrite register_outcome, Hup.
  destruct (users_with_email (create_email user) w) as [|u' l] eqn:Hf; [|reflexivity].
  exfalso.
  assert (Hu : In u (users_with_email (create_email user) w)).
  { apply filter_In. split; [exact Hin|]. apply pystr_eqb_eq. exact Hmail. }
  rewrite Hf in Hu. exact Hu.
Qed.

(** X3: the token that a successful login returns verifies as the id of the
    logged-in user at every time less than 900 seconds after the login, and is
    refused as expired from then on: the lifetime is the fifteen-minute default
    of [create_access_token], not [ACCESS_TOKEN_EXPIRE_MINUTES]. *)
Theorem login_token_lives_900_seconds (form_data : UserLogin) (w w' : World)
  (response : TokenResponse) :
  fst (login env form_data w) = Ok response ->
  fst (get_current_user_id env (Some (access_token response)) w')
  = if (utcnow w + 900 <=? utcnow w')%Z
    then Raise token_expired
    else Ok (user_id (token_user response)).
Proof.
  rewrite login_outcome. cbn [fst].
  destruct (store_up w); [|discriminate].
  destruct (users_with_email (login_email form_data) w) as [|u rest]; [discriminate|].
  destruct (verify_password _ _) as [[|]|e]; try discriminate.
  intros H. injection H as <-. cbn [access_token token_user].
  apply session_token_verifies.
Qed.

(** X4: verification returns a user id only for a token that names the
    algorithm HS256, carries the signature the server's key gives its
    payload, names that user id, and has no expiry or one still ahead; and it
    returns the id for every such token. *)
Theorem verified_token_is_signed_and_live (token : option Token) (w : World) (uid : Z) :
  fst (get_current_user_id env token w) = Ok uid
  <-> exists payload,
        token = Some (Compact ALGORITHM payload
                        (hs256 env (SECRET_KEY env) ALGORITHM payload))
        /\ claim_user_id payload = Some uid
        /\ match claim_exp payload with
           | Some exp => (utcnow w < exp)%Z
           | None => True
           end.
Proof.
  rewrite (proj2 (get_current_user_id_cases env token w)). split.
  - destruct token as [[raw|alg payload signature]|]; try discriminate.
    unfold jwt_decode, mem_str. cbn [existsb]. rewrite orb_false_r.
    destruct (pystr_eqb alg ALGORITHM) eqn:Halg; cbn [negb]; [|discriminate].
    apply pystr_eqb_eq in Halg. subst alg.
    destruct (signature =? _)%N eqn:Hsig; cbn [negb]; [|discriminate].
    apply N.eqb_eq in Hsig. subst signature.
    destruct (claim_exp payload) as [exp|] eqn:Hexp.
    + destruct (exp <=? utcnow w)%Z eqn:Hlive; [discriminate|].
      apply Z.leb_gt in Hlive.
      destruct (claim_user_id payload) as [uid'|] eqn:Huid; [|discriminate].
      intros H. injection H as ->. exists payload. rewrite Hexp. auto.
    + destruct (claim_user_id payload) as [uid'|] eqn:Huid; [|discriminate].
      intros H. injection H as ->. exists payload. rewrite Hexp. auto.
  - intros [payload [-> [Huid Hexp]]].
    unfold jwt_decode.
    change (mem_str ALGORITHM [ALGORITHM]) with true. cbn [negb].
    rewrite N.eqb_refl. cbn [negb].
    destruct (claim_exp payload) as [exp|].
    + apply Z.leb_gt in Hexp. rewrite Hexp, Huid. reflexivity.
    + rewrite Huid. reflexivity.
Qed.

(** X5: when verification of the token fails, every endpoint behind the
    dependency answers with that failure, one of the three 401 exceptions, and
    leaves the state as it was: no handler runs. *)
Theorem rejected_token_runs_no_handler (token : option Token) (w : World) (e : exn)
  (file : UploadFile) (document_id : Z) (req : ChatRequest) :
  fst (get_current_user_id env token w) = Raise e ->
  (e = token_missing \/ e = token_expired \/ e = token_invalid)
  /\ upload_endpoint env token file w = (Raise e, w)
  /\ documents_endpoint env token w = (Raise e, w)
  /\ document_endpoint env token document_id w = (Raise e, w)
  /\ delete_endpoint env token document_id w = (Raise e, w)
  /\ chat_endpoint env token req w = (Raise e, w)
  /\ history_endpoint env token w = (Raise e, w).
Proof.
  intros H.
  pose proof (get_current_user_id_failures env token w) as Hcat.
  pose proof (proj1 (get_current_user_id_cases env token w)) as Hsame.
  rewrite H in Hcat. split; [exact Hcat|].
  unfold upload_endpoint, documents_endpoint, document_endpoint, delete_endpoint,
    chat_endpoint, history_endpoint, with_current_user, bind.
  destruct (get_current_user_id env token w) as [r w0].
  cbn [fst snd] in H, Hsame. subst r w0.
  repeat split.
Qed.

(** X6: a token issued with a lifetime of a whole number [d] of seconds, [d]
    other than zero, carries the expiry [now + d], the clock read in whole
    seconds: it verifies while fewer than [d] seconds have passed and is refused
    as expired afterwards, so that a negative lifetime gives a token that is
    expired from the start. *)
Theorem token_lifetime_is_expires_delta (uid d : Z) (w w' : World) :
  d <> 0%Z ->
  exists token,
    create_access_token env (mkClaims (Some uid) None) (Some d) w = (Ok token, w)
    /\ fst (get_current_user_id env (Some token) w')
       = if (utcnow w + d <=? utcnow w')%Z then Raise token_expired else Ok uid.
Proof.
  intros Hd. eexists. split.
  - rewrite create_access_token_expiry. destruct d; [contradiction|reflexivity ..].
  - rewrite (proj2 (get_current_user_id_cases env _ w')).
    unfold jwt_encode, jwt_decode.
    change (mem_str ALGORITHM [ALGORITHM]) with true. cbn [negb].
    rewrite N.eqb_refl. cbn [negb claim_exp claim_user_id].
    destruct (utcnow w + d <=? utcnow w')%Z; reflexivity.
Qed.

End AccountProofs.

(* ================================================================== *)
(** ** Documents: upload, listing, detail and deletion *)

Lemma lstrip_chars_suffix (chars s : pystr) :
  exists dropped, s = dropped ++ lstrip_chars chars s.
Proof.
  induction s as [|c s [dropped IH]]; [exists []; reflexivity|].
  cbn [lstrip_chars]. destruct (contains_char c chars).
  - exists (c :: dropped). cbn [app]. rewrite <- IH. reflexivity.
  - exists []. reflexivity.
Qed.

Lemma lstrip_chars_head (chars s : pystr) (c : N) (rest : pystr) :
  lstrip_chars chars s = c :: rest -> contains_char c chars = false.
Proof.
  induction s as [|x s IH]; cbn [lstrip_chars]; [discriminate|].
  destruct (contains_char x chars) eqn:E; [exact IH|].
  intros H. injection H as <- _. exact E.
Qed.

Lemma contains_char_app (c : N) (a b : pystr) :
  contains_char c (a ++ b) = contains_char c a || contains_char c b.
Proof. unfold contains_char. apply existsb_app. Qed.

Lemma ids_below_fresh {A} (id : A -> Z) (next : Z) (rows : list A) (p : A -> bool) :
  ids_below id next rows ->
  filter (fun r => (id r =? next)%Z && p r) rows = [].
Proof.
  intros [_ Hlt]. induction Hlt as [|r rows Hr _ IH]; [reflexivity|].
  cbn [filter]. apply Z.lt_neq, Z.eqb_neq in Hr. rewrite Hr. exact IH.
Qed.

Section DocumentProofs.
Variable env : Env.

Lemma upload_file_outcome (file : UploadFile) (uid : Z) (w : World) :
  upload_file env file uid w
  = if bad_filename (file_filename file)
    then (Raise (as_500 env 400 "Invalid filename"), w)
    else if (MAX_FILE_SIZE <? N.of_nat (length (file_read file)))%N
    then (Raise (as_500 env 400 "File size exceeds 10MB limit."), w)
    else match file_read file with
         | [] => (Raise (as_500 env 400 "Empty file uploaded."), w)
         | _ :: _ =>
             match extract_text_from_file env (file_read file) (stored_filename file) with
             | Ok text =>
                 if store_up w
                 then (Ok (upload_response file text w),
                       set_documents (fun l => l ++ [uploaded_document file uid text w])
                                     (next_doc_id w + 1) w)
                 else (Raise store_unavailable, w)
             | Raise e => (Raise (HTTPException 500 (str_exn env e)), w)
             end
         end.
Proof.
  unfold upload_file, Store.documents_insert. run_handler. cbv zeta.
  fold (stored_filename file).
  destruct (bad_filename (file_filename file)); [reflexivity|].
  destruct (MAX_FILE_SIZE <? _)%N; [reflexivity|].
  destruct (file_read file) as [|b content] eqn:Hread; [reflexivity|].
  destruct (extract_text_from_file env (b :: content) (stored_filename file))
    as [text|e]; [|reflexivity].
  destruct (store_up w); [|reflexivity].
  unfold upload_response, uploaded_document, stored_file_type.
  rewrite Hread. reflexivity.
Qed.

Lemma get_document_content_outcome (document_id uid : Z) (w : World) :
  get_document_content env document_id uid w
  = (if store_up w then
       match documents_matching document_id uid w with
       | [] => Raise (as_500 env 404 "Document not found")
       | doc :: _ => Ok doc
       end
     else Raise store_unavailable, w).
Proof.
  unfold get_document_content, Store.documents_by_id_of_user, documents_matching.
  run_handler.
  destruct (store_up w); [|reflexivity].
  destruct (filter _ (documents w)); reflexivity.
Qed.

Lemma delete_document_outcome (document_id uid : Z) (w : World) :
  delete_document env document_id uid w
  = if store_up w then
      match documents_matching document_id uid w with
      | [] => (Raise (as_500 env 404 "Document not found"), w)
      | _ :: _ =>
          (Ok tt,
           set_documents
             (filter (fun d => negb (Store.has_id document_id d && Store.owned_by uid d)))
             (next_doc_id w) w)
      end
    else (Raise store_unavailable, w).
Proof.
  unfold delete_document, Store.documents_by_id_of_user, Store.documents_delete,
    documents_matching.
  run_handler.
  destruct (store_up w) eqn:Hup; [|reflexivity].
  destruct (filter _ (documents w)); [reflexivity|].
  rewrite Hup. reflexivity.
Qed.

(** X7: an upload that passes the filename, size and emptiness checks, with
    the store up, appends exactly one document: owned by the caller, under the
    next id, with the stripped filename and, as content, the text the extractor
    returned (a diagnostic included); users and chat history are untouched.
    When the ids of the table are below its sequence, the detail request for
    the returned id by the same user gives that document back. *)
Theorem upload_then_get_document (file : UploadFile) (uid : Z) (w : World) :
  acceptable file -> store_up w = true ->
  ids_below doc_id (next_doc_id w) (documents w) ->
  exists text,
    extract_text_from_file env (file_read file) (stored_filename file) = Ok text
    /\ let doc := uploaded_document file uid text w in
       let w1 := snd (upload_file env file uid w) in
       fst (upload_file env file uid w) = Ok (upload_response file text w)
       /\ documents w1 = documents w ++ [doc]
       /\ users w1 = users w
       /\ chat_history w1 = chat_history w
       /\ get_document_content env (next_doc_id w) uid w1 = (Ok doc, w1).
Proof.
  intros [Hname [Hsize Hfull]] Hup Hids.
  destruct (extract_text_from_file_total env (file_read file) (stored_filename file))
    as [text Htext].
  exists text. split; [exact Htext|]. cbn zeta.
  rewrite upload_file_outcome, Hname.
  apply N.ltb_ge in Hsize. rewrite Hsize.
  destruct (file_read file) as [|b content] eqn:Hread; [contradiction|].
  rewrite Htext, Hup. cbn [fst snd].
  repeat split.
  rewrite get_document_content_outcome.
  cbn [store_up set_documents]. rewrite Hup.
  unfold documents_matching. cbn [documents set_documents].
  rewrite filter_app.
  unfold Store.has_id at 1.
  rewrite (ids_below_fresh doc_id (next_doc_id w) (documents w) _ Hids).
  cbn [filter app uploaded_document]. unfold Store.has_id, Store.owned_by.
  cbn [doc_id doc_user_id]. rewrite !Z.eqb_refl. reflexivity.
Qed.

(** X8: the filename an upload is stored and answered under contains neither
    [/] nor a backslash and does not begin with a dot. *)
Theorem stored_filename_has_no_path (file : UploadFile) (uid : Z) (w : World) :
  match fst (upload_file env file uid w) with
  | Ok response =>
      up_filename response = stored_filename file
      /\ contains_char 47 (up_filename response) = false
      /\ contains_char 92 (up_filename response) = false
      /\ startswith (lit ".") (up_filename response) = false
      /\ exists doc, documents (snd (upload_file env file uid w)) = documents w ++ [doc]
                     /\ doc_filename doc = up_filename response
  | Raise _ => True
  end.
Proof.
  rewrite upload_file_outcome.
  destruct (bad_filename (file_filename file)) eqn:Hname; [exact I|].
  destruct (MAX_FILE_SIZE <? _)%N; [exact I|].
  destruct (file_read file) as [|b content]; [exact I|].
  destruct (extract_text_from_file env _ _) as [text|e]; [|exact I].
  destruct (store_up w); [|exact I].
  cbn [fst snd up_filename upload_response].
  assert (Hclean : contains_char 47 (stored_filename file) = false
                   /\ contains_char 92 (stored_filename file) = false).
  { unfold stored_filename, bad_filename in *.
    destruct (file_filename file) as [n|]; [|discriminate].
    apply orb_false_iff in Hname. destruct Hname as [Hname H92].
    apply orb_false_iff in Hname. destruct Hname as [_ H47].
    destruct (lstrip_chars_suffix (lit "./\") n) as [dropped Hn].
    rewrite Hn, contains_char_app in H47, H92.
    apply orb_false_iff in H47, H92. split; [exact (proj2 H47)|exact (proj2 H92)]. }
  destruct Hclean as [H47 H92].
  repeat split; [exact H47|exact H92| |].
  - unfold stored_filename in *.
    destruct (lstrip_chars (lit "./\") _) as [|c rest] eqn:Hs; [reflexivity|].
    apply lstrip_chars_head in Hs.
    cbn [startswith lit list_ascii_of_string map].
    destruct (N.eqb _ c) eqn:Hc; [|reflexivity].
    apply N.eqb_eq in Hc. subst c. discriminate Hs.
  - eexists. split; reflexivity.
Qed.

(** X9: an upload that fails, for whatever reason, leaves the state as it
    was: nothing is stored. *)
Theorem failed_upload_stores_nothing (file : UploadFile) (uid : Z) (w : World) (e : exn) :
  fst (upload_file env file uid w) = Raise e ->
  snd (upload_file env file uid w) = w.
Proof.
  rewrite upload_file_outcome.
  destruct (bad_filename (file_filename file)); [reflexivity|].
  destruct (MAX_FILE_SIZE <? _)%N; [reflexivity|].
  destruct (file_read file) as [|b content]; [reflexivity|].
  destruct (extract_text_from_file env _ _) as [text|e']; [|reflexivity].
  destruct (store_up w); [discriminate|reflexivity].
Qed.

(** X10: the detail request never changes the state and returns only a stored
    document that has the requested id and belongs to the caller; it fails with
    the not-found exception exactly when the store answers and holds no such
    document, the same for a document of another user as for an absent id. *)
Theorem get_document_content_own_only (document_id uid : Z) (w : World) :
  snd (get_document_content env document_id uid w) = w
  /\ match fst (get_document_content env document_id uid w) with
     | Ok doc =>
         store_up w = true
         /\ In doc (documents w) /\ doc_id doc = document_id /\ doc_user_id doc = uid
     | Raise e =>
         (store_up w = false /\ e = store_unavailable)
         \/ (store_up w = true
             /\ e = as_500 env 404 "Document not found"
             /\ forall d, In d (documents w) -> doc_id d = document_id ->
                          doc_user_id d <> uid)
     end.
Proof.
  rewrite get_document_content_outcome. cbn [fst snd]. split; [reflexivity|].
  destruct (store_up w); [|left; split; reflexivity].
  destruct (documents_matching document_id uid w) as [|doc rest] eqn:Hf.
  - right. repeat split. intros d Hin Hid Hown.
    assert (Hd : In d (documents_matching document_id uid w)).
    { apply filter_In. split; [exact Hin|].
      unfold Store.has_id, Store.owned_by.
      apply andb_true_intro. split; apply Z.eqb_eq; assumption. }
    rewrite Hf in Hd. exact Hd.
  - assert (Hd : In doc (documents_matching document_id uid w))
      by (rewrite Hf; left; reflexivity).
    apply filter_In in Hd. destruct Hd as [Hin Hb].
    apply andb_prop in Hb. unfold Store.has_id, Store.owned_by in Hb.
    destruct Hb as [Hid Hown]. apply Z.eqb_eq in Hid, Hown. auto.
Qed.

(** X11: after a successful deletion the detail request and a second deletion
    of the same id by the same user fail as not found, and every detail request
    for another id or by another user answers as it did before. *)
Theorem delete_then_get_is_not_found (document_id uid : Z) (w : World) :
  fst (delete_document env document_id uid w) = Ok tt ->
  let w1 := snd (delete_document env document_id uid w) in
  get_document_content env document_id uid w1
  = (Raise (as_500 env 404 "Document not found"), w1)
  /\ delete_document env document_id uid w1
     = (Raise (as_500 env 404 "Document not found"), w1)
  /\ forall id' uid',
       id' <> document_id \/ uid' <> uid ->
       fst (get_document_content env id' uid' w1)
       = fst (get_document_content env id' uid' w).
Proof.
  rewrite delete_document_outcome.
  destruct (store_up w) eqn:Hup; [|discriminate].
  destruct (documents_matching document_id uid w) as [|d0 rest]; [discriminate|].
  intros _. cbn [snd].
  set (w1 := set_documents _ _ w).
  assert (Hgone : documents_matching document_id uid w1 = []).
  { unfold documents_matching, w1. cbn [documents set_documents].
    induction (documents w) as [|d l IH]; [reflexivity|].
    cbn [filter].
    destruct (Store.has_id document_id d && Store.owned_by uid d) eqn:E;
      cbn [negb]; [exact IH|].
    cbn [filter]. rewrite E. exact IH. }
  assert (Hup1 : store_up w1 = true) by exact Hup.
  split; [|split].
  - rewrite get_document_content_outcome, Hup1, Hgone. reflexivity.
  - rewrite delete_document_outcome, Hup1, Hgone. reflexivity.
  - intros id' uid' Hother.
    rewrite !get_document_content_outcome. cbn [fst]. rewrite Hup1, Hup.
    assert (Hsame : documents_matching id' uid' w1 = documents_matching id' uid' w).
    { unfold documents_matching, w1. cbn [documents set_documents].
      apply filter_filter_implied. intros d Hd.
      apply andb_prop in Hd. unfold Store.has_id, Store.owned_by in *.
      destruct Hd as [Hid Hown]. apply Z.eqb_eq in Hid, Hown.
      apply negb_true_iff, andb_false_iff.
      destruct Hother as [H|H]; [left|right]; apply Z.eqb_neq; congruence. }
    rewrite Hsame. reflexivity.
Qed.

End DocumentProofs.

(* ================================================================== *)
(** ** Listing, chat and history together *)

(** A row newer than all the others sorts first. *)
Lemma order_desc_newest_last {A} (key : A -> Z) (l : list A) (x : A) :
  Forall (fun y => (key y < key x)%Z) l ->
  order_desc key (l ++ [x]) = x :: order_desc key l.
Proof.
  induction 1 as [|y l Hy _ IH]; [reflexivity|].
  cbn [app order_desc fold_right]. fold (order_desc key (l ++ [x])).
  fold (order_desc key l). rewrite IH. cbn [insert_desc].
  apply Z.leb_gt in Hy. rewrite Hy. reflexivity.
Qed.

Section ChatHistoryProofs.
Variable env : Env.

Lemma get_documents_outcome (uid : Z) (w : World) :
  get_documents env uid w
  = (if store_up w
     then Ok (map summary_of
                (order_desc doc_created_at (filter (Store.owned_by uid) (documents w))))
     else Raise store_unavailable, w).
Proof.
  unfold get_documents, Store.documents_of_user_newest_first. run_handler.
  destruct (store_up w); reflexivity.
Qed.

Lemma get_chat_history_outcome (uid : Z) (w : World) :
  get_chat_history env uid w
  = (if store_up w
     then Ok (rev (firstn 50
                     (order_desc turn_created_at
                        (filter (fun t => (turn_user_id t =? uid)%Z) (chat_history w)))))
     else Raise store_unavailable, w).
Proof.
  unfold get_chat_history, Store.chat_history_recent. run_handler.
  destruct (store_up w); reflexivity.
Qed.

Lemma chat_outcome (req : ChatRequest) (uid : Z) (w : World) :
  exists text,
    generate_response env (req_message req)
      (fst (assemble_context (chat_rows req uid (documents w)))) = Ok text
    /\ chat env req uid w
       = if store_up w
         then (Ok (mkChatResponse text
                     (match snd (assemble_context (chat_rows req uid (documents w))) with
                      | [] => false
                      | _ :: _ => true
                      end)
                     (snd (assemble_context (chat_rows req uid (documents w))))),
               set_chat_history (fun l => l ++ [chat_turn req uid text w])
                                (next_turn_id w + 1) w)
         else (Raise store_unavailable, w).
Proof.
  destruct (generate_response_total env (req_message req)
              (fst (assemble_context (chat_rows req uid (documents w)))))
    as [text Htext].
  exists text. split; [exact Htext|].
  revert Htext. unfold chat, chat_turn, chat_rows.
  unfold Store.documents_of_user, Store.documents_of_user_in, Store.chat_history_insert.
  run_handler.
  destruct (match req_use_all_documents req with Some b => b | None => false end).
  - destruct (store_up w) eqn:Hup; [|reflexivity].
    destruct (assemble_context _) as [context sources]. cbn [fst snd].
    intros ->. rewrite Hup. reflexivity.
  - destruct (req_selected_documents req) as [[|id ids]|].
    + cbn [assemble_context fst snd]. intros ->.
      destruct (store_up w); reflexivity.
    + destruct (store_up w) eqn:Hup; [|reflexivity].
      destruct (assemble_context _) as [context sources]. cbn [fst snd].
      intros ->. rewrite Hup. reflexivity.
    + cbn [assemble_context fst snd]. intros ->.
      destruct (store_up w); reflexivity.
Qed.

(** X12: the listing never changes the state; with the store up it returns
    one entry for every document of the caller and for no other document,
    newest first, each entry carrying the length of the content in place of the
    content. *)
Theorem get_documents_lists_own_newest_first (uid : Z) (w : World) :
  snd (get_documents env uid w) = w
  /\ match fst (get_documents env uid w) with
     | Ok listing =>
         store_up w = true
         /\ exists docs,
              listing = map (fun doc =>
                               mkDocumentSummary (doc_id doc) (doc_filename doc)
                                 (doc_file_type doc) (doc_created_at doc)
                                 (length (doc_content doc))) docs
              /\ Permutation docs (filter (fun d => (doc_user_id d =? uid)%Z) (documents w))
              /\ newest_first doc_created_at docs
     | Raise e => store_up w = false /\ e = store_unavailable
     end.
Proof.
  rewrite get_documents_outcome. cbn [fst snd]. split; [reflexivity|].
  destruct (store_up w); [|split; reflexivity].
  split; [reflexivity|].
  exists (order_desc doc_created_at (filter (Store.owned_by uid) (documents w))).
  split; [reflexivity|]. split; [apply order_desc_perm|apply order_desc_sorted].
Qed.

(** X13: a chat request leaves users and documents as they were.  With the
    store up it answers with the text the response generator returned for the
    assembled context and appends exactly one turn: the caller's id, the
    message, that text, the provenance of the answer and the current time,
    under the next id.  With the store down it fails and stores nothing. *)
Theorem chat_appends_one_turn (req : ChatRequest) (uid : Z) (w : World) :
  exists text,
    generate_response env (req_message req)
      (fst (assemble_context (chat_rows req uid (documents w)))) = Ok text
    /\ let sources := snd (assemble_context (chat_rows req uid (documents w))) in
       let w1 := snd (chat env req uid w) in
       users w1 = users w
       /\ documents w1 = documents w
       /\ if store_up w
          then chat_response_of (fst (chat env req uid w)) = Some (text, sources)
               /\ chat_history w1
                  = chat_history w
                    ++ [mkChatTurn (next_turn_id w) uid (req_message req) text sources
                                   (utcnow w)]
          else fst (chat env req uid w) = Raise store_unavailable
               /\ chat_history w1 = chat_history w.
Proof.
  destruct (chat_outcome req uid w) as [text [Htext Hchat]].
  exists text. split; [exact Htext|]. cbn zeta. rewrite Hchat.
  destruct (store_up w); cbn [fst snd]; repeat split.
Qed.

(** X14: when every stored turn of the caller is older than the clock, the
    history requested right after a chat ends with the turn that chat
    appended. *)
Theorem chat_then_history_ends_with_the_turn (req : ChatRequest) (uid : Z) (w : World) :
  store_up w = true ->
  Forall (fun t => turn_user_id t = uid -> (turn_created_at t < utcnow w)%Z)
         (chat_history w) ->
  exists response earlier,
    fst (chat env req uid w) = Ok response
    /\ fst (get_chat_history env uid (snd (chat env req uid w)))
       = Ok (earlier
             ++ [mkChatTurn (next_turn_id w) uid (req_message req)
                   (chat_response response) (chat_context_sources response) (utcnow w)]).
Proof.
  intros Hup Hold.
  destruct (chat_outcome req uid w) as [text [_ Hchat]].
  rewrite Hchat, Hup. cbn [fst snd].
  eexists. eexists. split; [reflexivity|].
  rewrite get_chat_history_outcome.
  cbn [store_up set_chat_history chat_history fst]. rewrite Hup.
  rewrite filter_app. cbn [filter chat_turn turn_user_id].
  rewrite Z.eqb_refl.
  rewrite order_desc_newest_last.
  - cbn [firstn rev chat_response chat_context_sources]. reflexivity.
  - apply Forall_forall. intros t Ht. apply filter_In in Ht.
    destruct Ht as [Hin Hmine]. apply Z.eqb_eq in Hmine.
    rewrite Forall_forall in Hold. cbn [turn_created_at]. auto.
Qed.

End ChatHistoryProofs.

(* ================================================================== *)
(** ** What every handler keeps of the store *)

Lemma NoDup_snoc {A} (l : list A) (x : A) : NoDup l -> ~ In x l -> NoDup (l ++ [x]).
Proof.
  induction 1 as [|y l Hy Hl IH]; cbn [app]; intros Hx.
  - constructor; [intros []|constructor].
  - constructor.
    + intros Hin. apply in_app_or in Hin. destruct Hin as [Hin|[<-|[]]].
      * exact (Hy Hin).
      * apply Hx. left; reflexivity.
    + apply IH. intros Hin. apply Hx. right; exact Hin.
Qed.

Lemma ids_below_snoc {A} (id : A -> Z) (next : Z) (rows : list A) (r : A) :
  ids_below id next rows -> id r = next -> ids_below id (next + 1) (rows ++ [r]).
Proof.
  intros [Hnd Hlt] Hr. split.
  - rewrite map_app. cbn [map]. apply NoDup_snoc; [exact Hnd|].
    intros Hin. apply in_map_iff in Hin. destruct Hin as [r' [Hid Hin]].
    rewrite Forall_forall in Hlt. specialize (Hlt r' Hin). lia.
  - apply Forall_app. split.
    + apply Forall_impl with (2 := Hlt). intros a Ha. lia.
    + constructor; [lia|constructor].
Qed.

Lemma ids_below_filter {A} (id : A -> Z) (next : Z) (rows : list A) (p : A -> bool) :
  ids_below id next rows -> ids_below id next (filter p rows).
Proof.
  intros [Hnd Hlt]. split.
  - induction rows as [|r rows IH]; [constructor|].
    cbn [map] in Hnd. inversion Hnd as [|? ? Hnotin Hnd']; subst.
    inversion Hlt as [|? ? _ Hlt']; subst.
    cbn [filter]. destruct (p r); [|auto].
    cbn [map]. constructor; [|auto].
    intros Hin. apply Hnotin. apply in_map_iff in Hin.
    destruct Hin as [r' [Hid Hin]]. apply filter_In in Hin.
    apply in_map_iff. exists r'. split; [exact Hid|exact (proj1 Hin)].
  - apply Forall_forall. intros r Hr. apply filter_In in Hr.
    rewrite Forall_forall in Hlt. exact (Hlt r (proj1 Hr)).
Qed.

(** No row of a well-formed table satisfies a test that forces the next id. *)
Lemma ids_below_none {A} (id : A -> Z) (next : Z) (rows : list A) (p : A -> bool) :
  ids_below id next rows ->
  (forall r, p r = true -> id r = next) ->
  filter p rows = [].
Proof.
  intros [_ Hlt] Hp. induction Hlt as [|r rows Hr _ IH]; [reflexivity|].
  cbn [filter]. destruct (p r) eqn:E; [|exact IH].
  apply Hp in E. lia.
Qed.

Lemma no_user_with_email (email : pystr) (w : World) :
  users_with_email email w = [] -> ~ In email (map user_email (users w)).
Proof.
  intros Hnone Hin. apply in_map_iff in Hin. destruct Hin as [u [Hmail Hu]].
  assert (H : In u (users_with_email email w)).
  { apply filter_In. split; [exact Hu|]. apply pystr_eqb_eq. exact Hmail. }
  rewrite Hnone in H. exact H.
Qed.

Section InvariantProofs.
Variable env : Env.

Lemma guest_chat_outcome (req : GuestChatRequest) (w : World) :
  exists text,
    generate_response env (guest_message req)
      (match guest_context req with Some c => c | None => [] end) = Ok text
    /\ guest_chat env req w
       = (Ok (mkGuestChatResponse text
                (truthy (match guest_context req with Some c => c | None => [] end))
                (guest_context_sources req)), w).
Proof.
  destruct (generate_response_total env (guest_message req)
              (match guest_context req with Some c => c | None => [] end))
    as [text Htext].
  exists text. split; [exact Htext|].
  unfold guest_chat. run_handler. cbv zeta. rewrite Htext. reflexivity.
Qed.

Lemma guest_extract_text_outcome (file : UploadFile) (w : World) :
  exists r, guest_extract_text env file w = (r, w)
            /\ forall w', guest_extract_text env file w' = (r, w').
Proof.
  unfold guest_extract_text. run_handler. cbv zeta.
  destruct (MAX_FILE_SIZE <? _)%N.
  - eexists. split; [reflexivity|]. intros w'. reflexivity.
  - destruct (extract_text_from_file env _ _) as [text|e];
      eexists; (split; [reflexivity|]); intros w'; reflexivity.
Qed.

(** X16: every handler takes a well-formed store to a well-formed store: the
    ids of users, documents and chat turns stay distinct and below their
    sequences, and no two users share an email, after registration, login,
    upload, listing, detail, deletion, chat, history and the guest
    requests. *)
Theorem handlers_keep_the_store_well_formed (w : World)
  (user : UserCreate) (form_data : UserLogin) (file : UploadFile)
  (document_id uid : Z) (req : ChatRequest) (guest_req : GuestChatRequest) :
  store_ok w ->
  store_ok (snd (register env user w))
  /\ store_ok (snd (login env form_data w))
  /\ store_ok (snd (upload_file env file uid w))
  /\ store_ok (snd (get_documents env uid w))
  /\ store_ok (snd (get_document_content env document_id uid w))
  /\ store_ok (snd (delete_document env document_id uid w))
  /\ store_ok (snd (chat env req uid w))
  /\ store_ok (snd (get_chat_history env uid w))
  /\ store_ok (snd (guest_extract_text env file w))
  /\ store_ok (snd (guest_chat env guest_req w)).
Proof.
  intros Hok. pose proof Hok as [Husers [Hdocs [Hturns Hmails]]].
  repeat match goal with |- _ /\ _ => split end.
  - rewrite register_outcome.
    destruct (store_up w); [|exact Hok].
    destruct (users_with_email (create_email user) w) eqn:Hnone; [|exact Hok].
    destruct (hash_password (create_password user)) as [hashed|e]; [|exact Hok].
    cbn [snd]. unfold store_ok. cbn [set_users users documents chat_history
      next_user_id next_doc_id next_turn_id].
    split; [|split; [exact Hdocs|split; [exact Hturns|]]].
    + apply (ids_below_snoc user_id); [exact Husers|reflexivity].
    + rewrite map_app. cbn [map user_email]. apply NoDup_snoc; [exact Hmails|].
      apply no_user_with_email. exact Hnone.
  - rewrite login_outcome. exact Hok.
  - rewrite upload_file_outcome.
    destruct (bad_filename _); [exact Hok|].
    destruct (MAX_FILE_SIZE <? _)%N; [exact Hok|].
    destruct (file_read file); [exact Hok|].
    destruct (extract_text_from_file env _ _) as [text|e]; [|exact Hok].
    destruct (store_up w); [|exact Hok].
    cbn [snd]. unfold store_ok. cbn [set_documents users documents chat_history
      next_user_id next_doc_id next_turn_id].
    split; [exact Husers|split; [|split; [exact Hturns|exact Hmails]]].
    apply (ids_below_snoc doc_id); [exact Hdocs|reflexivity].
  - rewrite get_documents_outcome. exact Hok.
  - rewrite get_document_content_outcome. exact Hok.
  - rewrite delete_document_outcome.
    destruct (store_up w); [|exact Hok].
    destruct (documents_matching document_id uid w); [exact Hok|].
    cbn [snd]. unfold store_ok. cbn [set_documents users documents chat_history
      next_user_id next_doc_id next_turn_id].
    split; [exact Husers|split; [|split; [exact Hturns|exact Hmails]]].
    apply (ids_below_filter doc_id). exact Hdocs.
  - destruct (chat_outcome env req uid w) as [text [_ ->]].
    destruct (store_up w); [|exact Hok].
    cbn [snd]. unfold store_ok. cbn [set_chat_history users documents chat_history
      next_user_id next_doc_id next_turn_id].
    split; [exact Husers|split; [exact Hdocs|split; [|exact Hmails]]].
    apply (ids_below_snoc turn_id); [exact Hturns|reflexivity].
  - rewrite get_chat_history_outcome. exact Hok.
  - destruct (guest_extract_text_outcome file w) as [r [-> _]]. exact Hok.
  - destruct (guest_chat_outcome guest_req w) as [text [_ ->]]. exact Hok.
Qed.

(** X17: the guest requests read and write no state: their answers are the
    same in every state, a store that is down included, they leave the state
    as it was, and the guest chat always answers. *)
Theorem guest_requests_keep_no_state (file : UploadFile) (req : GuestChatRequest)
  (w w' : World) :
  guest_extract_text env file w = (fst (guest_extract_text env file w'), w)
  /\ guest_chat env req w = (fst (guest_chat env req w'), w)
  /\ exists response, fst (guest_chat env req w) = Ok response.
Proof.
  destruct (guest_extract_text_outcome file w') as [r [_ Hr]].
  destruct (guest_chat_outcome req w) as [text [Htext Hw]].
  destruct (guest_chat_outcome req w') as [text' [Htext' Hw']].
  rewrite Htext in Htext'. injection Htext' as <-.
  split; [|split].
  - rewrite (Hr w), (Hr w'). reflexivity.
  - rewrite Hw, Hw'. reflexivity.
  - rewrite Hw. eexists. reflexivity.
Qed.

(** X18: a document just uploaded is the context of a chat that selects the
    id the upload returned: the response generator receives the header line of
    the stored filename followed by the extracted text, and the answer names
    that document as its only source. *)
Theorem uploaded_document_is_chat_context (file : UploadFile) (uid : Z)
  (message : pystr) (w : World) :
  acceptable file -> store_up w = true ->
  ids_below doc_id (next_doc_id w) (documents w) ->
  exists text answer,
    extract_text_from_file env (file_read file) (stored_filename file) = Ok text
    /\ generate_response env message
         (lit "--- Document: " ++ stored_filename file ++ lit " ---" ++ nl ++ text)
       = Ok answer
    /\ fst (upload_file env file uid w) = Ok (upload_response file text w)
    /\ fst (chat env (mkChatRequest message (Some [next_doc_id w]) None) uid
              (snd (upload_file env file uid w)))
       = Ok (mkChatResponse answer true
               [mkSource (next_doc_id w) (stored_filename file)]).
Proof.
  intros [Hname [Hsize Hfull]] Hup Hids.
  destruct (extract_text_from_file_total env (file_read file) (stored_filename file))
    as [text Htext].
  set (req := mkChatRequest message (Some [next_doc_id w]) None).
  set (doc := uploaded_document file uid text w).
  assert (Hupload : upload_file env file uid w
                    = (Ok (upload_response file text w),
                       set_documents (fun l => l ++ [doc]) (next_doc_id w + 1) w)).
  { rewrite upload_file_outcome, Hname.
    apply N.ltb_ge in Hsize. rewrite Hsize.
    destruct (file_read file) as [|b content] eqn:Hread; [contradiction|].
    rewrite Htext, Hup. reflexivity. }
  rewrite Hupload. cbn [fst snd].
  set (w1 := set_documents _ _ w).
  assert (Hrows : chat_rows req uid (documents w1) = Some [doc]).
  { unfold chat_rows, req, w1.
    cbn [req_use_all_documents req_selected_documents documents set_documents].
    rewrite filter_app.
    rewrite (ids_below_none doc_id (next_doc_id w) (documents w) _ Hids).
    - cbn [filter app existsb]. unfold Store.owned_by, doc, uploaded_document.
      cbn [doc_user_id doc_id]. rewrite !Z.eqb_refl. reflexivity.
    - intros d Hd. apply andb_prop in Hd. destruct Hd as [_ Hd].
      cbn [existsb] in Hd. rewrite orb_false_r in Hd. apply Z.eqb_eq. exact Hd. }
  destruct (chat_outcome env req uid w1) as [answer [Hanswer Hchat]].
  rewrite Hrows in Hanswer, Hchat.
  exists text, answer. split; [exact Htext|]. split; [exact Hanswer|].
  split; [reflexivity|].
  rewrite Hchat. assert (Hup1 : store_up w1 = true) by exact Hup.
  rewrite Hup1. reflexivity.
Qed.

End InvariantProofs.

(* ================================================================== *)
(** ** More on the extractor *)

Lemma to_N_byte_of_N (n : N) : Byte.to_N (byte_of_N n) = (n mod 256)%N.
Proof.
  unfold byte_of_N.
  pose proof (Byte.to_of_N_option_map (n mod 256)) as H.
  assert (Hlt : (n mod 256 < 256)%N) by (apply N.mod_upper_bound; discriminate).
  assert (Hle : (n mod 256 <=? 255)%N = true) by (apply N.leb_le; lia).
  rewrite Hle in H.
  destruct (Byte.of_N (n mod 256)) as [b|]; [|discriminate H].
  cbn [option_map] in H. injection H as H. exact H.
Qed.

Ltac arith := zify; Z.to_euclidean_division_equations; lia.

(** Replaces each comparison that arithmetic settles by its value. *)
Ltac settle_tests :=
  repeat first
    [ progress cbv iota
    | progress cbn [andb]
    | match goal with
      | |- context [(?a <? ?b)%N] =>
          first [ replace (a <? b)%N with true by (symmetry; apply N.ltb_lt; arith)
                | replace (a <? b)%N with false by (symmetry; apply N.ltb_ge; arith) ]
      | |- context [(?a <=? ?b)%N] =>
          first [ replace (a <=? b)%N with true by (symmetry; apply N.leb_le; arith)
                | replace (a <=? b)%N with false by (symmetry; apply N.leb_gt; arith) ]
      | |- context [(?a =? ?b)%N] =>
          first [ replace (a =? b)%N with true by (symmetry; apply N.eqb_eq; arith)
                | replace (a =? b)%N with false by (symmetry; apply N.eqb_neq; arith) ]
      end ].

(** Decoding reads back one encoded scalar value. *)
Lemma utf8_decode_encode_cp (c : N) (rest : list N) :
  scalar_value c = true ->
  utf8_decode_N (map Byte.to_N (utf8_encode_cp c) ++ rest)
  = option_map (cons c) (utf8_decode_N rest).
Proof.
  unfold scalar_value, utf8_encode_cp. intros Hc.
  assert (Hs : (c < 0xD800 \/ 0xE000 <= c <= 0x10FFFF)%N).
  { apply orb_true_iff in Hc. destruct Hc as [Hc|Hc].
    - left. apply N.ltb_lt. exact Hc.
    - right. apply andb_true_iff in Hc. destruct Hc as [H1 H2].
      apply N.leb_le in H1, H2. lia. }
  clear Hc.
  destruct (N.ltb_spec c 0x80);
    [|destruct (N.ltb_spec c 0x800); [|destruct (N.ltb_spec c 0x10000)]];
    cbn [map app]; rewrite !to_N_byte_of_N.
  - rewrite (N.mod_small c 256) by lia.
    cbn [utf8_decode_N]. settle_tests. reflexivity.
  - rewrite (N.mod_small (0xC0 + c / 64) 256), (N.mod_small (0x80 + c mod 64) 256)
      by arith.
    cbn [utf8_decode_N]. unfold is_cont. settle_tests.
    f_equal. f_equal. arith.
  - rewrite (N.mod_small (0xE0 + c / 4096) 256),
      (N.mod_small (0x80 + (c / 64) mod 64) 256),
      (N.mod_small (0x80 + c mod 64) 256) by arith.
    cbn [utf8_decode_N]. unfold is_cont.
    destruct (N.eqb_spec (0xE0 + c / 4096) 0xE0);
      destruct (N.eqb_spec (0xE0 + c / 4096) 0xED);
      settle_tests; try (f_equal; f_equal; arith); exfalso; arith.
  - rewrite (N.mod_small (0xF0 + c / 262144) 256),
      (N.mod_small (0x80 + (c / 4096) mod 64) 256),
      (N.mod_small (0x80 + (c / 64) mod 64) 256),
      (N.mod_small (0x80 + c mod 64) 256) by arith.
    cbn [utf8_decode_N]. unfold is_cont.
    destruct (N.eqb_spec (0xF0 + c / 262144) 0xF0);
      destruct (N.eqb_spec (0xF0 + c / 262144) 0xF4);
      settle_tests; try (f_equal; f_equal; arith); exfalso; arith.
Qed.

Lemma utf8_decode_encode (s : pystr) :
  forallb scalar_value s = true -> utf8_decode (utf8_encode s) = Some s.
Proof.
  unfold utf8_decode, utf8_encode.
  induction s as [|c s IH]; [reflexivity|].
  cbn [forallb flat_map]. intros H. apply andb_true_iff in H. destruct H as [Hc Hs].
  rewrite map_app, utf8_decode_encode_cp by exact Hc.
  rewrite (IH Hs). reflexivity.
Qed.

(** A text extension is none of the extensions tested before it. *)
Lemma text_extension_is_no_document (ext : pystr) :
  mem_str ext text_extensions = true ->
  pystr_eqb ext (lit "pdf") = false
  /\ pystr_eqb ext (lit "docx") = false
  /\ pystr_eqb ext (lit "doc") = false.
Proof.
  unfold mem_str. intros H. apply existsb_exists in H.
  destruct H as [x [Hin Hx]]. apply pystr_eqb_eq in Hx. subst x.
  unfold text_extensions in Hin. cbn [map In] in Hin.
  repeat (destruct Hin as [<-|Hin]; [repeat split; vm_compute; reflexivity|]).
  destruct Hin.
Qed.

Lemma fold_left_snoc_if {A} (p : A -> bool) (l acc : list A) :
  fold_left (fun acc x => if p x then acc ++ [x] else acc) l acc = acc ++ filter p l.
Proof.
  revert acc. induction l as [|x l IH]; intros acc; cbn [fold_left filter].
  - rewrite app_nil_r. reflexivity.
  - rewrite IH. destruct (p x); [rewrite <- app_assoc|]; reflexivity.
Qed.

Lemma filter_concat {A} (p : A -> bool) (ll : list (list A)) :
  filter p (concat ll) = concat (map (filter p) ll).
Proof.
  induction ll as [|l ll IH]; [reflexivity|].
  cbn [concat map]. rewrite filter_app, IH. reflexivity.
Qed.

Lemma docx_full_text_flat (doc : Docx) :
  docx_full_text doc
  = filter nonblank (paragraphs doc) ++ filter nonblank (concat (concat (tables doc))).
Proof.
  unfold docx_full_text. fold nonblank.
  generalize (filter nonblank (paragraphs doc)) as acc.
  induction (tables doc) as [|table tables IH]; intros acc; cbn [fold_left concat].
  - rewrite app_nil_r. reflexivity.
  - rewrite IH. rewrite concat_app, filter_app, app_assoc. f_equal.
    clear IH. revert acc.
    induction table as [|row table IHt]; intros acc; cbn [fold_left concat].
    + rewrite app_nil_r. reflexivity.
    + rewrite IHt. rewrite filter_app, app_assoc. f_equal.
      apply (fold_left_snoc_if nonblank).
Qed.

Section ExtractionMore.
Variable env : Env.

(** X19: a file that sniffing does not recognise, named with one of the text
    extensions, whose bytes are the UTF-8 encoding of a text, is extracted as
    exactly that text. *)
Theorem utf8_text_file_is_extracted_verbatim (s filename : pystr) :
  forallb scalar_value s = true ->
  filetype_guess env (utf8_encode s) = Ok None ->
  mem_str (file_extension_of env filename) text_extensions = true ->
  extract_text_from_file env (utf8_encode s) filename = Ok s.
Proof.
  intros Hs Hguess Hext.
  destruct (text_extension_is_no_document _ Hext) as [Hpdf [Hdocx Hdoc]].
  unfold extract_text_from_file. rewrite Hguess. cbn [rbind].
  rewrite Hpdf, Hdocx, Hdoc, Hext.
  change (pystr_eqb (lit "application/octet-stream") (lit "application/pdf"))
    with false.
  change (pystr_eqb (lit "application/octet-stream") docx_mime) with false.
  cbn [orb]. rewrite orb_true_r.
  unfold extract_text. rewrite (utf8_decode_encode s Hs). reflexivity.
Qed.

(** X20: when the Word reader reads the file, the extracted text is the
    non-blank paragraphs in order, followed by the non-blank cells of every
    table, row by row, one per line, stripped at both ends. *)
Theorem docx_text_is_paragraphs_then_cells (file_content : bytes) (doc : Docx) :
  docx_document env file_content = Ok doc ->
  extract_docx env file_content
  = Ok (strip (join nl (filter (fun text => truthy (strip text)) (paragraphs doc)
                        ++ filter (fun text => truthy (strip text))
                                  (concat (concat (tables doc)))))).
Proof.
  intros Hdoc. unfold extract_docx. rewrite Hdoc. cbn [rbind rtry].
  rewrite docx_full_text_flat. reflexivity.
Qed.

(** X21: when a file is sniffed as a PDF and extracting the text of one of its
    pages fails, the result is the PDF diagnostic built from that failure
    alone: the text of the pages read before it is dropped, and the pages after
    it are not read. *)
Theorem pdf_page_failure_discards_the_text (file_content : bytes) (filename : pystr)
  (texts : list pystr) (e : exn) (rest : list (result pystr)) :
  filetype_guess env file_content = Ok (Some (lit "application/pdf")) ->
  pdf_pages env file_content = Ok (map Ok texts ++ Raise e :: rest) ->
  extract_text_from_file env file_content filename
  = Ok (lit "[Error reading PDF: " ++ str_exn env e ++ lit "]").
Proof.
  intros Hguess Hpages. unfold extract_text_from_file. rewrite Hguess.
  cbn [rbind].
  change (pystr_eqb (lit "application/pdf") (lit "application/pdf")) with true.
  cbn [orb]. rewrite (extract_pdf_page_failure env _ _ _ _ Hpages). reflexivity.
Qed.

End ExtractionMore.

(** X22: the stored password hash is always 64 characters long, each one of
    the sixteen lower-case hexadecimal digits; the one password that has no
    hash is one that holds a surrogate, which the codec refuses. *)
Theorem hash_password_is_64_hex_digits (password : pystr) :
  match hash_password password with
  | Ok hashed =>
      forallb scalar_value password = true
      /\ length hashed = 64
      /\ Forall (fun c => In c (lit "0123456789abcdef")) hashed
  | Raise e =>
      forallb scalar_value password = false
      /\ exists msg, e = UnicodeEncodeError msg
  end.
Proof.
  destruct (forallb scalar_value password) eqn:Henc.
  - rewrite (hash_password_ok _ Henc). split; [reflexivity|].
    apply hexdigest_shape.
  - destruct (hash_password_raises _ Henc) as [msg ->].
    split; [reflexivity|]. exists msg. reflexivity.
Qed.

(* ================================================================== *)
(** ** Hashing and verification *)


(** Some password verifies against the hash of another one: a consequence of
    [hash_password_collision], which exhibits neither. *)
Lemma verify_password_accepts_some_other_password :
  exists (p1 p2 h1 : pystr),
    p1 <> p2 /\ hash_password p1 = Ok h1 /\ verify_password p2 h1 = Ok true.
Proof.
  destruct hash_password_collision as [p1 [p2 [h [Hne [_ [_ [H1 H2]]]]]]].
  exists p1, p2, h. split; [exact Hne|split; [exact H1|]].
  unfold verify_password. rewrite H2. cbn [rbind]. f_equal.
  apply pystr_eqb_eq. reflexivity.
Qed.



(* ================================================================== *)
(** ** The theorems above on the fixture *)

Lemma fixture_store_ok : store_ok Fixture.world.
Proof.
  unfold store_ok, ids_below. cbn [Fixture.world users documents chat_history
    next_user_id next_doc_id next_turn_id map].
  repeat match goal with |- _ /\ _ => split end;
    try (repeat constructor; cbn; lia);
    try (repeat constructor; cbn; intuition discriminate).
Qed.

Lemma fixture_documents_below :
  ids_below doc_id (next_doc_id Fixture.world) (documents Fixture.world).
Proof. exact (proj1 (proj2 fixture_store_ok)). Qed.

Lemma hello_file_acceptable : acceptable Fixture.hello_file.
Proof.
  unfold acceptable. repeat split; [vm_compute; discriminate|discriminate].
Qed.

(** Carol registers and logs in. *)
Lemma register_then_login_round_trip_witness :
  login Fixture.env (mkUserLogin (lit "carol@example.com") (lit "pw"))
    (snd (register Fixture.env
            (mkUserCreate (lit "carol@example.com") (lit "pw") (lit "Carol"))
            Fixture.world))
  = (Ok (mkTokenResponse (session_token Fixture.env 3 1000) (lit "bearer")
           (mkUser 3 (lit "carol@example.com") (Fixture.hash_of "pw")
                   (lit "Carol") 1000)),
     snd (register Fixture.env
            (mkUserCreate (lit "carol@example.com") (lit "pw") (lit "Carol"))
            Fixture.world)).
Proof.
  apply (register_then_login_round_trip Fixture.env
           (mkUserCreate (lit "carol@example.com") (lit "pw") (lit "Carol"))
           Fixture.world); vm_compute; reflexivity.
Defined.

(** The token of Alice's login, verified at the time of the login. *)
Lemma login_token_lives_900_seconds_witness :
  fst (get_current_user_id Fixture.env
         (Some (session_token Fixture.env 1 1000)) Fixture.world) = Ok 1%Z.
Proof.
  apply (login_token_lives_900_seconds Fixture.env
           (mkUserLogin (lit "alice@example.com") (lit "wonderland"))
           Fixture.world Fixture.world
           (mkTokenResponse (session_token Fixture.env 1 1000) (lit "bearer")
              Fixture.alice)).
  vm_compute. reflexivity.
Defined.

(** A deletion without a token. *)
Lemma rejected_token_runs_no_handler_witness :
  delete_endpoint Fixture.env None 1 Fixture.world = (Raise token_missing, Fixture.world).
Proof.
  apply (rejected_token_runs_no_handler Fixture.env None Fixture.world token_missing
           Fixture.hello_file 1 (mkChatRequest (lit "q") None None)).
  reflexivity.
Defined.

(** A one-minute token. *)
Lemma token_lifetime_is_expires_delta_witness :
  exists token,
    create_access_token Fixture.env (mkClaims (Some 1%Z) None) (Some 60%Z) Fixture.world
    = (Ok token, Fixture.world)
    /\ fst (get_current_user_id Fixture.env (Some token) Fixture.world)
       = if (utcnow Fixture.world + 60 <=? utcnow Fixture.world)%Z
         then Raise token_expired
         else Ok 1%Z.
Proof.
  apply (token_lifetime_is_expires_delta Fixture.env 1 60 Fixture.world Fixture.world).
  discriminate.
Defined.

(** Alice uploads [hello.txt] and asks for it. *)
Lemma upload_then_get_document_witness :
  exists text,
    extract_text_from_file Fixture.env Fixture.hello_bytes (lit "hello.txt") = Ok text
    /\ get_document_content Fixture.env 4 1
         (snd (upload_file Fixture.env Fixture.hello_file 1 Fixture.world))
       = (Ok (uploaded_document Fixture.hello_file 1 text Fixture.world),
          snd (upload_file Fixture.env Fixture.hello_file 1 Fixture.world)).
Proof.
  destruct (upload_then_get_document Fixture.env Fixture.hello_file 1 Fixture.world
              hello_file_acceptable eq_refl fixture_documents_below)
    as [text [Htext [_ [_ [_ [_ Hget]]]]]].
  exists text. split; [exact Htext|exact Hget].
Defined.

(** An empty upload. *)
Lemma failed_upload_stores_nothing_witness :
  snd (upload_file Fixture.env (mkUploadFile (Some (lit "b.txt")) None []) 1
         Fixture.world) = Fixture.world.
Proof.
  apply (failed_upload_stores_nothing Fixture.env
           (mkUploadFile (Some (lit "b.txt")) None []) 1 Fixture.world
           (as_500 Fixture.env 400 "Empty file uploaded.")).
  vm_compute. reflexivity.
Defined.

(** Alice deletes her document 1 and asks for it. *)
Lemma delete_then_get_is_not_found_witness :
  get_document_content Fixture.env 1 1 (snd (delete_document Fixture.env 1 1 Fixture.world))
  = (Raise (as_500 Fixture.env 404 "Document not found"),
     snd (delete_document Fixture.env 1 1 Fixture.world)).
Proof.
  apply (delete_then_get_is_not_found Fixture.env 1 1 Fixture.world).
  vm_compute. reflexivity.
Defined.

(** Alice chats and reads her history. *)
Lemma chat_then_history_ends_with_the_turn_witness :
  exists response earlier,
    fst (chat Fixture.env (mkChatRequest (lit "q") None None) 1 Fixture.world)
    = Ok response
    /\ fst (get_chat_history Fixture.env 1
              (snd (chat Fixture.env (mkChatRequest (lit "q") None None) 1
                      Fixture.world)))
       = Ok (earlier
             ++ [mkChatTurn (next_turn_id Fixture.world) 1 (lit "q")
                   (chat_response response) (chat_context_sources response)
                   (utcnow Fixture.world)]).
Proof.
  apply (chat_then_history_ends_with_the_turn Fixture.env
           (mkChatRequest (lit "q") None None) 1 Fixture.world).
  - reflexivity.
  - repeat constructor; intros _; reflexivity.
Defined.

(** The writers on the fixture. *)
Lemma handlers_keep_the_store_well_formed_witness :
  store_ok (snd (register Fixture.env
                   (mkUserCreate (lit "carol@example.com") (lit "pw") (lit "Carol"))
                   Fixture.world))
  /\ store_ok (snd (upload_file Fixture.env Fixture.hello_file 1 Fixture.world))
  /\ store_ok (snd (delete_document Fixture.env 1 1 Fixture.world))
  /\ store_ok (snd (chat Fixture.env (mkChatRequest (lit "q") None None) 1
                      Fixture.world)).
Proof.
  destruct (handlers_keep_the_store_well_formed Fixture.env Fixture.world
              (mkUserCreate (lit "carol@example.com") (lit "pw") (lit "Carol"))
              (mkUserLogin (lit "alice@example.com") (lit "wonderland"))
              Fixture.hello_file 1 1 (mkChatRequest (lit "q") None None)
              (mkGuestChatRequest (lit "q") None None) fixture_store_ok)
    as [Hregister [_ [Hupload [_ [_ [Hdelete [Hchat _]]]]]]].
  split; [exact Hregister|split; [exact Hupload|split; [exact Hdelete|exact Hchat]]].
Defined.

(** Alice uploads [hello.txt] and chats about it. *)
Lemma uploaded_document_is_chat_context_witness :
  exists answer,
    fst (chat Fixture.env (mkChatRequest (lit "q") (Some [4%Z]) None) 1
           (snd (upload_file Fixture.env Fixture.hello_file 1 Fixture.world)))
    = Ok (mkChatResponse answer true [mkSource 4 (lit "hello.txt")]).
Proof.
  destruct (uploaded_document_is_chat_context Fixture.env Fixture.hello_file 1 (lit "q")
              Fixture.world hello_file_acceptable eq_refl fixture_documents_below)
    as [text [answer [_ [_ [_ Hchat]]]]].
  exists answer. exact Hchat.
Defined.

(** The text file [hello world]. *)
Lemma utf8_text_file_is_extracted_verbatim_witness :
  extract_text_from_file Fixture.env (utf8_encode (lit "hello world")) (lit "hello.txt")
  = Ok (lit "hello world").
Proof.
  apply (utf8_text_file_is_extracted_verbatim Fixture.env (lit "hello world")
           (lit "hello.txt")); vm_compute; reflexivity.
Defined.

(** The Word document with a blank paragraph and one cell. *)
Lemma docx_text_is_paragraphs_then_cells_witness :
  extract_docx Fixture.office_env [x00]
  = Ok (strip (join nl
         (filter (fun text => truthy (strip text)) [lit "Hello"; []; lit "World"]
          ++ filter (fun text => truthy (strip text))
                    (concat (concat [[[lit "Cell1"]]]))))).
Proof.
  apply (docx_text_is_paragraphs_then_cells Fixture.office_env [x00]
           (mkDocx [lit "Hello"; []; lit "World"] [[[lit "Cell1"]]])).
  reflexivity.
Defined.

(** The PDF whose second page fails. *)
Lemma pdf_page_failure_discards_the_text_witness :
  extract_text_from_file Fixture.office_env Fixture.pdf_magic (lit "scan.pdf")
  = Ok (lit "[Error reading PDF: "
        ++ str_exn Fixture.office_env (OtherError (lit "bad page")) ++ lit "]").
Proof.
  apply (pdf_page_failure_discards_the_text Fixture.office_env Fixture.pdf_magic
           (lit "scan.pdf") [lit "Alpha"] (OtherError (lit "bad page"))
           [Ok (lit "Gamma")]); reflexivity.
Defined.

Example word_document_on_fixture :
  extract_text_from_file Fixture.office_env [x00] (lit "letter.docx")
  = Ok (lit "Hello" ++ nl ++ lit "World" ++ nl ++ lit "Cell1").
Proof. vm_compute. reflexivity. Qed.

Example health_check_with_the_store_down :
  fst (health_check (mkWorld [] [] [] 1 1 1 false 42))
  = Ok (mkHealthResponse (lit "healthy") 42 (lit "1.0.0") (lit "connected")
          (lit "connected")).
Proof. reflexivity. Qed.
